(** * simple_cli.py: session lifecycle of the forum client

    A shallow embedding of [WebAPI] (login, token exchange, session probe,
    cookie persistence, front-page scraping, the index and thread-list
    calls, the display of the index), of [main], and of the Python and
    library operations they call, followed by the properties of the
    specification that concern it and by further properties of the
    code. *)

From Stdlib Require Import NArith ZArith List String Ascii Bool Lia.
From Stdlib Require Import DecimalString.
Import ListNotations.

Set Implicit Arguments.

(** ** Python text

    A Python [str] is a sequence of Unicode code points.  Literals of the
    source are written as they appear there and decoded from the UTF-8
    bytes of this file. *)

Module Py.

Definition pystr := list N.

Fixpoint utf8_decode (bs : list N) : pystr :=
  match bs with
  | [] => []
  | b0 :: r0 =>
    if (b0 <? 0x80)%N then b0 :: utf8_decode r0
    else if (b0 <? 0xE0)%N then
      match r0 with
      | b1 :: r1 => ((b0 - 0xC0) * 64 + (b1 - 0x80))%N :: utf8_decode r1
      | _ => []
      end
    else if (b0 <? 0xF0)%N then
      match r0 with
      | b1 :: b2 :: r2 =>
        ((b0 - 0xE0) * 4096 + (b1 - 0x80) * 64 + (b2 - 0x80))%N :: utf8_decode r2
      | _ => []
      end
    else
      match r0 with
      | b1 :: b2 :: b3 :: r3 =>
        ((b0 - 0xF0) * 262144 + (b1 - 0x80) * 4096 + (b2 - 0x80) * 64 + (b3 - 0x80))%N
          :: utf8_decode r3
      | _ => []
      end
  end.

(** [u "..."] is the Python literal ['...']. *)
Definition u (s : string) : pystr :=
  utf8_decode (map N_of_ascii (list_ascii_of_string s)).

Definition str_eqb (a b : pystr) : bool :=
  if list_eq_dec N.eq_dec a b then true else false.

(** A [dict] with text keys keeps the position of the first insertion of
    a key and the value of the last one. *)
Fixpoint dict_set (A : Type) (k : pystr) (v : A) (d : list (pystr * A)) : list (pystr * A) :=
  match d with
  | [] => [(k, v)]
  | (k', v') :: d' => if str_eqb k k' then (k, v) :: d' else (k', v') :: dict_set k v d'
  end.

Fixpoint dict_get (A : Type) (k : pystr) (d : list (pystr * A)) : option A :=
  match d with
  | [] => None
  | (k', v') :: d' => if str_eqb k k' then Some v' else dict_get k d'
  end.

(** [s.startswith(p)] *)
Fixpoint startswith (p s : pystr) : bool :=
  match p, s with
  | [], _ => true
  | a :: p', b :: s' => (a =? b)%N && startswith p' s'
  | _ :: _, [] => false
  end.

(** [s.endswith(p)] *)
Definition endswith (p s : pystr) : bool := startswith (rev p) (rev s).

(** [sub in s] *)
Fixpoint py_in (sub s : pystr) : bool :=
  startswith sub s ||
  match s with
  | [] => false
  | _ :: s' => py_in sub s'
  end.

(** [s.split(sep)] for a non-empty [sep]: the pieces between the
    occurrences of [sep], found from left to right without overlap.
    [skip] counts the characters of a matched separator still to drop. *)
Fixpoint split_go (sep : pystr) (skip : nat) (cur : pystr) (s : pystr) : list pystr :=
  match s with
  | [] => [rev cur]
  | c :: s' =>
    match skip with
    | S k => split_go sep k cur s'
    | O =>
      if startswith sep s then rev cur :: split_go sep (List.length sep - 1) [] s'
      else split_go sep 0 (c :: cur) s'
    end
  end.

Definition split (sep s : pystr) : list pystr := split_go sep 0 [] s.

(** [s.replace(old, "")] for a non-empty [old]. *)
Fixpoint remove_go (old : pystr) (skip : nat) (s : pystr) : pystr :=
  match s with
  | [] => []
  | c :: s' =>
    match skip with
    | S k => remove_go old k s'
    | O =>
      if startswith old s then remove_go old (List.length old - 1) s'
      else c :: remove_go old 0 s'
    end
  end.

Definition remove_all (old s : pystr) : pystr := remove_go old 0 s.

(** [sep.join(parts)] *)
Fixpoint join (sep : pystr) (parts : list pystr) : pystr :=
  match parts with
  | [] => []
  | [p] => p
  | p :: rest => p ++ sep ++ join sep rest
  end.

(** ASCII lower-casing, as [str.lower] acts on header names. *)
Definition lower_char (c : N) : N :=
  if ((0x41 <=? c) && (c <=? 0x5A))%N then (c + 32)%N else c.
Definition lower (s : pystr) : pystr := map lower_char s.

(** Decimal rendering of an integer, [str(n)]. *)
Definition str_of_Z (z : Z) : pystr :=
  u (DecimalString.NilZero.string_of_int (Z.to_int z)).

(** *** [int(s)]

    Base-10 conversion of text: surrounding white space is stripped, one
    sign is allowed, and digits may be grouped by single underscores.
    More than [int_max_str_digits] digits are refused.  Decimal digits
    outside ASCII, which CPython also accepts, are not recognised here. *)

Definition is_space (c : N) : bool :=
  (((0x09 <=? c) && (c <=? 0x0D)) || ((0x1C <=? c) && (c <=? 0x20))
   || (c =? 0x85) || (c =? 0xA0) || (c =? 0x1680)
   || ((0x2000 <=? c) && (c <=? 0x200A))
   || (c =? 0x2028) || (c =? 0x2029) || (c =? 0x202F) || (c =? 0x205F)
   || (c =? 0x3000))%N.

Definition is_digit (c : N) : bool := ((0x30 <=? c) && (c <=? 0x39))%N.
Definition digit_val (c : N) : Z := Z.of_N (c - 0x30).

Fixpoint lstrip (s : pystr) : pystr :=
  match s with
  | c :: s' => if is_space c then lstrip s' else s
  | [] => []
  end.
Definition strip (s : pystr) : pystr := rev (lstrip (rev (lstrip s))).

Definition int_max_str_digits : N := 4300.

(** [after_us] is true at the start and right after an underscore, where
    a digit must come next. *)
Fixpoint digits_go (acc : Z) (n : N) (after_us : bool) (s : pystr) : option (Z * N) :=
  match s with
  | [] => if after_us then None else Some (acc, n)
  | c :: s' =>
    if is_digit c then digits_go (acc * 10 + digit_val c) (N.succ n) false s'
    else if (c =? 0x5F)%N && negb after_us then digits_go acc n true s'
    else None
  end.

Definition int_unsigned (s : pystr) : option Z :=
  match digits_go 0 0 true s with
  | Some (z, n) => if (n <=? int_max_str_digits)%N then Some z else None
  | None => None
  end.

(** [None] stands for [ValueError]. *)
Definition int (s : pystr) : option Z :=
  match strip s with
  | c :: s' =>
    if (c =? 0x2D)%N then option_map Z.opp (int_unsigned s')
    else if (c =? 0x2B)%N then int_unsigned s'
    else int_unsigned (c :: s')
  | [] => None
  end.

End Py.

(** ** The [json] module

    [loads] and [dumps] with their default settings (strict strings,
    [ensure_ascii], separators [", "] and [": "]).  A float is carried by
    the literal it was read from and written back as that literal;
    nothing below depends on floats. *)

Module Json.
Import Py.

#[local] Set Warnings "-register-all".

Inductive json :=
| JNull
| JBool (b : bool)
| JInt (z : Z)
| JFloat (lit : pystr)
| JStr (s : pystr)
| JArr (l : list json)
| JObj (m : list (pystr * json)).

(** *** Decoding *)

Inductive result (A : Type) :=
| Ok (a : A) (rest : pystr)
| Bad
| OutOfFuel.
Arguments Bad {A}.
Arguments OutOfFuel {A}.

Definition is_ws (c : N) : bool :=
  ((c =? 0x20) || (c =? 0x09) || (c =? 0x0A) || (c =? 0x0D))%N.

Fixpoint skip_ws (s : pystr) : pystr :=
  match s with
  | c :: s' => if is_ws c then skip_ws s' else s
  | [] => []
  end.

Definition hexval (c : N) : option N :=
  if is_digit c then Some (c - 0x30)%N
  else if ((0x61 <=? c) && (c <=? 0x66))%N then Some (c - 0x61 + 10)%N
  else if ((0x41 <=? c) && (c <=? 0x46))%N then Some (c - 0x41 + 10)%N
  else None.

Definition unhex4 (a b c d : N) : option N :=
  match hexval a, hexval b, hexval c, hexval d with
  | Some x3, Some x2, Some x1, Some x0 => Some (x3 * 4096 + x2 * 256 + x1 * 16 + x0)%N
  | _, _, _, _ => None
  end.

Definition is_high_surrogate (c : N) : bool := ((0xD800 <=? c) && (c <=? 0xDBFF))%N.
Definition is_low_surrogate (c : N) : bool := ((0xDC00 <=? c) && (c <=? 0xDFFF))%N.
Definition join_surrogates (hi lo : N) : N :=
  (0x10000 + N.lor (N.shiftl (hi - 0xD800) 10) (lo - 0xDC00))%N.

(** The one-letter escapes: quote, backslash, slash, b, f, n, r, t. *)
Definition unescape (e : N) : option N :=
  if (e =? 0x22)%N then Some 0x22%N
  else if (e =? 0x5C)%N then Some 0x5C%N
  else if (e =? 0x2F)%N then Some 0x2F%N
  else if (e =? 0x62)%N then Some 0x08%N
  else if (e =? 0x66)%N then Some 0x0C%N
  else if (e =? 0x6E)%N then Some 0x0A%N
  else if (e =? 0x72)%N then Some 0x0D%N
  else if (e =? 0x74)%N then Some 0x09%N
  else None.

Definition cons_to (c : N) (r : option (pystr * pystr)) : option (pystr * pystr) :=
  match r with
  | Some (str, rest) => Some (c :: str, rest)
  | None => None
  end.

(** [scanstring] reads a string body, from just after its opening quote
    to its closing quote. *)
Fixpoint scanstring (s : pystr) : option (pystr * pystr) :=
  match s with
  | [] => None
  | c :: r =>
    if (c =? 0x22)%N then Some ([], r)
    else if (c =? 0x5C)%N then
      match r with
      | [] => None
      | e :: r1 =>
        if (e =? 0x75)%N then
          match r1 with
          | h1 :: h2 :: h3 :: h4 :: r2 =>
            match unhex4 h1 h2 h3 h4 with
            | None => None
            | Some uni =>
              if is_high_surrogate uni then
                match r2 with
                | b :: e2 :: g1 :: g2 :: g3 :: g4 :: r3 =>
                  if ((b =? 0x5C) && (e2 =? 0x75))%N then
                    match unhex4 g1 g2 g3 g4 with
                    | None => None
                    | Some uni2 =>
                      if is_low_surrogate uni2
                      then cons_to (join_surrogates uni uni2) (scanstring r3)
                      else cons_to uni (scanstring r2)
                    end
                  else cons_to uni (scanstring r2)
                | _ => cons_to uni (scanstring r2)
                end
              else cons_to uni (scanstring r2)
            end
          | _ => None
          end
        else
          match unescape e with
          | Some ch => cons_to ch (scanstring r1)
          | None => None
          end
      end
    else if (c <? 0x20)%N then None
    else cons_to c (scanstring r)
  end.

Fixpoint span_digits (s : pystr) : pystr * pystr :=
  match s with
  | c :: s' =>
    if is_digit c then let (ds, r) := span_digits s' in (c :: ds, r) else ([], s)
  | [] => ([], [])
  end.

Definition digits_value (ds : pystr) : Z :=
  fold_left (fun acc c => (acc * 10 + digit_val c)%Z) ds 0%Z.

(** The integer part of a number: [0], or a non-zero digit and more
    digits. *)
Definition int_part (s : pystr) : option (pystr * pystr) :=
  match s with
  | c :: s' =>
    if (c =? 0x30)%N then Some ([c], s')
    else if is_digit c then let (ds, r) := span_digits s' in Some (c :: ds, r)
    else None
  | [] => None
  end.

Definition frac_part (s : pystr) : pystr * pystr :=
  match s with
  | c :: s' =>
    if (c =? 0x2E)%N then
      match span_digits s' with
      | ([], _) => ([], s)
      | (ds, r) => (c :: ds, r)
      end
    else ([], s)
  | [] => ([], [])
  end.

Definition exp_part (s : pystr) : pystr * pystr :=
  match s with
  | c :: s' =>
    if ((c =? 0x65) || (c =? 0x45))%N then
      match s' with
      | sg :: s'' =>
        if ((sg =? 0x2B) || (sg =? 0x2D))%N then
          match span_digits s'' with
          | ([], _) => ([], s)
          | (ds, r) => (c :: sg :: ds, r)
          end
        else
          match span_digits s' with
          | ([], _) => ([], s)
          | (ds, r) => (c :: ds, r)
          end
      | [] => ([], s)
      end
    else ([], s)
  | [] => ([], [])
  end.

Definition scan_number (s : pystr) : result json :=
  let (sign, s0) :=
    match s with
    | c :: s' => if (c =? 0x2D)%N then ([c], s') else ([], s)
    | [] => ([], s)
    end in
  match int_part s0 with
  | None => Bad
  | Some (ip, s1) =>
    let (fp, s2) := frac_part s1 in
    let (ep, s3) := exp_part s2 in
    match fp, ep with
    | [], [] =>
      if (N.of_nat (List.length ip) <=? int_max_str_digits)%N
      then Ok (JInt (match sign with [] => digits_value ip | _ => - digits_value ip end)%Z) s3
      else Bad
    | _, _ => Ok (JFloat (sign ++ ip ++ fp ++ ep)) s3
    end
  end.

Definition scan_const (s : pystr) : result json :=
  if startswith (u "NaN") s then Ok (JFloat (u "NaN")) (skipn 3 s)
  else if startswith (u "Infinity") s then Ok (JFloat (u "Infinity")) (skipn 8 s)
  else if startswith (u "-Infinity") s then Ok (JFloat (u "-Infinity")) (skipn 9 s)
  else Bad.

(** The loops of [JSONArray] and [JSONObject]; [scan] decodes one value. *)
Fixpoint array_loop (scan : pystr -> result json) (n : nat) (acc : list json) (s : pystr)
  : result json :=
  match n with
  | O => OutOfFuel
  | S n' =>
    match scan s with
    | Ok v r =>
      match skip_ws r with
      | c :: r' =>
        if (c =? 0x5D)%N then Ok (JArr (rev (v :: acc))) r'
        else if (c =? 0x2C)%N then array_loop scan n' (v :: acc) (skip_ws r')
        else Bad
      | [] => Bad
      end
    | Bad => Bad
    | OutOfFuel => OutOfFuel
    end
  end.

Definition parse_array (scan : pystr -> result json) (n : nat) (s : pystr) : result json :=
  match skip_ws s with
  | c :: r => if (c =? 0x5D)%N then Ok (JArr []) r else array_loop scan n [] (c :: r)
  | [] => Bad
  end.

(** [s] starts just after the opening quote of a key. *)
Fixpoint object_loop (scan : pystr -> result json) (n : nat) (acc : list (pystr * json))
  (s : pystr) : result json :=
  match n with
  | O => OutOfFuel
  | S n' =>
    match scanstring s with
    | None => Bad
    | Some (key, r) =>
      match skip_ws r with
      | c :: r1 =>
        if (c =? 0x3A)%N then
          match scan (skip_ws r1) with
          | Ok v r2 =>
            match skip_ws r2 with
            | d :: r3 =>
              if (d =? 0x7D)%N then Ok (JObj (dict_set key v acc)) r3
              else if (d =? 0x2C)%N then
                match skip_ws r3 with
                | q :: r4 =>
                  if (q =? 0x22)%N then object_loop scan n' (dict_set key v acc) r4 else Bad
                | [] => Bad
                end
              else Bad
            | [] => Bad
            end
          | Bad => Bad
          | OutOfFuel => OutOfFuel
          end
        else Bad
      | [] => Bad
      end
    end
  end.

Definition parse_object (scan : pystr -> result json) (n : nat) (s : pystr) : result json :=
  match skip_ws s with
  | c :: r =>
    if (c =? 0x7D)%N then Ok (JObj []) r
    else if (c =? 0x22)%N then object_loop scan n [] r
    else Bad
  | [] => Bad
  end.

Fixpoint scan_once (fuel : nat) (s : pystr) : result json :=
  match fuel with
  | O => OutOfFuel
  | S f =>
    match s with
    | [] => Bad
    | c :: r =>
      if (c =? 0x22)%N then
        match scanstring r with
        | Some (str, r') => Ok (JStr str) r'
        | None => Bad
        end
      else if (c =? 0x7B)%N then parse_object (scan_once f) f r
      else if (c =? 0x5B)%N then parse_array (scan_once f) f r
      else if startswith (u "null") s then Ok JNull (skipn 4 s)
      else if startswith (u "true") s then Ok (JBool true) (skipn 4 s)
      else if startswith (u "false") s then Ok (JBool false) (skipn 5 s)
      else
        match scan_number s with
        | Ok v r' => Ok v r'
        | _ => scan_const s
        end
    end
  end.

(** [json.loads(s)]; [None] stands for the error it raises. *)
Definition loads (s : pystr) : option json :=
  match scan_once (S (List.length s)) (skip_ws s) with
  | Ok v r => match skip_ws r with [] => Some v | _ :: _ => None end
  | _ => None
  end.

(** *** Encoding *)

Definition hexdigit (d : N) : N :=
  if (d <? 10)%N then (0x30 + d)%N else (0x61 + (d - 10))%N.

(** ['{0:04x}'.format(n)] for [n < 0x10000] *)
Definition hex4 (n : N) : pystr :=
  [hexdigit (n / 4096 mod 16); hexdigit (n / 256 mod 16);
   hexdigit (n / 16 mod 16); hexdigit (n mod 16)]%N.

Definition uescape (n : N) : pystr := 0x5C%N :: 0x75%N :: hex4 n.

Definition escape_char (c : N) : pystr :=
  if (c =? 0x22)%N then [0x5C; 0x22]%N
  else if (c =? 0x5C)%N then [0x5C; 0x5C]%N
  else if (c =? 0x08)%N then [0x5C; 0x62]%N
  else if (c =? 0x0C)%N then [0x5C; 0x66]%N
  else if (c =? 0x0A)%N then [0x5C; 0x6E]%N
  else if (c =? 0x0D)%N then [0x5C; 0x72]%N
  else if (c =? 0x09)%N then [0x5C; 0x74]%N
  else if ((0x20 <=? c) && (c <=? 0x7E))%N then [c]
  else if (c <? 0x10000)%N then uescape c
  else
    let n := (c - 0x10000)%N in
    uescape (N.lor 0xD800 (N.land (N.shiftr n 10) 0x3FF))
    ++ uescape (N.lor 0xDC00 (N.land n 0x3FF)).

Definition quote (s : pystr) : pystr :=
  0x22%N :: flat_map escape_char s ++ [0x22%N].

Fixpoint dumps (j : json) : pystr :=
  match j with
  | JNull => u "null"
  | JBool true => u "true"
  | JBool false => u "false"
  | JInt z => str_of_Z z
  | JFloat lit => lit
  | JStr s => quote s
  | JArr l => u "[" ++ join (u ", ") (map dumps l) ++ u "]"
  | JObj m =>
    u "{" ++ join (u ", ") (map (fun kv => quote (fst kv) ++ u ": " ++ dumps (snd kv)) m)
      ++ u "}"
  end.

End Json.

(** ** Exceptions and effects *)

Import Py Json.

(** The exception classes that occur; all of them derive from
    [Exception].  [RequestException] stands for the transport faults of
    [requests] (connection errors, DNS failures, timeouts).  The wording
    of the messages that the interpreter and the libraries produce is
    abbreviated. *)
Inductive exn_class :=
| HepanException
| Exception
| RequestException
| HTTPError
| JSONDecodeError
| ValueError
| KeyError
| TypeError
| IndexError
| OSError
| FileNotFoundError.

Record exn := Exn { cls : exn_class; message : pystr }.

Definition exn_class_eqb (a b : exn_class) : bool :=
  match a, b with
  | HepanException, HepanException | Exception, Exception
  | RequestException, RequestException | HTTPError, HTTPError
  | JSONDecodeError, JSONDecodeError | ValueError, ValueError
  | KeyError, KeyError | TypeError, TypeError | IndexError, IndexError
  | OSError, OSError | FileNotFoundError, FileNotFoundError => true
  | _, _ => false
  end.

(** [isinstance(e, c)] for a class [c] without subclasses *)
Definition isinstance (e : exn) (c : exn_class) : bool := exn_class_eqb (cls e) c.

Inductive outcome (A : Type) :=
| Ret (a : A)
| Raise (e : exn).
Arguments Raise {A}.

Definition obind (A B : Type) (m : outcome A) (k : A -> outcome B) : outcome B :=
  match m with
  | Ret a => k a
  | Raise e => Raise e
  end.

Declare Scope outcome_scope.
Delimit Scope outcome_scope with outcome.
Notation "x <- m ;; k" := (obind m (fun x => k))
  (at level 61, m at next level, right associativity) : outcome_scope.

(** ** BeautifulSoup documents

    A parsed document: tags with their attributes and children, and
    text.  The attributes used here ([id], [title], [href]) hold text. *)

Module Bs4.

#[local] Set Warnings "-register-all".

Inductive node :=
| Tag (name : pystr) (attrs : list (pystr * pystr)) (children : list node)
| NavigableString (s : pystr).

(** [tag.descendants]: everything below a node, in document order. *)
Fixpoint descendants (n : node) : list node :=
  match n with
  | Tag _ _ ch => flat_map (fun c => c :: descendants c) ch
  | NavigableString _ => []
  end.

Definition tag_name_is (nm : pystr) (n : node) : bool :=
  match n with
  | Tag nm' _ _ => str_eqb nm' nm
  | NavigableString _ => false
  end.

Definition get (n : node) (attr : pystr) : option pystr :=
  match n with
  | Tag _ attrs _ => dict_get attr attrs
  | NavigableString _ => None
  end.

(** [node.find(id=target)] *)
Definition find_id (target : pystr) (n : node) : option node :=
  List.find (fun d => match get d (u "id") with
                      | Some v => str_eqb v target
                      | None => false
                      end) (descendants n).

(** [node.find_all(name)] *)
Definition find_all (nm : pystr) (n : node) : list node :=
  filter (tag_name_is nm) (descendants n).

(** [node.find(name, attr=True)] *)
Definition find_with_attr (nm attr : pystr) (n : node) : option node :=
  List.find (fun d => tag_name_is nm d &&
                      match get d attr with Some _ => true | None => false end)
            (descendants n).

End Bs4.

(** ** Sessions, files and the network *)

(** A cookie name is text when it comes from a response or from a JSON
    object; the other key types arise only when [cookiejar_from_dict] is
    handed a JSON array. *)
Inductive pykey :=
| KStr (s : pystr)
| KInt (z : Z)
| KBool (b : bool).

Definition key_eqb (a b : pykey) : bool :=
  match a, b with
  | KStr s, KStr t => str_eqb s t
  | KInt x, KInt y => (x =? y)%Z
  | KBool x, KBool y => Bool.eqb x y
  | KInt x, KBool y | KBool y, KInt x => (x =? (if y then 1 else 0))%Z
  | _, _ => false
  end.

Record cookie := Cookie {
  name : pykey;
  value : json;
  domain : pystr;
  path : pystr }.

(** The cookies of a jar, in iteration order. *)
Definition jar := list cookie.

(** [session.headers]: a case-insensitive dict, keyed by the lower-cased
    name and holding the name as written and the value. *)
Definition headers := list (pystr * (pystr * json)).

Record response := Response {
  status_code : Z;
  text : pystr }.

Record request := Request {
  method : pystr;
  url : pystr;
  data : list (pystr * option pystr);
  req_headers : list (pystr * pystr);
  timeout : option Z }.

(** What a request met: the session's cookies and headers when it was
    sent. *)
Record sent_request := Sent {
  sent_req : request;
  sent_cookies : jar;
  sent_headers : headers }.

(** What the network answers: a response, or a transport fault (no
    connection, DNS failure, reset, timeout) with its message; and the
    session's cookie jar as the exchange leaves it. *)
Inductive net_answer :=
| Answer (r : response)
| Fault (msg : pystr).

Record net_result := Net {
  net_answer_of : net_answer;
  net_cookies : jar }.

(** The client object together with its surroundings: the file
    [cookies.json] ([None] when it does not exist; it is empty exactly
    when its text is), whether the file can be written, the answers the
    network will give, in order, the requests sent and the lines
    printed. *)
Record state := State {
  username : option pystr;
  password : option pystr;
  cookies : jar;
  session_headers : headers;
  cookies_json : option pystr;
  disk_writable : bool;
  net : list net_result;
  sent : list sent_request;
  stdout : list pystr }.

Definition M (A : Type) := state -> outcome A * state.

Definition ret (A : Type) (a : A) : M A := fun st => (Ret a, st).
Definition raise (A : Type) (e : exn) : M A := fun st => (Raise e, st).
Definition bind (A B : Type) (m : M A) (k : A -> M B) : M B :=
  fun st => match m st with
            | (Ret a, st') => k a st'
            | (Raise e, st') => (Raise e, st')
            end.
Definition lift (A : Type) (o : outcome A) : M A := fun st => (o, st).
Arguments raise {A} e.

(** [try: body / except Exception as e: handler e] *)
Definition try_except (A : Type) (body : M A) (handler : exn -> M A) : M A :=
  fun st => match body st with
            | (Ret a, st') => (Ret a, st')
            | (Raise e, st') => handler e st'
            end.

Declare Scope py_scope.
Delimit Scope py_scope with py.
Notation "x <- m ;; k" := (bind m (fun x => k))
  (at level 61, m at next level, right associativity) : py_scope.
Notation "m ;; k" := (bind m (fun _ => k))
  (at level 61, right associativity) : py_scope.

Definition print (line : pystr) : M unit :=
  fun st => (Ret tt,
    State (username st) (password st) (cookies st) (session_headers st)
          (cookies_json st) (disk_writable st) (net st) (sent st) (stdout st ++ [line])).

Definition set_cookies (j : jar) : M unit :=
  fun st => (Ret tt,
    State (username st) (password st) j (session_headers st)
          (cookies_json st) (disk_writable st) (net st) (sent st) (stdout st)).

Definition set_session_headers (h : headers) : M unit :=
  fun st => (Ret tt,
    State (username st) (password st) (cookies st) h
          (cookies_json st) (disk_writable st) (net st) (sent st) (stdout st)).

Definition get_state : M state := fun st => (Ret st, st).

(** [open('cookies.json', 'w')] and writing [content] to it *)
Definition write_cookies_json (content : pystr) : M unit :=
  fun st =>
    if disk_writable st then
      (Ret tt,
       State (username st) (password st) (cookies st) (session_headers st)
             (Some content) (disk_writable st) (net st) (sent st) (stdout st))
    else (Raise (Exn OSError (u "[Errno 13] Permission denied: 'cookies.json'")), st).

(** [open('cookies.json', 'r')] and reading it whole *)
Definition read_cookies_json : M pystr :=
  fun st =>
    match cookies_json st with
    | Some content => (Ret content, st)
    | None =>
      (Raise (Exn FileNotFoundError
                  (u "[Errno 2] No such file or directory: 'cookies.json'")), st)
    end.

(** [os.path.exists('cookies.json')] *)
Definition path_exists : M bool :=
  fun st => (Ret (match cookies_json st with Some _ => true | None => false end), st).

(** [os.path.getsize('cookies.json') > 0] *)
Definition getsize_positive : M bool :=
  fun st =>
    match cookies_json st with
    | Some [] => (Ret false, st)
    | Some (_ :: _) => (Ret true, st)
    | None =>
      (Raise (Exn FileNotFoundError
                  (u "[Errno 2] No such file or directory: 'cookies.json'")), st)
    end.

Module Requests.

(** [session.request]: the next answer of the network is consumed, the
    jar follows the exchange, and the request is recorded.  When the
    network has nothing to answer the connection fails. *)
Definition send (rq : request) : M response :=
  fun st =>
    let record := sent st ++ [Sent rq (cookies st) (session_headers st)] in
    match net st with
    | [] =>
      (Raise (Exn RequestException (u "Connection aborted")),
       State (username st) (password st) (cookies st) (session_headers st)
             (cookies_json st) (disk_writable st) [] record (stdout st))
    | a :: rest =>
      (match net_answer_of a with
       | Answer r => Ret r
       | Fault msg => Raise (Exn RequestException msg)
       end,
       State (username st) (password st) (net_cookies a) (session_headers st)
             (cookies_json st) (disk_writable st) rest record (stdout st))
    end.

(** [r.raise_for_status()] raises for the statuses 400 to 599. *)
Definition raise_for_status (r : response) : outcome unit :=
  if ((400 <=? status_code r) && (status_code r <? 500))%Z
  then Raise (Exn HTTPError (str_of_Z (status_code r) ++ u " Client Error"))
  else if ((500 <=? status_code r) && (status_code r <? 600))%Z
  then Raise (Exn HTTPError (str_of_Z (status_code r) ++ u " Server Error"))
  else Ret tt.

(** [r.json()] *)
Definition json_of (r : response) : outcome json :=
  match loads (text r) with
  | Some j => Ret j
  | None => Raise (Exn JSONDecodeError (u "Expecting value"))
  end.

(** [session.headers.update({key: v})] *)
Fixpoint headers_set (key : pystr) (v : json) (h : headers) : headers :=
  match h with
  | [] => [(lower key, (key, v))]
  | (k', e) :: h' =>
    if str_eqb (lower key) k' then (k', (key, v)) :: h'
    else (k', e) :: headers_set key v h'
  end.

(** [jar.set_cookie(c)]: a value wrapped in double quotes loses its
    escaped quotes, and the cookie replaces the one stored under the
    same domain, path and name. *)
Definition unquote_value (v : json) : json :=
  match v with
  | JStr s =>
    if startswith [0x22%N] s && endswith [0x22%N] s
    then JStr (remove_all [0x5C%N; 0x22%N] s) else v
  | _ => v
  end.

Definition same_slot (a b : cookie) : bool :=
  str_eqb (domain a) (domain b) && str_eqb (path a) (path b) && key_eqb (name a) (name b).

Fixpoint jar_put (c : cookie) (j : jar) : jar :=
  match j with
  | [] => [c]
  | c' :: j' => if same_slot c c' then c :: j' else c' :: jar_put c j'
  end.

Definition set_cookie (c : cookie) (j : jar) : jar :=
  jar_put (Cookie (name c) (unquote_value (value c)) (domain c) (path c)) j.

(** [create_cookie(name, value)] *)
Definition create_cookie (nm : pykey) (v : json) : cookie :=
  Cookie nm v [] (u "/").

(** [dict_from_cookiejar(jar)]: [{cookie.name: cookie.value for cookie in jar}] *)
Fixpoint pydict_set (k : pykey) (v : json) (d : list (pykey * json)) : list (pykey * json) :=
  match d with
  | [] => [(k, v)]
  | (k', v') :: d' => if key_eqb k k' then (k', v) :: d' else (k', v') :: pydict_set k v d'
  end.

Definition dict_from_cookiejar (j : jar) : list (pykey * json) :=
  fold_left (fun d c => pydict_set (name c) (value c) d) j [].

(** [cookie_dict[e]] for a list [cookie_dict] *)
Definition list_getitem (l : list json) (e : json) : outcome json :=
  let at_index (i : Z) :=
    let n := Z.of_nat (List.length l) in
    let i' := if (i <? 0)%Z then (i + n)%Z else i in
    if ((0 <=? i') && (i' <? n))%Z then
      match nth_error l (Z.to_nat i') with
      | Some v => Ret v
      | None => Raise (Exn IndexError (u "list index out of range"))
      end
    else Raise (Exn IndexError (u "list index out of range")) in
  match e with
  | JInt i => at_index i
  | JBool b => at_index (if b then 1 else 0)%Z
  | _ => Raise (Exn TypeError (u "list indices must be integers or slices"))
  end.

Definition key_of_index (e : json) : pykey :=
  match e with
  | JBool b => KBool b
  | JInt i => KInt i
  | _ => KInt 0
  end.

(** [cookiejar_from_dict(cookie_dict)], which builds a new jar.  It is
    written for a dict, and does as follows on the other values that
    [json.load] can produce. *)
Definition cookiejar_from_dict (cookie_dict : json) : outcome jar :=
  match cookie_dict with
  | JNull => Ret []
  | JObj m =>
    Ret (fold_left (fun j kv => set_cookie (create_cookie (KStr (fst kv)) (snd kv)) j) m [])
  | JArr l =>
    fold_left (fun acc e =>
                 (j <- acc ;; v <- list_getitem l e ;;
                  Ret (set_cookie (create_cookie (key_of_index e) v) j))%outcome)
              l (Ret [])
  | JStr [] => Ret []
  | JStr (_ :: _) => Raise (Exn TypeError (u "string indices must be integers"))
  | JInt _ | JFloat _ | JBool _ => Raise (Exn TypeError (u "object is not iterable"))
  end.

End Requests.

(** [json.dumps] of a dict turns its keys into text. *)
Definition key_text (k : pykey) : pystr :=
  match k with
  | KStr s => s
  | KInt z => str_of_Z z
  | KBool true => u "true"
  | KBool false => u "false"
  end.

Definition dumps_dict (d : list (pykey * json)) : pystr :=
  dumps (JObj (map (fun kv => (key_text (fst kv), snd kv)) d)).

(** [obj[key]] for a text key [key] *)
Definition getitem (obj : json) (key : pystr) : outcome json :=
  match obj with
  | JObj m =>
    match dict_get key m with
    | Some v => Ret v
    | None => Raise (Exn KeyError (u "'" ++ key ++ u "'"))
    end
  | JArr _ => Raise (Exn TypeError (u "list indices must be integers or slices, not str"))
  | JStr _ => Raise (Exn TypeError (u "string indices must be integers, not 'str'"))
  | _ => Raise (Exn TypeError (u "object is not subscriptable"))
  end.

(** ** The rest of the program's surroundings

    [get_index_data], [get_latest_threads], [display_index_data] and
    [main] reach beyond the session: they write [index_data.json], send
    query parameters, read what the user types and end the process. *)

(** The JSON values double as the Python values that a decoded reply is
    made of.  [type(v).__name__]: *)
Definition type_name (v : json) : pystr :=
  match v with
  | JNull => u "NoneType"
  | JBool _ => u "bool"
  | JInt _ => u "int"
  | JFloat _ => u "float"
  | JStr _ => u "str"
  | JArr _ => u "list"
  | JObj _ => u "dict"
  end.

(** What these functions can end with, besides the exceptions of
    [exn_class]: [AttributeError] and [UnicodeEncodeError] with their
    messages, the [EOFError] of a prompt that finds no more input, and
    [SystemExit], the only one that is not an [Exception]. *)
Inductive error :=
| Raised (e : exn)
| AttributeError (msg : pystr)
| UnicodeEncodeError (msg : pystr)
| EOFError
| SystemExit (status : Z).

(** [str(e)] *)
Definition error_text (e : error) : pystr :=
  match e with
  | Raised x => message x
  | AttributeError msg => msg
  | UnicodeEncodeError msg => msg
  | EOFError => u "EOF when reading a line"
  | SystemExit status => str_of_Z status
  end.

(** [isinstance(e, Exception)] and [isinstance(e, HepanException)] *)
Definition is_Exception (e : error) : bool :=
  match e with
  | SystemExit _ => false
  | _ => true
  end.

Definition is_HepanException (e : error) : bool :=
  match e with
  | Raised x => isinstance x HepanException
  | _ => false
  end.

Inductive run (A : Type) :=
| Done (a : A)
| Failed (e : error).
Arguments Failed {A}.

(** The client and its surroundings, [state], together with the file
    [index_data.json] ([None] when it does not exist), whether that file
    can be written, the query parameters sent, each with the URL they
    went to, the lines waiting on the standard input, the lines that the
    user types at the terminal when asked for a password, and the
    prompts shown. *)
Record world := World {
  client : state;
  index_data_json : option pystr;
  index_data_writable : bool;
  sent_params : list (pystr * list (pystr * pystr));
  stdin : list pystr;
  tty : list pystr;
  prompts : list pystr }.

Definition W (A : Type) := world -> run A * world.

Definition wret (A : Type) (a : A) : W A := fun w => (Done a, w).
Definition fail (A : Type) (e : error) : W A := fun w => (Failed e, w).
Definition wbind (A B : Type) (m : W A) (k : A -> W B) : W B :=
  fun w => match m w with
           | (Done a, w') => k a w'
           | (Failed e, w') => (Failed e, w')
           end.
Arguments fail {A} e.

(** [try: body / except Exception as e: handler e] *)
Definition wtry (A : Type) (body : W A) (handler : error -> W A) : W A :=
  fun w => match body w with
           | (Done a, w') => (Done a, w')
           | (Failed e, w') => if is_Exception e then handler e w' else (Failed e, w')
           end.

Declare Scope run_scope.
Delimit Scope run_scope with run.
Notation "x <- m ;; k" := (wbind m (fun x => k))
  (at level 61, m at next level, right associativity) : run_scope.
Notation "m ;; k" := (wbind m (fun _ => k))
  (at level 61, right associativity) : run_scope.

Definition with_client (st : state) (w : world) : world :=
  World st (index_data_json w) (index_data_writable w) (sent_params w)
        (stdin w) (tty w) (prompts w).

(** A step of the session, taken in these surroundings. *)
Definition of_client (A : Type) (m : M A) : W A :=
  fun w => match m (client w) with
           | (Ret a, st') => (Done a, with_client st' w)
           | (Raise e, st') => (Failed (Raised e), with_client st' w)
           end.

Definition of_outcome (A : Type) (o : outcome A) : W A :=
  fun w => (match o with Ret a => Done a | Raise e => Failed (Raised e) end, w).

Definition of_run (A : Type) (r : run A) : W A := fun w => (r, w).

Definition wprint (line : pystr) : W unit := of_client (print line).

(** [for x in xs: body x] *)
Fixpoint for_each (A : Type) (xs : list A) (body : A -> W unit) : W unit :=
  match xs with
  | [] => wret tt
  | x :: rest => (body x ;; for_each rest body)%run
  end.

(** Text that UTF-8 can encode: no surrogate code point in it. *)
Definition encodable (s : pystr) : bool :=
  forallb (fun c => negb (is_high_surrogate c || is_low_surrogate c)) s.

(** [str(n)]: an integer of more than [int_max_str_digits] digits is
    refused. *)
Definition str_of_int (n : Z) : run pystr :=
  if (N.of_nat (List.length (str_of_Z (Z.abs n))) <=? int_max_str_digits)%N
  then Done (str_of_Z n)
  else Failed (Raised (Exn ValueError
                           (u "Exceeds the limit (4300 digits) for integer string conversion"))).

(** The value of a query parameter: text or an integer. *)
Inductive param :=
| PStr (s : pystr)
| PInt (n : Z).

(** The text that each value goes into the URL with. *)
Fixpoint render_params (params : list (pystr * param)) : run (list (pystr * pystr)) :=
  match params with
  | [] => Done []
  | (k, v) :: rest =>
    match (match v with PStr s => Done s | PInt n => str_of_int n end) with
    | Done s =>
      match render_params rest with
      | Done l => Done ((k, s) :: l)
      | Failed e => Failed e
      end
    | Failed e => Failed e
    end
  end.

Definition param_encodable (kv : pystr * param) : bool :=
  encodable (fst kv) && match snd kv with PStr s => encodable s | PInt _ => true end.

(** [session.get(url, params=params, ...)]: the parameters are encoded
    into the URL before anything is sent.  This fails on text that UTF-8
    cannot encode and, after that, on an integer that [str] refuses. *)
Definition get_with_params (rq : request) (params : list (pystr * param)) : W response :=
  fun w =>
    if forallb param_encodable params then
      match render_params params with
      | Done rendered =>
        of_client (Requests.send rq)
          (World (client w) (index_data_json w) (index_data_writable w)
                 (sent_params w ++ [(url rq, rendered)]) (stdin w) (tty w) (prompts w))
      | Failed e => (Failed e, w)
      end
    else
      (Failed (UnicodeEncodeError (u "'utf-8' codec can't encode character: surrogates not allowed")), w).

(** [with open('index_data.json', 'w', encoding='utf-8') as f: f.write(content)]:
    opening empties the file, and text that UTF-8 cannot encode is
    refused as a whole. *)
Definition write_index_data (content : pystr) : W unit :=
  fun w =>
    if index_data_writable w then
      if encodable content then
        (Done tt,
         World (client w) (Some content) (index_data_writable w) (sent_params w)
               (stdin w) (tty w) (prompts w))
      else
        (Failed (UnicodeEncodeError (u "'utf-8' codec can't encode character: surrogates not allowed")),
         World (client w) (Some []) (index_data_writable w) (sent_params w)
               (stdin w) (tty w) (prompts w))
    else
      (Failed (Raised (Exn OSError (u "[Errno 13] Permission denied: 'index_data.json'"))), w).

(** [input(prompt)]: the prompt is shown and the next line of the
    standard input is taken, without its line end. *)
Definition input (prompt : pystr) : W pystr :=
  fun w =>
    match stdin w with
    | line :: rest =>
      (Done line,
       World (client w) (index_data_json w) (index_data_writable w) (sent_params w)
             rest (tty w) (prompts w ++ [prompt]))
    | [] =>
      (Failed EOFError,
       World (client w) (index_data_json w) (index_data_writable w) (sent_params w)
             [] (tty w) (prompts w ++ [prompt]))
    end.

(** [getpass.getpass(prompt)], with its warnings ignored: the prompt is
    shown and a line is read from the terminal, without echo. *)
Definition getpass (prompt : pystr) : W pystr :=
  fun w =>
    match tty w with
    | line :: rest =>
      (Done line,
       World (client w) (index_data_json w) (index_data_writable w) (sent_params w)
             (stdin w) rest (prompts w ++ [prompt]))
    | [] =>
      (Failed EOFError,
       World (client w) (index_data_json w) (index_data_writable w) (sent_params w)
             (stdin w) [] (prompts w ++ [prompt]))
    end.

(** [sys.exit(status)] *)
Definition sys_exit (status : Z) : W unit := fail (SystemExit status).

(** [obj.get(key, default)] *)
Definition py_get (obj : json) (key : pystr) (default : json) : run json :=
  match obj with
  | JObj m =>
    Done (match dict_get key m with
          | Some v => v
          | None => default
          end)
  | _ =>
    Failed (AttributeError (u "'" ++ type_name obj ++ u "' object has no attribute 'get'"))
  end.

(** [obj[:n]].  Slicing a dict is a [TypeError] (a [KeyError] from
    Python 3.12 on). *)
Definition slice_to (n : nat) (obj : json) : run json :=
  match obj with
  | JArr l => Done (JArr (firstn n l))
  | JStr s => Done (JStr (firstn n s))
  | JObj _ => Failed (Raised (Exn TypeError (u "unhashable type: 'slice'")))
  | _ =>
    Failed (Raised (Exn TypeError (u "'" ++ type_name obj ++ u "' object is not subscriptable")))
  end.

(** The values that [for x in obj] visits: the elements of a list, the
    characters of a text, the keys of a dict. *)
Definition items_of (obj : json) : run (list json) :=
  match obj with
  | JArr l => Done l
  | JStr s => Done (map (fun c => JStr [c]) s)
  | JObj m => Done (map (fun kv => JStr (fst kv)) m)
  | _ =>
    Failed (Raised (Exn TypeError (u "'" ++ type_name obj ++ u "' object is not iterable")))
  end.

(** [f'{n:2d}'] *)
Definition format_2d (n : Z) : pystr :=
  let s := str_of_Z n in
  repeat 0x20%N (2 - List.length s) ++ s.

(** ** The client: [class WebAPI] *)

Module WebAPI.

(** An activity entry, [{'tid': tid, 'title': title}] *)
Record entry := Entry {
  tid : Z;
  title : pystr }.

(** What [get_top_posts] returns: a dict from the two kinds to their
    entries. *)
Definition top_posts := list (pystr * list entry).

Definition getitem_list (A : Type) (l : list A) (i : nat) : outcome A :=
  match nth_error l i with
  | Some x => Ret x
  | None => Raise (Exn IndexError (u "list index out of range"))
  end.

Definition int_of (s : pystr) : outcome Z :=
  match int s with
  | Some z => Ret z
  | None => Raise (Exn ValueError (u "invalid literal for int() with base 10"))
  end.

(** The body of the loop over [li_elements]: the entry that one list
    item appends to [temp], if any. *)
Definition li_entry (li : Bs4.node) : outcome (option entry) :=
  match Bs4.find_with_attr (u "a") (u "title") li with
  | Some a_title =>
    match Bs4.get a_title (u "title") with
    | Some title =>
      let href := match Bs4.get a_title (u "href") with Some h => h | None => [] end in
      if py_in (u "tid=") href then
        (after <- getitem_list (split (u "tid=") href) 1 ;;
         digits <- getitem_list (split (u "&") after) 0 ;;
         tid <- int_of digits ;;
         Ret (Some (Entry tid title)))%outcome
      else Ret (Some (Entry 0 title))
    | None => Raise (Exn KeyError (u "title"))
    end
  | None => Ret None
  end.

Fixpoint li_entries (li_elements : list Bs4.node) (temp : list entry) : outcome (list entry) :=
  match li_elements with
  | [] => Ret temp
  | li :: rest =>
    (e <- li_entry li ;;
     li_entries rest (match e with Some x => temp ++ [x] | None => temp end))%outcome
  end.

Definition modes : list (pystr * pystr) :=
  [(u "new_reply", u "portal_block_66_content");
   (u "new_post", u "portal_block_67_content")].

(** The body of the loop over [modes]: the value stored under one kind. *)
Definition extract_kind (soup : Bs4.node) (target : pystr) : outcome (list entry) :=
  match Bs4.find_id target soup with
  | Some element => li_entries (Bs4.find_all (u "li") element) []
  | None => Ret []
  end.

(** The extraction proper, from the parsed page to [result]. *)
Definition extract (soup : Bs4.node) : outcome top_posts :=
  fold_left (fun acc kt =>
               (result <- acc ;;
                temp <- extract_kind soup (snd kt) ;;
                Ret (dict_set (fst kt) temp result))%outcome)
            modes (Ret []).

(** [f'{x}'] of an attribute that holds text or [None] *)
Definition fmt (o : option pystr) : pystr :=
  match o with
  | Some s => s
  | None => u "None"
  end.

(** Truth value of an attribute that holds text or [None] *)
Definition truthy (o : option pystr) : bool :=
  match o with
  | Some (_ :: _) => true
  | _ => false
  end.

(** [r.json()['data']['authorization']] *)
Definition authorization_of (r : response) : outcome json :=
  (j <- Requests.json_of r ;;
   d <- getitem j (u "data") ;;
   getitem d (u "authorization"))%outcome.

Definition login_url : pystr :=
  u "https://bbs.uestc.edu.cn/member.php?mod=logging&action=login&loginsubmit=yes&inajax=1".
Definition token_url : pystr :=
  u "https://bbs.uestc.edu.cn/star/api/v1/auth/adoptLegacyAuth".
Definition root_url : pystr := u "https://bbs.uestc.edu.cn".

Definition welcome : pystr := u "欢迎您回来".
Definition logout : pystr := u "退出".
Definition user_panel : pystr := u "用户面板".

Section Client.

(** [BeautifulSoup(text, 'html.parser')] and the headers of a new
    [requests.Session()], as the installed libraries give them. *)
Variable BeautifulSoup : pystr -> Bs4.node.
Variable default_headers : headers.

Local Open Scope py_scope.

Definition save_cookies : M unit :=
  try_except
    (st <- get_state ;;
     write_cookies_json (dumps_dict (Requests.dict_from_cookiejar (cookies st))))
    (fun e => print (u "保存cookies失败: " ++ message e)).

Definition load_cookies : M unit :=
  try_except
    (content <- read_cookies_json ;;
     cookie_dict <- lift (match loads content with
                          | Some j => Ret j
                          | None => Raise (Exn JSONDecodeError (u "Expecting value"))
                          end) ;;
     j <- lift (Requests.cookiejar_from_dict cookie_dict) ;;
     set_cookies j)
    (fun e =>
       nonempty <- getsize_positive ;;
       if nonempty : bool then print (u "加载cookies失败: " ++ message e) else ret tt).

Definition update_authorization : M bool :=
  let url := token_url in
  let headers := [(u "X-Uestc-Bbs", u "1")] in
  try_except
    (r <- Requests.send (Request (u "POST") url [] headers None) ;;
     lift (Requests.raise_for_status r) ;;
     authorization <- lift (authorization_of r) ;;
     st <- get_state ;;
     set_session_headers
       (Requests.headers_set (u "Authorization") authorization (session_headers st)) ;;
     ret true)
    (fun e => print (message e) ;; ret false).

Definition login : M bool :=
  self <- get_state ;;
  let url := login_url in
  let data := [(u "loginfield", Some (u "username"));
               (u "username", username self);
               (u "password", password self)] in
  try_except
    (r <- Requests.send (Request (u "POST") url data [] (Some 10%Z)) ;;
     lift (Requests.raise_for_status r) ;;
     if py_in welcome (text r) then
       (save_cookies ;;
        ok <- update_authorization ;;
        ret (true && ok))
     else
       raise (Exn HepanException
                  (u "登录失败 username=" ++ fmt (username self)
                   ++ u ", password=" ++ fmt (password self)
                   ++ [0x0A%N] ++ text r)))
    (fun e =>
       if isinstance e HepanException then raise e
       else (print (message e) ;; ret false)).

Definition check_login_status : M bool :=
  try_except
    (r <- Requests.send (Request (u "GET") root_url [] [] (Some 10%Z)) ;;
     lift (Requests.raise_for_status r) ;;
     ret (py_in welcome (text r) || py_in logout (text r) || py_in user_panel (text r)))
    (fun _ => ret false).

Definition get_top_posts : M (option top_posts) :=
  try_except
    (r <- Requests.send (Request (u "GET") root_url [] [] None) ;;
     lift (Requests.raise_for_status r) ;;
     let soup := BeautifulSoup (text r) in
     result <- lift (extract soup) ;;
     ret (Some result))
    (fun e => print (u "获取最新帖子信息失败: " ++ message e) ;; ret None).

(** The first statements of [__init__]: the attributes and a new
    session. *)
Definition new_session (username password : option pystr) : M unit :=
  fun st => (Ret tt,
    State username password [] default_headers
          (cookies_json st) (disk_writable st) (net st) (sent st) (stdout st)).

(** The cookie file is loaded only when it exists and is not empty. *)
Definition load_saved_cookies : M unit :=
  found <- path_exists ;;
  if found : bool then
    (nonempty <- getsize_positive ;;
     if nonempty : bool then load_cookies else ret tt)
  else ret tt.

Definition __init__ (username password : option pystr) (autoLogin : bool) : M unit :=
  new_session username password ;;
  load_saved_cookies ;;
  if autoLogin && truthy username && truthy password then
    (login ;; ret tt)
  else if autoLogin then
    (valid <- check_login_status ;;
     if valid : bool then print (u "已进入主页")
     else raise (Exn Exception (u "Cookie已失效或不存在")))
  else ret tt.

(** The truth value that the interpreter gives a float, read from its
    literal, and [str(v)] for the values whose rendering is not spelled
    out below (the floats, lists and dicts of a decoded reply). *)
Variable float_nonzero : pystr -> bool.
Variable repr : json -> pystr.

(** [bool(v)] *)
Definition truth (v : json) : bool :=
  match v with
  | JNull => false
  | JBool b => b
  | JInt z => negb (z =? 0)%Z
  | JFloat lit => float_nonzero lit
  | JStr [] => false
  | JStr (_ :: _) => true
  | JArr [] => false
  | JArr (_ :: _) => true
  | JObj [] => false
  | JObj (_ :: _) => true
  end.

(** [v != 0] *)
Definition differs_from_zero (v : json) : bool :=
  match v with
  | JBool b => b
  | JInt z => negb (z =? 0)%Z
  | JFloat lit => float_nonzero lit
  | _ => true
  end.

(** [f'{v}'] *)
Definition py_str (v : json) : run pystr :=
  match v with
  | JNull => Done (u "None")
  | JBool true => Done (u "True")
  | JBool false => Done (u "False")
  | JInt z => str_of_int z
  | JStr s => Done s
  | _ => Done (repr v)
  end.

Definition index_url : pystr := u "https://bbs.uestc.edu.cn/star/api/v1/index".
Definition browser_agent : pystr :=
  u "Mozilla/5.0 (Macintosh; Intel Mac OS X 10_15_7) AppleWebKit/537.36 (KHTML, like Gecko) Chrome/91.0.4472.114 Safari/537.36".

(** [None] is [JNull], which is also what [r.json()] gives for the body
    [null]. *)
Definition get_index_data : W json :=
  let url := index_url in
  let params := [(u "global_stat", PStr (u "1"));
                 (u "announcement", PStr (u "1"));
                 (u "forum_list", PStr (u "1"));
                 (u "top_list", PStr (u "newreply,newthread,digest,life,hotlist"))] in
  let headers := [(u "X-Uestc-Bbs", u "1"); (u "User-Agent", browser_agent)] in
  wtry
    (r <- get_with_params (Request (u "GET") url [] headers (Some 10%Z)) params ;;
     of_outcome (Requests.raise_for_status r) ;;
     write_index_data (text r) ;;
     of_outcome (Requests.json_of r))%run
    (fun e => wprint (u "获取首页信息失败: " ++ error_text e) ;; wret JNull)%run.


(** *** [display_index_data], block by block *)

Definition banner (name : pystr) : pystr :=
  [0x0A%N] ++ u "========== " ++ name ++ u " ==========".

(** The global statistics *)
Definition show_global_stat (data : json) : W unit :=
  (d <- of_outcome (getitem data (u "data")) ;;
   global_stat <- of_run (py_get d (u "global_stat") JNull) ;;
   if truth global_stat then
     (today_posts <- of_run (py_get global_stat (u "today_posts") (JInt 0)) ;;
      today_posts <- of_run (py_str today_posts) ;;
      yesterday_posts <- of_run (py_get global_stat (u "yesterday_posts") (JInt 0)) ;;
      yesterday_posts <- of_run (py_str yesterday_posts) ;;
      total_posts <- of_run (py_get global_stat (u "total_posts") (JInt 0)) ;;
      total_posts <- of_run (py_str total_posts) ;;
      total_users <- of_run (py_get global_stat (u "total_users") (JInt 0)) ;;
      total_users <- of_run (py_str total_users) ;;
      wprint (u "今日帖子数: " ++ today_posts
              ++ u " | 昨日帖子数: " ++ yesterday_posts
              ++ u " | 总帖子数: " ++ total_posts
              ++ u " | 总用户数: " ++ total_users))
   else wret tt)%run.

(** The announcements *)
Definition show_announcements (data : json) : W unit :=
  (d <- of_outcome (getitem data (u "data")) ;;
   announcements <- of_run (py_get d (u "announcement") (JArr [])) ;;
   if truth announcements then
     (wprint (banner (u "河畔公告")) ;;
      first <- of_run (slice_to 5 announcements) ;;
      each <- of_run (items_of first) ;;
      for_each each
        (fun announcement =>
           title <- of_run (py_get announcement (u "title") (JStr (u "无标题"))) ;;
           title <- of_run (py_str title) ;;
           wprint (u "- " ++ title)))
   else wret tt)%run.

(** One of the two loops over the entries of a kind; every entry is a
    dict with a title. *)
Definition show_entries (entries : list entry) : W unit :=
  for_each (seq 0 (Nat.min (List.length entries) 10))
    (fun i =>
       if (i <? List.length entries)%nat then
         (thread <- of_outcome (getitem_list entries i) ;;
          wprint (format_2d (Z.of_nat i + 1) ++ u ". " ++ title thread))%run
       else wret tt).

(** The latest activity *)
Definition show_latest : W unit :=
  wtry
    (top_posts <- of_client get_top_posts ;;
     match top_posts with
     | Some ((_ :: _) as result) =>
       wprint (banner (u "最新动态")) ;;
       let new_reply_list :=
           match dict_get (u "new_reply") result with Some l => l | None => [] end in
       let new_thread_list :=
           match dict_get (u "new_post") result with Some l => l | None => [] end in
       wprint (u "最新回复:") ;;
       show_entries new_reply_list ;;
       wprint ([0x0A%N] ++ u "最新发表:") ;;
       show_entries new_thread_list
     | _ =>
       wprint (banner (u "最新动态")) ;;
       wprint (u "暂无最新动态")
     end)%run
    (fun e =>
       wprint ([0x0A%N] ++ u "获取最新动态失败: " ++ error_text e) ;;
       wprint (banner (u "最新动态")) ;;
       wprint (u "暂无最新动态"))%run.

(** The forums and their children *)
Definition show_forums (data : json) : W unit :=
  (d <- of_outcome (getitem data (u "data")) ;;
   forum_list <- of_run (py_get d (u "forum_list") JNull) ;;
   if truth forum_list then
     (wprint (banner (u "论坛板块")) ;;
      forums <- of_run (items_of forum_list) ;;
      for_each forums
        (fun forum =>
           name <- of_run (py_get forum (u "name") JNull) ;;
           name <- of_run (py_str name) ;;
           fid <- of_run (py_get forum (u "fid") JNull) ;;
           fid <- of_run (py_str fid) ;;
           wprint (u "板块: " ++ name ++ u " (ID: " ++ fid ++ u ")") ;;
           children <- of_run (py_get forum (u "children") JNull) ;;
           if truth children then
             (each <- of_run (items_of children) ;;
              for_each each
                (fun child =>
                   name <- of_run (py_get child (u "name") JNull) ;;
                   name <- of_run (py_str name) ;;
                   fid <- of_run (py_get child (u "fid") JNull) ;;
                   fid <- of_run (py_str fid) ;;
                   wprint (u "  └─ " ++ name ++ u " (ID: " ++ fid ++ u ")")))
           else wret tt))
   else wret tt)%run.

(** [not data or data.get('code') != 0] *)
Definition refused (data : json) : run bool :=
  if truth data then
    match py_get data (u "code") JNull with
    | Done code => Done (differs_from_zero code)
    | Failed e => Failed e
    end
  else Done true.

Definition display_index_data (data : json) : W unit :=
  (stop <- of_run (refused data) ;;
   if stop : bool then wprint (u "获取首页数据失败")
   else
     (wprint (banner (u "清水河畔论坛首页")) ;;
      show_global_stat data ;;
      show_announcements data ;;
      show_latest ;;
      show_forums data ;;
      wprint (banner (u "首页信息获取完成"))))%run.

End Client.

End WebAPI.

(** ** The program: [main] *)

Section Main.

Variable BeautifulSoup : pystr -> Bs4.node.
Variable default_headers : headers.
Variable float_nonzero : pystr -> bool.
Variable repr : json -> pystr.

(** [WebAPI(username, password, autoLogin)] *)
Definition new_WebAPI (username password : option pystr) (autoLogin : bool) : W unit :=
  of_client (WebAPI.__init__ default_headers username password autoLogin).

Definition main : W unit :=
  wtry
    (new_WebAPI None None true ;;
     index_data <- WebAPI.get_index_data ;;
     if WebAPI.truth float_nonzero index_data
     then WebAPI.display_index_data BeautifulSoup float_nonzero repr index_data
     else wret tt)%run
    (fun e =>
       if py_in (u "Cookie已失效或不存在") (error_text e) then
         (wprint (u "Cookie已失效或不存在") ;;
          username <- input (u "请输入用户名: ") ;;
          password <- getpass (u "请输入密码: ") ;;
          wtry
            (wprint (u "正在登录...") ;;
             new_WebAPI (Some username) (Some password) true ;;
             wprint (u "登录成功！欢迎 " ++ username) ;;
             index_data <- WebAPI.get_index_data ;;
             if WebAPI.truth float_nonzero index_data
             then WebAPI.display_index_data BeautifulSoup float_nonzero repr index_data
             else wret tt)
            (fun e =>
               if is_HepanException e then
                 (wprint (u "登录失败: " ++ error_text e) ;; sys_exit 1)
               else
                 (wprint (u "发生错误: " ++ error_text e) ;; sys_exit 1)))%run
       else
         (wprint (u "发生错误: " ++ error_text e) ;; sys_exit 1)%run).

End Main.

(** * Properties *)

Import WebAPI.

Arguments u : simpl never.

(** ** Vocabulary of the statements *)

(** The statuses that [raise_for_status] lets through, and those it
    rejects. *)
Definition status_accepted (r : response) : Prop :=
  (status_code r < 400 \/ 600 <= status_code r)%Z.
Definition status_rejected (r : response) : Prop :=
  (400 <= status_code r < 600)%Z.

(** The three markers that [check_login_status] looks for. *)
Definition logged_in_marker (body : pystr) : bool :=
  py_in welcome body || py_in logout body || py_in user_panel body.

(** The requests that the client issues. *)
Definition login_request (st : state) : request :=
  Request (u "POST") login_url
          [(u "loginfield", Some (u "username"));
           (u "username", username st); (u "password", password st)]
          [] (Some 10%Z).
Definition token_request : request :=
  Request (u "POST") token_url [] [(u "X-Uestc-Bbs", u "1")] None.
Definition probe_request : request :=
  Request (u "GET") root_url [] [] (Some 10%Z).
Definition page_request : request :=
  Request (u "GET") root_url [] [] None.

(** The state after a request has been answered. *)
Definition answered (rq : request) (j : jar) (rest : list net_result) (st : state) : state :=
  State (username st) (password st) j (session_headers st)
        (cookies_json st) (disk_writable st) rest
        (sent st ++ [Sent rq (cookies st) (session_headers st)]) (stdout st).

(** The state after a line has been printed. *)
Definition printed (line : pystr) (st : state) : state :=
  State (username st) (password st) (cookies st) (session_headers st)
        (cookies_json st) (disk_writable st) (net st) (sent st) (stdout st ++ [line]).

(** The state after [save_cookies]: the file holds the jar's dict, or,
    when it cannot be written, the failure has been printed. *)
Definition saved (st : state) : state :=
  State (username st) (password st) (cookies st) (session_headers st)
        (Some (dumps_dict (Requests.dict_from_cookiejar (cookies st))))
        (disk_writable st) (net st) (sent st) (stdout st).

Definition after_save (st : state) : state :=
  if disk_writable st then saved st
  else printed (u "保存cookies失败: " ++ u "[Errno 13] Permission denied: 'cookies.json'") st.

(** The state after the first statements of [__init__]. *)
Definition fresh (dh : headers) (user pass : option pystr) (st : state) : state :=
  State user pass [] dh (cookies_json st) (disk_writable st) (net st) (sent st) (stdout st).

(** The state after the session has taken a jar. *)
Definition with_cookies (j : jar) (st : state) : state :=
  State (username st) (password st) j (session_headers st)
        (cookies_json st) (disk_writable st) (net st) (sent st) (stdout st).

(** The state after the [Authorization] header has been set. *)
Definition authorized (a : json) (st : state) : state :=
  State (username st) (password st) (cookies st)
        (Requests.headers_set (u "Authorization") a (session_headers st))
        (cookies_json st) (disk_writable st) (net st) (sent st) (stdout st).

(** The text of the error that [login] raises on a rejection. *)
Definition rejection_text (st : state) (body : pystr) : pystr :=
  u "登录失败 username=" ++ fmt (username st) ++ u ", password=" ++ fmt (password st)
  ++ [0x0A%N] ++ body.

(** Text made of Unicode scalar values: code points up to [0x10FFFF]
    that are not surrogates. *)
Definition scalar (c : N) : Prop :=
  ((c < 0xD800 \/ 0xDFFF < c) /\ c <= 0x10FFFF)%N.
Definition scalar_text (s : pystr) : Prop := Forall scalar s.

(** Text made of ASCII digits. *)
Definition digits (ds : pystr) : Prop := Forall (fun c => is_digit c = true) ds.

(** A decoder that has fuel for every text shorter than [bound], and
    consumes some of what it decodes. *)
Definition scans_well (scan : pystr -> result json) (bound : nat) : Prop :=
  forall s, (List.length s < bound)%nat ->
            scan s <> OutOfFuel /\
            forall v r, scan s = Ok v r -> (List.length r < List.length s)%nat.

(** A value that is [None] or text of scalar values. *)
Inductive text_or_none : json -> Prop :=
| none_value : text_or_none JNull
| text_value s : scalar_text s -> text_or_none (JStr s).

(** What [dumps] writes for one member of a dict. *)
Definition member_text (kv : pystr * json) : pystr :=
  quote (fst kv) ++ u ": " ++ dumps (snd kv).

(** The members that the round trip is stated for. *)
Definition plain_member (kv : pystr * json) : Prop :=
  scalar_text (fst kv) /\ text_or_none (snd kv).

(** The name/value pairs of a jar. *)
Definition pairs (j : jar) : list (pykey * json) :=
  map (fun c => (name c, value c)) j.

(** The jars that the round trip is stated for: the names are pairwise
    distinct texts, the values are [None] or text that [set_cookie]
    leaves as it is, and all text is made of scalar values. *)
Definition plain_cookie (c : cookie) : Prop :=
  (exists s, name c = KStr s /\ scalar_text s) /\
  text_or_none (value c) /\
  Requests.unquote_value (value c) = value c.

Definition plain_jar (j : jar) : Prop :=
  Forall plain_cookie j /\ NoDup (map name j).

(** The requests of the two API calls, and their query parameters. *)
Definition index_request : request :=
  Request (u "GET") index_url []
          [(u "X-Uestc-Bbs", u "1"); (u "User-Agent", browser_agent)] (Some 10%Z).
Definition index_params : list (pystr * pystr) :=
  [(u "global_stat", u "1"); (u "announcement", u "1"); (u "forum_list", u "1");
   (u "top_list", u "newreply,newthread,digest,life,hotlist")].

(** The same as the calls pass them, before the values are rendered. *)
Definition index_query : list (pystr * param) :=
  [(u "global_stat", PStr (u "1")); (u "announcement", PStr (u "1"));
   (u "forum_list", PStr (u "1"));
   (u "top_list", PStr (u "newreply,newthread,digest,life,hotlist"))].


(** The surroundings after a request with query parameters has been
    answered, after a line has been printed, and after
    [index_data.json] has been written. *)
Definition exchanged (rq : request) (params : list (pystr * pystr))
           (j : jar) (rest : list net_result) (w : world) : world :=
  World (answered rq j rest (client w)) (index_data_json w) (index_data_writable w)
        (sent_params w ++ [(url rq, params)]) (stdin w) (tty w) (prompts w).

Definition wprinted (line : pystr) (w : world) : world :=
  with_client (printed line (client w)) w.

Definition wrote (content : pystr) (w : world) : world :=
  World (client w) (Some content) (index_data_writable w) (sent_params w)
        (stdin w) (tty w) (prompts w).

(** What [get_index_data] and [get_latest_threads] return for a reply
    that has been accepted: the decoded body, or [None]. *)
Definition decoded (body : pystr) : json :=
  match loads body with
  | Some v => v
  | None => JNull
  end.

(** The text of the lines printed. *)
Definition output (w : world) : list pystr := stdout (client w).

(** The surroundings after several lines have been printed, and after
    the front page has been asked for. *)
Definition wprinted_lines (lines : list pystr) (w : world) : world :=
  fold_left (fun w' line => wprinted line w') lines w.

Definition fetched (j : jar) (rest : list net_result) (w : world) : world :=
  with_client (answered page_request j rest (client w)) w.

(** The lines that [display_index_data] prints for the entries of a
    kind, numbered from [i + 1]. *)
Fixpoint numbered_from (i : nat) (entries : list entry) : list pystr :=
  match entries with
  | [] => []
  | e :: rest =>
    (format_2d (Z.of_nat i + 1) ++ u ". " ++ title e) :: numbered_from (S i) rest
  end.

(** The member [key] of a dict, or [default]. *)
Definition member (key : pystr) (default : json) (v : json) : json :=
  match v with
  | JObj m =>
    match dict_get key m with
    | Some x => x
    | None => default
    end
  | _ => default
  end.


(** The exceptions that the shape of the displayed data can cause. *)
Inductive shape_error : error -> Prop :=
| no_get v :
    shape_error (AttributeError (u "'" ++ type_name v ++ u "' object has no attribute 'get'"))
| no_data :
    shape_error (Raised (Exn KeyError (u "'" ++ u "data" ++ u "'")))
| no_slice v :
    shape_error (Raised (Exn TypeError
                             (u "'" ++ type_name v ++ u "' object is not subscriptable")))
| no_dict_slice :
    shape_error (Raised (Exn TypeError (u "unhashable type: 'slice'")))
| no_items v :
    shape_error (Raised (Exn TypeError
                             (u "'" ++ type_name v ++ u "' object is not iterable")))
| too_long :
    shape_error (Raised (Exn ValueError
                             (u "Exceeds the limit (4300 digits) for integer string conversion"))).


Definition rendered (rp : json -> pystr) (v : json) : pystr :=
  match v with
  | JNull => u "None"
  | JBool true => u "True"
  | JBool false => u "False"
  | JInt z => str_of_Z z
  | JStr s => s
  | _ => rp v
  end.

(** A step that only prints, and that fails only by the shape of the
    data. *)
Definition data_bound (A : Type) (m : W A) : Prop :=
  forall w, exists lines,
    (exists a, m w = (Done a, wprinted_lines lines w)) \/
    (exists e, shape_error e /\ m w = (Failed e, wprinted_lines lines w)).

(** The parts of [main]: the two statements that follow a construction,
    the inner [try] with its two handlers, and the handler of the outer
    [try]. *)
Definition show_index (parser : pystr -> Bs4.node) (fl : pystr -> bool) (rp : json -> pystr)
  : W unit :=
  (index_data <- get_index_data ;;
   if truth fl index_data then display_index_data parser fl rp index_data else wret tt)%run.

Definition login_and_show (parser : pystr -> Bs4.node) (dh : headers) (fl : pystr -> bool)
           (rp : json -> pystr) (username password : pystr) : W unit :=
  wtry
    (wprint (u "正在登录...") ;;
     new_WebAPI dh (Some username) (Some password) true ;;
     wprint (u "登录成功！欢迎 " ++ username) ;;
     show_index parser fl rp)%run
    (fun e =>
       if is_HepanException e then
         (wprint (u "登录失败: " ++ error_text e) ;; sys_exit 1)%run
       else
         (wprint (u "发生错误: " ++ error_text e) ;; sys_exit 1)%run).

Definition on_failure (parser : pystr -> Bs4.node) (dh : headers) (fl : pystr -> bool)
           (rp : json -> pystr) (e : error) : W unit :=
  if py_in (u "Cookie已失效或不存在") (error_text e) then
    (wprint (u "Cookie已失效或不存在") ;;
     username <- input (u "请输入用户名: ") ;;
     password <- getpass (u "请输入密码: ") ;;
     login_and_show parser dh fl rp username password)%run
  else
    (wprint (u "发生错误: " ++ error_text e) ;; sys_exit 1)%run.

(** The surroundings after a prompt has taken a line of the standard
    input, and of the terminal. *)
Definition answered_input (prompt : pystr) (rest : list pystr) (w : world) : world :=
  World (client w) (index_data_json w) (index_data_writable w) (sent_params w)
        rest (tty w) (prompts w ++ [prompt]).

Definition answered_getpass (prompt : pystr) (rest : list pystr) (w : world) : world :=
  World (client w) (index_data_json w) (index_data_writable w) (sent_params w)
        (stdin w) rest (prompts w ++ [prompt]).

(** An answer to the probe that does not show a session: a fault, a
    status from 400 to 599, or a page without any of the markers. *)
Definition probe_fails (a : net_result) : Prop :=
  match net_answer_of a with
  | Fault _ => True
  | Answer r => status_rejected r \/ logged_in_marker (text r) = false
  end.

(** The two prompts of [main]. *)
Definition name_prompt : pystr := u "请输入用户名: ".
Definition password_prompt : pystr := u "请输入密码: ".

(** ** Concrete inputs *)

Module Examples.

Definition blank (answers : list net_result) : state :=
  State None None [] [] None true answers [] [].

Definition alice (answers : list net_result) : state :=
  State (Some (u "alice")) (Some (u "s3cret")) [] [] None true answers [] [].

(** The same, where [cookies.json] cannot be written. *)
Definition alice_read_only (answers : list net_result) : state :=
  State (Some (u "alice")) (Some (u "s3cret")) [] [] None false answers [] [].

(** A process that finds the text [content] in [cookies.json]. *)
Definition with_file (content : pystr) (answers : list net_result) : state :=
  State None None [] [] (Some content) true answers [] [].

(** An error page that still shows the logout link. *)
Definition error_page : response := Response 500 (u "<a href='logout'>退出</a>").

(** A rejection by the login endpoint. *)
Definition wrong_password : response := Response 200 (u "密码错误").

(** A welcome by the login endpoint. *)
Definition welcome_back : response := Response 200 (u "<p>欢迎您回来，alice</p>").

(** A reply of status 300 without the welcome marker. *)
Definition multiple_choices : response := Response 300 (u "<a href='/a'>a</a>").

(** Replies of the token endpoint: a JSON body with [data.authorization]. *)
Definition token_reply (status : Z) (token : pystr) : response :=
  Response status (dumps (JObj [(u "data", JObj [(u "authorization", JStr token)])])).

Definition sid (v p : pystr) : cookie :=
  Cookie (KStr (u "sid")) (JStr v) (u "bbs.uestc.edu.cn") p.

Definition lang : cookie :=
  Cookie (KStr (u "lang")) (JStr (u "zh")) (u "bbs.uestc.edu.cn") (u "/").

(** A session that holds the jar [j]. *)
Definition holding (j : jar) : state :=
  State None None j [] None true [] [] [].

(** Front pages.  [anchor] is a link with a title; the pages hold the
    two blocks, one of them, or none. *)
Definition anchor (title href : pystr) : Bs4.node :=
  Bs4.Tag (u "a") [(u "href", href); (u "title", title)] [Bs4.NavigableString title].

Definition item (inside : list Bs4.node) : Bs4.node := Bs4.Tag (u "li") [] inside.

Definition block (id : pystr) (items : list Bs4.node) : Bs4.node :=
  Bs4.Tag (u "div") [(u "id", id)] [Bs4.Tag (u "ul") [] items].

Definition page (blocks : list Bs4.node) : Bs4.node :=
  Bs4.Tag (u "[document]") [] [Bs4.Tag (u "html") [] [Bs4.Tag (u "body") [] blocks]].

Definition post_one : Bs4.node :=
  item [anchor (u "Post One") (u "forum.php?mod=viewthread&tid=42&x=1")].
Definition post_two : Bs4.node :=
  item [anchor (u "Post Two") (u "forum.php?mod=guide")].
Definition post_bad : Bs4.node :=
  item [anchor (u "Post Three") (u "forum.php?mod=viewthread&tid=43#lastpost")].

(** Both blocks, with well-formed links and an item without a link. *)
Definition good_page : Bs4.node :=
  page [block (u "portal_block_66_content")
              [post_one; post_two; item [Bs4.NavigableString (u "-")]];
        block (u "portal_block_67_content") [post_two]].

(** A link whose [tid] runs into a fragment, among the latest replies. *)
Definition bad_reply_page : Bs4.node :=
  page [block (u "portal_block_66_content") [post_one; post_bad];
        block (u "portal_block_67_content") [post_two]].

(** No block of latest replies, and a link whose [tid] runs into a
    fragment among the latest threads. *)
Definition no_reply_bad_post_page : Bs4.node :=
  page [block (u "portal_block_67_content") [post_one; post_bad]].

(** The answer of the site when it serves a front page. *)
Definition front : list net_result := [Net (Answer (Response 200 (u "<html>"))) []].

(** A process with nothing on disk, nobody at the keyboard, and the
    answers [answers] ahead. *)
Definition alone (answers : list net_result) : world :=
  World (blank answers) None true [] [] [] [].

(** The same, where [index_data.json] cannot be written. *)
Definition alone_read_only (answers : list net_result) : world :=
  World (blank answers) None false [] [] [] [].

(** A user who types [name] at the first prompt and [secret] at the
    password prompt. *)
Definition typing (name secret : pystr) (answers : list net_result) : world :=
  World (blank answers) None true [] [name] [secret] [].

(** A reply of the index API with the code [code] and the data [d]. *)
Definition index_reply (code : Z) (d : json) : json :=
  JObj [(u "code", JInt code); (u "data", d)].

(** Stand-ins for the interpreter's rendering of floats and containers,
    for inputs that hold neither. *)
Definition nonzero (lit : pystr) : bool := true.
Definition dots (v : json) : pystr := u "...".

(** What the parser makes of every page, for runs in which the page
    does not matter. *)
Definition parsed (soup : Bs4.node) (body : pystr) : Bs4.node := soup.

End Examples.
(** ** The transport *)

Lemma send_answer rq st r j rest :
  net st = Net (Answer r) j :: rest ->
  Requests.send rq st = (Ret r, answered rq j rest st).
Proof. intros H. unfold Requests.send, answered. rewrite H. reflexivity. Qed.

Lemma send_fault rq st msg j rest :
  net st = Net (Fault msg) j :: rest ->
  Requests.send rq st = (Raise (Exn RequestException msg), answered rq j rest st).
Proof. intros H. unfold Requests.send, answered. rewrite H. reflexivity. Qed.

Lemma send_silence rq st :
  net st = [] ->
  Requests.send rq st
  = (Raise (Exn RequestException (u "Connection aborted")), answered rq (cookies st) [] st).
Proof. intros H. unfold Requests.send, answered. rewrite H. reflexivity. Qed.

Lemma raise_for_status_accepted r :
  status_accepted r -> Requests.raise_for_status r = Ret tt.
Proof.
  unfold status_accepted, Requests.raise_for_status. intros H.
  destruct (Z.leb_spec 400 (status_code r)); destruct (Z.ltb_spec (status_code r) 500);
    destruct (Z.leb_spec 500 (status_code r)); destruct (Z.ltb_spec (status_code r) 600);
    simpl; try reflexivity; lia.
Qed.

Lemma raise_for_status_rejected r :
  status_rejected r ->
  exists msg, Requests.raise_for_status r = Raise (Exn HTTPError msg).
Proof.
  unfold status_rejected, Requests.raise_for_status. intros H.
  destruct (Z.leb_spec 400 (status_code r)); destruct (Z.ltb_spec (status_code r) 500);
    destruct (Z.leb_spec 500 (status_code r)); destruct (Z.ltb_spec (status_code r) 600);
    simpl; eauto; lia.
Qed.

Lemma status_accepted_or_rejected r : status_accepted r \/ status_rejected r.
Proof. unfold status_accepted, status_rejected. lia. Qed.

Lemma raise_for_status_cases r :
  (status_accepted r /\ Requests.raise_for_status r = Ret tt) \/
  (status_rejected r /\ exists msg, Requests.raise_for_status r = Raise (Exn HTTPError msg)).
Proof.
  destruct (status_accepted_or_rejected r) as [H | H].
  - left. split; [assumption | apply raise_for_status_accepted; assumption].
  - right. split; [assumption | apply raise_for_status_rejected; assumption].
Qed.

Lemma status_not_both r : status_accepted r -> status_rejected r -> False.
Proof. unfold status_accepted, status_rejected. lia. Qed.

(** The answers that the network can give to the next request. *)
Lemma next_answer st :
  (exists r j rest, net st = Net (Answer r) j :: rest) \/
  (exists msg j rest, net st = Net (Fault msg) j :: rest) \/
  net st = [].
Proof.
  destruct (net st) as [| [[r | msg] j] rest]; eauto 6.
Qed.

(** ** [check_login_status] *)

Lemma check_login_status_answer st r j rest :
  net st = Net (Answer r) j :: rest ->
  check_login_status st
  = (Ret (match Requests.raise_for_status r with
          | Ret _ => logged_in_marker (text r)
          | Raise _ => false
          end), answered probe_request j rest st).
Proof.
  intros H. unfold check_login_status, try_except, bind, lift, ret.
  rewrite (send_answer _ _ H).
  destruct (Requests.raise_for_status r); reflexivity.
Qed.

Lemma check_login_status_fault st msg j rest :
  net st = Net (Fault msg) j :: rest ->
  check_login_status st = (Ret false, answered probe_request j rest st).
Proof.
  intros H. unfold check_login_status, try_except, bind, lift, ret.
  rewrite (send_fault _ _ H). reflexivity.
Qed.

Lemma check_login_status_silence st :
  net st = [] ->
  check_login_status st = (Ret false, answered probe_request (cookies st) [] st).
Proof.
  intros H. unfold check_login_status, try_except, bind, lift, ret.
  rewrite (send_silence _ _ H). reflexivity.
Qed.

(** C6, as amended: the probe never raises; it answers [True] exactly
    when the root page came back with a status that [raise_for_status]
    accepts and a body holding one of the three markers; a transport
    fault, a timeout included, gives [False]. *)
Theorem check_login_status_probe st :
  exists b st',
    check_login_status st = (Ret b, st') /\
    (b = true <->
     exists r j rest,
       net st = Net (Answer r) j :: rest /\ status_accepted r /\
       logged_in_marker (text r) = true) /\
    (forall msg j rest, net st = Net (Fault msg) j :: rest -> b = false).
Proof.
  destruct (next_answer st) as [(r & j & rest & H) | [(msg & j & rest & H) | H]].
  - rewrite (check_login_status_answer _ H).
    destruct (raise_for_status_cases r) as [[Hs E] | [Hs [m E]]]; rewrite E.
    + eexists _, _. split; [reflexivity |]. split.
      * split.
        -- intros Hb. exists r, j, rest. auto.
        -- intros (r' & j' & rest' & H' & _ & Hm). congruence.
      * intros msg j' rest' H'. congruence.
    + eexists _, _. split; [reflexivity |]. split.
      * split; [discriminate |].
        intros (r' & j' & rest' & H' & Hs' & _).
        assert (r' = r) by congruence. subst r'.
        exfalso. eapply status_not_both; eassumption.
      * reflexivity.
  - rewrite (check_login_status_fault _ H).
    eexists _, _. split; [reflexivity |]. split.
    + split; [discriminate |]. intros (r' & j' & rest' & H' & _). congruence.
    + reflexivity.
  - rewrite (check_login_status_silence _ H).
    eexists _, _. split; [reflexivity |]. split.
    + split; [discriminate |]. intros (r' & j' & rest' & H' & _). congruence.
    + reflexivity.
Qed.

(** The probe of a session that times out. *)
Lemma check_login_status_probe_witness :
  fst (check_login_status (Examples.blank [Net (Fault (u "Read timed out.")) []])) = Ret false.
Proof.
  destruct (check_login_status_probe
              (Examples.blank [Net (Fault (u "Read timed out.")) []]))
    as (b & st' & E & _ & Hf).
  rewrite E. simpl. f_equal. eapply Hf. reflexivity.
Defined.

(** C6, as stated, fails on an error page: its body holds a marker and
    the probe answers [False]. *)
Lemma check_login_status_error_page :
  logged_in_marker (text Examples.error_page) = true /\
  fst (check_login_status (Examples.blank [Net (Answer Examples.error_page) []])) = Ret false.
Proof. split; vm_compute; reflexivity. Qed.

(** ** [update_authorization] *)

Lemma update_authorization_answer st r j rest :
  net st = Net (Answer r) j :: rest ->
  update_authorization st
  = match Requests.raise_for_status r with
    | Raise e => (Ret false, printed (message e) (answered token_request j rest st))
    | Ret _ =>
      match authorization_of r with
      | Ret a => (Ret true, authorized a (answered token_request j rest st))
      | Raise e => (Ret false, printed (message e) (answered token_request j rest st))
      end
    end.
Proof.
  intros H. unfold update_authorization, try_except, bind, lift, ret.
  fold token_request. rewrite (send_answer _ _ H).
  destruct (Requests.raise_for_status r); [| reflexivity].
  destruct (authorization_of r); reflexivity.
Qed.

Lemma update_authorization_fault st msg j rest :
  net st = Net (Fault msg) j :: rest ->
  update_authorization st = (Ret false, printed msg (answered token_request j rest st)).
Proof.
  intros H. unfold update_authorization, try_except, bind, lift, ret.
  fold token_request. rewrite (send_fault _ _ H). reflexivity.
Qed.

Lemma update_authorization_silence st :
  net st = [] ->
  update_authorization st
  = (Ret false, printed (u "Connection aborted") (answered token_request (cookies st) [] st)).
Proof.
  intros H. unfold update_authorization, try_except, bind, lift, ret.
  fold token_request. rewrite (send_silence _ _ H). reflexivity.
Qed.

(** [update_authorization] returns a boolean and never raises. *)
Lemma update_authorization_returns st :
  exists b st', update_authorization st = (Ret b, st').
Proof.
  destruct (next_answer st) as [(r & j & rest & H) | [(msg & j & rest & H) | H]].
  - rewrite (update_authorization_answer _ H).
    destruct (Requests.raise_for_status r); [| eauto].
    destruct (authorization_of r); eauto.
  - rewrite (update_authorization_fault _ H). eauto.
  - rewrite (update_authorization_silence _ H). eauto.
Qed.

(** C10, as amended: the token exchange returns a boolean; a transport
    fault, a status from 400 to 599 and a reply without
    [data.authorization] each give [False]; [False] leaves the session's
    headers as they were; [True] is returned exactly when an accepted
    reply carries [data.authorization], and only then is the header set. *)
Theorem update_authorization_headers st :
  exists b st',
    update_authorization st = (Ret b, st') /\
    (forall msg j rest, net st = Net (Fault msg) j :: rest -> b = false) /\
    (forall r j rest, net st = Net (Answer r) j :: rest -> status_rejected r -> b = false) /\
    (forall r j rest e,
        net st = Net (Answer r) j :: rest -> authorization_of r = Raise e -> b = false) /\
    (b = false -> session_headers st' = session_headers st) /\
    (b = true <->
     exists r j rest a,
       net st = Net (Answer r) j :: rest /\ status_accepted r /\
       authorization_of r = Ret a /\
       session_headers st'
       = Requests.headers_set (u "Authorization") a (session_headers st)).
Proof.
  destruct (next_answer st) as [(r & j & rest & H) | [(msg & j & rest & H) | H]].
  - rewrite (update_authorization_answer _ H).
    destruct (raise_for_status_cases r) as [[Hs E] | [Hs [m E]]]; rewrite E.
    + destruct (authorization_of r) as [a | e] eqn:Ea.
      * eexists _, _. split; [reflexivity |].
        repeat split; try congruence.
        -- intros r' j' rest' H' Hr. assert (r' = r) by congruence. subst.
           exfalso. eapply status_not_both; eassumption.
        -- intros _. exists r, j, rest, a. auto.
      * eexists _, _. split; [reflexivity |].
        repeat split; try congruence.
        intros (r' & j' & rest' & a & H' & _ & Ea' & _).
        assert (r' = r) by congruence. subst. congruence.
    + eexists _, _. split; [reflexivity |].
      repeat split; try congruence.
      intros (r' & j' & rest' & a & H' & Hs' & _).
      assert (r' = r) by congruence. subst.
      exfalso. eapply status_not_both; eassumption.
  - rewrite (update_authorization_fault _ H).
    eexists _, _. split; [reflexivity |].
    repeat split; try congruence.
    intros (r' & j' & rest' & a & H' & _). congruence.
  - rewrite (update_authorization_silence _ H).
    eexists _, _. split; [reflexivity |].
    repeat split; try congruence.
    intros (r' & j' & rest' & a & H' & _). congruence.
Qed.

(** A token exchange that meets a status 503 leaves the headers alone. *)
Lemma update_authorization_headers_witness :
  exists st',
    update_authorization
      (Examples.blank [Net (Answer (Examples.token_reply 503 (u "tok"))) []])
    = (Ret false, st') /\
    session_headers st' = [].
Proof.
  destruct (update_authorization_headers
              (Examples.blank [Net (Answer (Examples.token_reply 503 (u "tok"))) []]))
    as (b & st' & E & _ & Hr & _ & Hf & _).
  assert (b = false) as ->.
  { eapply Hr; [reflexivity |]. unfold status_rejected. simpl. lia. }
  exists st'. split; [exact E |]. apply Hf. reflexivity.
Defined.

(** C10, as stated, fails on a reply of status 300 that carries a
    token: the exchange returns [True] and sets the header. *)
Lemma update_authorization_status_300 :
  exists st',
    update_authorization
      (Examples.blank [Net (Answer (Examples.token_reply 300 (u "tok"))) []])
    = (Ret true, st') /\
    session_headers st' = [(u "authorization", (u "Authorization", JStr (u "tok")))].
Proof. eexists. split; vm_compute; reflexivity. Qed.

(** ** [save_cookies] and [login] *)

Lemma save_cookies_run st : save_cookies st = (Ret tt, after_save st).
Proof.
  unfold save_cookies, try_except, bind, get_state, write_cookies_json, after_save.
  destruct (disk_writable st) eqn:E.
  - unfold saved. rewrite E. reflexivity.
  - unfold print, printed. simpl. rewrite E. reflexivity.
Qed.

Lemma isinstance_other c msg :
  c <> HepanException -> isinstance (Exn c msg) HepanException = false.
Proof. destruct c; intros H; try reflexivity. congruence. Qed.

Lemma login_answer st r j rest :
  net st = Net (Answer r) j :: rest ->
  login st
  = match Requests.raise_for_status r with
    | Raise e => (Ret false, printed (message e) (answered (login_request st) j rest st))
    | Ret _ =>
      if py_in welcome (text r) then
        update_authorization (after_save (answered (login_request st) j rest st))
      else
        (Raise (Exn HepanException (rejection_text st (text r))),
         answered (login_request st) j rest st)
    end.
Proof.
  intros H. unfold login, try_except, bind, lift, ret, get_state, raise.
  fold (login_request st). rewrite (send_answer _ _ H).
  destruct (raise_for_status_cases r) as [[Hs E] | [Hs [m E]]]; rewrite E.
  - destruct (py_in welcome (text r)); [| reflexivity].
    rewrite save_cookies_run.
    destruct (update_authorization_returns
                (after_save (answered (login_request st) j rest st))) as (b & st' & Eu).
    rewrite Eu. reflexivity.
  - reflexivity.
Qed.

Lemma login_fault st msg j rest :
  net st = Net (Fault msg) j :: rest ->
  login st = (Ret false, printed msg (answered (login_request st) j rest st)).
Proof.
  intros H. unfold login, try_except, bind, lift, ret, get_state, raise.
  fold (login_request st). rewrite (send_fault _ _ H). reflexivity.
Qed.

Lemma login_silence st :
  net st = [] ->
  login st
  = (Ret false,
     printed (u "Connection aborted") (answered (login_request st) (cookies st) [] st)).
Proof.
  intros H. unfold login, try_except, bind, lift, ret, get_state, raise.
  fold (login_request st). rewrite (send_silence _ _ H). reflexivity.
Qed.

(** Text occurs in what is built around it. *)
Lemma startswith_app p s : startswith p (p ++ s) = true.
Proof.
  induction p as [| c p IH]; simpl; [reflexivity |].
  rewrite N.eqb_refl. exact IH.
Qed.

Lemma py_in_here p s : startswith p s = true -> py_in p s = true.
Proof. intros H. destruct s; simpl; rewrite H; reflexivity. Qed.

Lemma py_in_app pre x post : py_in x (pre ++ x ++ post) = true.
Proof.
  induction pre as [| c pre IH]; simpl.
  - apply py_in_here. apply startswith_app.
  - rewrite IH. apply orb_true_r.
Qed.

Lemma py_in_end pre x : py_in x (pre ++ x) = true.
Proof. rewrite <- (app_nil_r x) at 2. apply py_in_app. Qed.

(** C1, as amended: when the login endpoint answers with a status that
    [raise_for_status] accepts and a body without the welcome marker,
    [login] raises [HepanException]; the text of the error is built from
    the user name, the password and the body of the reply, and so holds
    all three. *)
Theorem login_rejected st r j rest :
  net st = Net (Answer r) j :: rest ->
  status_accepted r ->
  py_in welcome (text r) = false ->
  login st = (Raise (Exn HepanException (rejection_text st (text r))),
              answered (login_request st) j rest st) /\
  py_in (fmt (username st)) (rejection_text st (text r)) = true /\
  py_in (text r) (rejection_text st (text r)) = true /\
  py_in (fmt (password st)) (rejection_text st (text r)) = true.
Proof.
  intros H Hs Hm. split.
  - rewrite (login_answer _ H), (raise_for_status_accepted Hs), Hm. reflexivity.
  - unfold rejection_text. repeat split.
    + apply py_in_app.
    + rewrite !app_assoc. apply py_in_end.
    + rewrite (app_assoc (u "登录失败 username=")), (app_assoc _ (u ", password=")).
      apply py_in_app.
Qed.

Lemma login_rejected_witness :
  fst (login (Examples.alice [Net (Answer Examples.wrong_password) []]))
  = Raise (Exn HepanException
               (u "登录失败 username=alice, password=s3cret" ++ [0x0A%N] ++ u "密码错误")).
Proof.
  destruct (@login_rejected (Examples.alice [Net (Answer Examples.wrong_password) []])
                            Examples.wrong_password [] []) as [E _].
  - reflexivity.
  - unfold status_accepted. simpl. lia.
  - vm_compute. reflexivity.
  - rewrite E. vm_compute. reflexivity.
Defined.

(** C1, as stated, fails: the text of the error raised for the password
    [s3cret] holds [s3cret]. *)
Lemma login_rejection_shows_password :
  exists msg st',
    login (Examples.alice [Net (Answer Examples.wrong_password) []])
    = (Raise (Exn HepanException msg), st') /\
    py_in (u "s3cret") msg = true.
Proof. eexists _, _. split; vm_compute; reflexivity. Qed.

(** A reply 500 without the marker is printed as a fault; it is not a
    rejection. *)
Lemma login_error_status :
  exists st',
    login (Examples.alice [Net (Answer (Response 500 (u "密码错误"))) []])
    = (Ret false, st') /\
    stdout st' = [u "500 Server Error"].
Proof. eexists. split; vm_compute; reflexivity. Qed.

(** C7, as amended: a transport fault of the login request, and a reply
    with a status from 400 to 599, are printed and make [login] return
    [False]; [HepanException] is raised only for a reply with an
    accepted status and no welcome marker, so no fault of either request
    raises it. *)
Theorem login_transport_fault st :
  (forall msg j rest,
      net st = Net (Fault msg) j :: rest ->
      login st = (Ret false, printed msg (answered (login_request st) j rest st))) /\
  (forall r j rest,
      net st = Net (Answer r) j :: rest -> status_rejected r ->
      exists msg,
        login st = (Ret false, printed msg (answered (login_request st) j rest st))) /\
  (forall e st',
      login st = (Raise e, st') ->
      exists r j rest,
        net st = Net (Answer r) j :: rest /\ status_accepted r /\
        py_in welcome (text r) = false /\
        e = Exn HepanException (rejection_text st (text r))).
Proof.
  repeat split.
  - intros msg j rest H. apply login_fault. exact H.
  - intros r j rest H Hs. rewrite (login_answer _ H).
    destruct (raise_for_status_rejected Hs) as [m E]. rewrite E. eauto.
  - intros e st' E.
    destruct (next_answer st) as [(r & j & rest & H) | [(msg & j & rest & H) | H]].
    + rewrite (login_answer _ H) in E.
      destruct (raise_for_status_cases r) as [[Hs Er] | [Hs [m Er]]]; rewrite Er in E.
      * destruct (py_in welcome (text r)) eqn:Hm.
        -- destruct (update_authorization_returns
                       (after_save (answered (login_request st) j rest st)))
             as (b & st2 & Eu).
           rewrite Eu in E. discriminate.
        -- exists r, j, rest. repeat split; try assumption. congruence.
      * discriminate.
    + rewrite (login_fault _ H) in E. discriminate.
    + rewrite (login_silence _ H) in E. discriminate.
Qed.

Lemma login_transport_fault_witness :
  login (Examples.alice [Net (Fault (u "Read timed out.")) []])
  = (Ret false,
     printed (u "Read timed out.")
             (answered (login_request (Examples.alice [])) [] []
                       (Examples.alice [Net (Fault (u "Read timed out.")) []]))).
Proof.
  destruct (login_transport_fault (Examples.alice [Net (Fault (u "Read timed out.")) []]))
    as [H _].
  apply H. reflexivity.
Defined.

(** C7, as stated, fails on a status that is neither 2xx nor an error:
    a reply 300 without the marker raises [HepanException]. *)
Lemma login_status_300 :
  exists msg st',
    login (Examples.alice [Net (Answer Examples.multiple_choices) []])
    = (Raise (Exn HepanException msg), st').
Proof. eexists _, _. vm_compute. reflexivity. Qed.

Lemma str_eqb_refl s : str_eqb s s = true.
Proof. unfold str_eqb. destruct (list_eq_dec N.eq_dec s s); congruence. Qed.

Lemma str_eqb_eq a b : str_eqb a b = true <-> a = b.
Proof.
  unfold str_eqb. destruct (list_eq_dec N.eq_dec a b); split; congruence.
Qed.

Lemma str_eqb_neq a b : str_eqb a b = false <-> a <> b.
Proof.
  unfold str_eqb. destruct (list_eq_dec N.eq_dec a b); split; congruence.
Qed.

(** After [headers.update({key: v})] the header reads [v]. *)
Lemma headers_set_get key v h :
  dict_get (lower key) (Requests.headers_set key v h) = Some (key, v).
Proof.
  induction h as [| [k e] h IH]; simpl.
  - rewrite str_eqb_refl. reflexivity.
  - destruct (str_eqb (lower key) k) eqn:E; simpl; rewrite E.
    + reflexivity.
    + exact IH.
Qed.

Lemma after_save_net st : net (after_save st) = net st.
Proof. unfold after_save. destruct (disk_writable st); reflexivity. Qed.

Lemma after_save_headers st : session_headers (after_save st) = session_headers st.
Proof. unfold after_save. destruct (disk_writable st); reflexivity. Qed.

Lemma after_save_file st :
  cookies_json (after_save st)
  = if disk_writable st
    then Some (dumps_dict (Requests.dict_from_cookiejar (cookies st)))
    else cookies_json st.
Proof. unfold after_save. destruct (disk_writable st); reflexivity. Qed.

(** C2, as amended: [login] returns [True] exactly when the login reply
    has an accepted status and the welcome marker and the token exchange
    that follows succeeds; on that path [save_cookies] has run on the
    jar the login left, so that the file holds its dict when the file
    can be written (and is untouched, with the failure printed, when it
    cannot), and the [Authorization] header holds the value of
    [data.authorization], whatever it is. *)
Theorem login_true st st' :
  (login st = (Ret true, st') <->
   exists r1 j1 r2 j2 rest a,
     net st = Net (Answer r1) j1 :: Net (Answer r2) j2 :: rest /\
     status_accepted r1 /\ py_in welcome (text r1) = true /\
     status_accepted r2 /\ authorization_of r2 = Ret a /\
     st' = authorized a
             (answered token_request j2 rest
                (after_save
                   (answered (login_request st) j1 (Net (Answer r2) j2 :: rest) st)))) /\
  (login st = (Ret true, st') ->
   exists r1 j1 rest a,
     net st = Net (Answer r1) j1 :: rest /\
     cookies_json st'
     = (if disk_writable st
        then Some (dumps_dict (Requests.dict_from_cookiejar j1))
        else cookies_json st) /\
     dict_get (u "authorization") (session_headers st') = Some (u "Authorization", a)).
Proof.
  assert (Hfwd : login st = (Ret true, st') ->
     exists r1 j1 r2 j2 rest a,
     net st = Net (Answer r1) j1 :: Net (Answer r2) j2 :: rest /\
     status_accepted r1 /\ py_in welcome (text r1) = true /\
     status_accepted r2 /\ authorization_of r2 = Ret a /\
     st' = authorized a
             (answered token_request j2 rest
                (after_save
                   (answered (login_request st) j1 (Net (Answer r2) j2 :: rest) st)))).
  { intros E.
    destruct (next_answer st) as [(r1 & j1 & rest1 & H) | [(msg & j & rest & H) | H]].
    - rewrite (login_answer _ H) in E.
      destruct (raise_for_status_cases r1) as [[Hs Er] | [Hs [m Er]]]; rewrite Er in E;
        [| discriminate].
      destruct (py_in welcome (text r1)) eqn:Hm; [| discriminate].
      remember (after_save (answered (login_request st) j1 rest1 st)) as st1 eqn:E1.
      assert (Hn : net st1 = rest1) by (rewrite E1, after_save_net; reflexivity).
      destruct (next_answer st1) as [(r2 & j2 & rest & H2) | [(msg & j & rest & H2) | H2]].
      + rewrite (update_authorization_answer _ H2) in E.
        destruct (raise_for_status_cases r2) as [[Hs2 Er2] | [Hs2 [m2 Er2]]];
          rewrite Er2 in E; [| discriminate].
        destruct (authorization_of r2) as [a | e] eqn:Ea; [| discriminate].
        exists r1, j1, r2, j2, rest, a.
        assert (Hr : rest1 = Net (Answer r2) j2 :: rest) by congruence.
        clear Hn H2. subst rest1 st1.
        repeat split; try assumption. congruence.
      + rewrite (update_authorization_fault _ H2) in E. discriminate.
      + rewrite (update_authorization_silence _ H2) in E. discriminate.
    - rewrite (login_fault _ H) in E. discriminate.
    - rewrite (login_silence _ H) in E. discriminate. }
  split; [split; [exact Hfwd |] |].
  - intros (r1 & j1 & r2 & j2 & rest & a & H & Hs1 & Hm & Hs2 & Ea & ->).
    rewrite (login_answer _ H), (raise_for_status_accepted Hs1), Hm.
    rewrite (@update_authorization_answer _ r2 j2 rest).
    + rewrite (raise_for_status_accepted Hs2), Ea. reflexivity.
    + rewrite after_save_net. reflexivity.
  - intros E. destruct (Hfwd E) as (r1 & j1 & r2 & j2 & rest & a & H & _ & _ & _ & _ & ->).
    exists r1, j1, (Net (Answer r2) j2 :: rest), a. split; [exact H |]. split.
    + simpl. rewrite after_save_file. reflexivity.
    + simpl. rewrite after_save_headers. simpl.
      exact (headers_set_get (u "Authorization") a (session_headers st)).
Qed.

Lemma login_true_witness :
  exists st',
    login (Examples.alice
             [Net (Answer Examples.welcome_back) [Examples.sid (u "1") (u "/")];
              Net (Answer (Examples.token_reply 200 (u "tok")))
                  [Examples.sid (u "1") (u "/")]])
    = (Ret true, st') /\
    cookies_json st'
    = Some (dumps_dict (Requests.dict_from_cookiejar [Examples.sid (u "1") (u "/")])) /\
    dict_get (u "authorization") (session_headers st')
    = Some (u "Authorization", JStr (u "tok")).
Proof.
  eexists. split; [vm_compute; reflexivity |].
  match goal with
  | |- cookies_json ?s = _ /\ _ =>
    destruct (login_true
                (Examples.alice
                   [Net (Answer Examples.welcome_back) [Examples.sid (u "1") (u "/")];
                    Net (Answer (Examples.token_reply 200 (u "tok")))
                        [Examples.sid (u "1") (u "/")]]) s) as [_ H]
  end.
  destruct H as (r1 & j1 & rest & a & _ & _ & _); [vm_compute; reflexivity |].
  split; vm_compute; reflexivity.
Defined.

(** C2, as stated, fails where the file cannot be written and the token
    endpoint grants an empty token: [login] returns [True], nothing has
    been persisted and the header holds the empty text. *)
Lemma login_true_nothing_saved_empty_token :
  exists st',
    login (Examples.alice_read_only
             [Net (Answer Examples.welcome_back) [Examples.sid (u "1") (u "/")];
              Net (Answer (Examples.token_reply 200 []))
                  [Examples.sid (u "1") (u "/")]])
    = (Ret true, st') /\
    cookies_json st' = None /\
    dict_get (u "authorization") (session_headers st') = Some (u "Authorization", JStr []).
Proof. eexists. repeat split; vm_compute; reflexivity. Qed.

(** ** [load_cookies] and the start of [__init__] *)

Lemma loads_empty : loads [] = None.
Proof. reflexivity. Qed.

Lemma load_cookies_file st content :
  cookies_json st = Some content ->
  load_cookies st
  = match loads content with
    | Some j =>
      match Requests.cookiejar_from_dict j with
      | Ret jar => (Ret tt, with_cookies jar st)
      | Raise e => (Ret tt, printed (u "加载cookies失败: " ++ message e) st)
      end
    | None =>
      match content with
      | [] => (Ret tt, st)
      | _ :: _ => (Ret tt, printed (u "加载cookies失败: " ++ u "Expecting value") st)
      end
    end.
Proof.
  intros H.
  unfold load_cookies, try_except, bind, lift, read_cookies_json, getsize_positive, ret.
  rewrite H.
  destruct (loads content) as [j |] eqn:El.
  - destruct (Requests.cookiejar_from_dict j) as [jar | e]; [reflexivity |].
    rewrite H. destruct content as [| c content]; [discriminate | reflexivity].
  - rewrite H. destruct content; reflexivity.
Qed.

(** Called on its own where the file does not exist, [load_cookies]
    raises from its handler; [__init__] does not call it then. *)
Lemma load_cookies_missing st :
  cookies_json st = None ->
  exists msg, load_cookies st = (Raise (Exn FileNotFoundError msg), st).
Proof.
  intros H.
  unfold load_cookies, try_except, bind, lift, read_cookies_json, getsize_positive, ret.
  rewrite H. rewrite H. eauto.
Qed.

Lemma load_saved_cookies_run st :
  load_saved_cookies st
  = match cookies_json st with
    | Some (_ :: _) => load_cookies st
    | _ => (Ret tt, st)
    end.
Proof.
  unfold load_saved_cookies, bind, path_exists, getsize_positive, ret.
  destruct (cookies_json st) as [[| c content] |] eqn:E; rewrite ?E; reflexivity.
Qed.

(** C4: at construction, a missing or empty [cookies.json] is passed
    over: nothing is loaded, printed or raised, and [load_cookies] itself
    does the same on an empty file; a file that is not empty and cannot
    be parsed has the failure printed, leaves the session's cookies as
    they were and raises nothing. *)
Theorem load_saved_cookies_absent st :
  (cookies_json st = None \/ cookies_json st = Some [] ->
   load_saved_cookies st = (Ret tt, st)) /\
  (cookies_json st = Some [] -> load_cookies st = (Ret tt, st)) /\
  (forall content,
      cookies_json st = Some content -> content <> [] -> loads content = None ->
      load_saved_cookies st
      = (Ret tt, printed (u "加载cookies失败: " ++ u "Expecting value") st) /\
      cookies (snd (load_saved_cookies st)) = cookies st).
Proof.
  split; [| split].
  - intros [H | H]; rewrite load_saved_cookies_run, H; reflexivity.
  - intros H. rewrite (load_cookies_file _ H). reflexivity.
  - intros content H Hne Hl.
    rewrite load_saved_cookies_run, H. destruct content as [| c content]; [congruence |].
    rewrite (load_cookies_file _ H), Hl. split; reflexivity.
Qed.

Lemma load_saved_cookies_absent_witness :
  load_saved_cookies (Examples.blank []) = (Ret tt, Examples.blank []) /\
  load_cookies (Examples.with_file [] []) = (Ret tt, Examples.with_file [] []) /\
  load_saved_cookies (Examples.with_file (u "{sid: 1") [])
  = (Ret tt, printed (u "加载cookies失败: " ++ u "Expecting value")
                     (Examples.with_file (u "{sid: 1") [])).
Proof.
  split; [| split].
  - apply (load_saved_cookies_absent (Examples.blank [])). left. reflexivity.
  - apply (load_saved_cookies_absent (Examples.with_file [] [])). reflexivity.
  - destruct (load_saved_cookies_absent (Examples.with_file (u "{sid: 1") []))
      as (_ & _ & H).
    destruct (H (u "{sid: 1")) as [E _].
    + reflexivity.
    + vm_compute. discriminate.
    + vm_compute. reflexivity.
    + exact E.
Defined.

(** Loading never raises at construction, and touches only the jar and
    the output. *)
Lemma load_saved_cookies_returns st :
  exists st',
    load_saved_cookies st = (Ret tt, st') /\
    sent st' = sent st /\ session_headers st' = session_headers st /\
    net st' = net st /\ cookies_json st' = cookies_json st.
Proof.
  rewrite load_saved_cookies_run.
  destruct (cookies_json st) as [[| c content] |] eqn:E; eauto 6.
  rewrite (load_cookies_file _ E).
  destruct (loads (c :: content)) as [j |].
  - destruct (Requests.cookiejar_from_dict j); eexists; (split; [reflexivity |]); auto.
  - eexists; (split; [reflexivity |]); auto.
Qed.

(** ** [__init__] *)

Lemma check_login_status_returns st :
  exists b j rest,
    check_login_status st = (Ret b, answered probe_request j rest st).
Proof.
  destruct (next_answer st) as [(r & j & rest & H) | [(msg & j & rest & H) | H]].
  - rewrite (check_login_status_answer _ H). eauto.
  - rewrite (check_login_status_fault _ H). eauto.
  - rewrite (check_login_status_silence _ H). eauto.
Qed.

Lemma new_session_run dh user pass st :
  new_session dh user pass st = (Ret tt, fresh dh user pass st).
Proof. reflexivity. Qed.

(** C8: constructed with [autoLogin] and without credentials, the client
    loads what [cookies.json] holds, if anything, and probes the session
    so obtained; the probe is the only request sent.  When the probe
    answers [False] construction raises [Exception] with the message of
    the invalid session; when it answers [True] construction completes
    and no login has been attempted. *)
Theorem init_without_credentials dh st :
  exists st1 b st2,
    load_saved_cookies (fresh dh None None st) = (Ret tt, st1) /\
    check_login_status st1 = (Ret b, st2) /\
    sent st2 = sent st ++ [Sent probe_request (cookies st1) dh] /\
    __init__ dh None None true st
    = if b then (Ret tt, printed (u "已进入主页") st2)
      else (Raise (Exn Exception (u "Cookie已失效或不存在")), st2).
Proof.
  destruct (load_saved_cookies_returns (fresh dh None None st))
    as (st1 & El & Hsent & Hh & _).
  destruct (check_login_status_returns st1) as (b & j & rest & Ec).
  exists st1, b, (answered probe_request j rest st1).
  split; [exact El |]. split; [exact Ec |]. split.
  - simpl. rewrite Hsent, Hh. reflexivity.
  - unfold __init__, bind. rewrite new_session_run, El.
    cbn [andb truthy]. rewrite Ec. destruct b; reflexivity.
Qed.

(** ** The JSON codec *)

Lemma hexval_hexdigit d : (d < 16)%N -> hexval (hexdigit d) = Some d.
Proof.
  intros H.
  assert (d = 0 \/ d = 1 \/ d = 2 \/ d = 3 \/ d = 4 \/ d = 5 \/ d = 6 \/ d = 7 \/
          d = 8 \/ d = 9 \/ d = 10 \/ d = 11 \/ d = 12 \/ d = 13 \/ d = 14 \/ d = 15)%N
    as Hd by lia.
  repeat (destruct Hd as [-> | Hd]; [reflexivity |]). subst d. reflexivity.
Qed.

Lemma unhex4_hex4 n :
  (n < 0x10000)%N ->
  unhex4 (hexdigit (n / 4096 mod 16)) (hexdigit (n / 256 mod 16))
         (hexdigit (n / 16 mod 16)) (hexdigit (n mod 16)) = Some n.
Proof.
  intros H. unfold unhex4.
  rewrite !hexval_hexdigit by (apply N.mod_lt; discriminate).
  f_equal. zify. Z.to_euclidean_division_equations. lia.
Qed.

Lemma land_shiftl_low a y k : (y < 2 ^ k)%N -> N.land (N.shiftl a k) y = 0%N.
Proof.
  intros H. apply N.bits_inj. intros i.
  rewrite N.land_spec, N.bits_0.
  destruct (N.lt_ge_cases i k) as [Hi | Hi].
  - rewrite N.shiftl_spec_low by assumption. reflexivity.
  - rewrite <- (N.mod_small y (2 ^ k)) by assumption.
    rewrite N.mod_pow2_bits_high by assumption. apply andb_false_r.
Qed.

Lemma lor_shiftl_low a y k :
  (y < 2 ^ k)%N -> N.lor (N.shiftl a k) y = (a * 2 ^ k + y)%N.
Proof.
  intros H. pose proof (land_shiftl_low a k H) as Hl.
  rewrite <- N.lxor_lor by assumption.
  rewrite <- N.add_nocarry_lxor by assumption.
  rewrite N.shiftl_mul_pow2. reflexivity.
Qed.

(** The escape of a code point above the basic plane is a surrogate
    pair that [scanstring] joins back. *)
Lemma surrogate_pair c :
  (0x10000 <= c <= 0x10FFFF)%N ->
  let n := (c - 0x10000)%N in
  let hi := N.lor 0xD800 (N.land (N.shiftr n 10) 0x3FF) in
  let lo := N.lor 0xDC00 (N.land n 0x3FF) in
  (hi < 0x10000)%N /\ is_high_surrogate hi = true /\
  (lo < 0x10000)%N /\ is_low_surrogate lo = true /\
  join_surrogates hi lo = c.
Proof.
  intros H n hi lo.
  assert (Hn : (n < 2 ^ 20)%N) by (subst n; change (2 ^ 20)%N with 0x100000%N; lia).
  assert (Ea : N.land (N.shiftr n 10) 0x3FF = (n / 1024)%N).
  { change 0x3FF%N with (N.ones 10). rewrite N.land_ones, N.shiftr_div_pow2.
    change (2 ^ 10)%N with 1024%N. apply N.mod_small.
    change (2 ^ 20)%N with (1024 * 1024)%N in Hn.
    apply N.Div0.div_lt_upper_bound. exact Hn. }
  assert (Eb : N.land n 0x3FF = (n mod 1024)%N).
  { change 0x3FF%N with (N.ones 10). rewrite N.land_ones. reflexivity. }
  assert (Ha : (n / 1024 < 1024)%N).
  { change (2 ^ 20)%N with (1024 * 1024)%N in Hn.
    apply N.Div0.div_lt_upper_bound. exact Hn. }
  assert (Hb : (n mod 1024 < 1024)%N) by (apply N.mod_lt; discriminate).
  assert (Ehi : hi = (0xD800 + n / 1024)%N).
  { subst hi. rewrite Ea. change 0xD800%N with (N.shiftl 54 10).
    rewrite lor_shiftl_low by exact Ha. reflexivity. }
  assert (Elo : lo = (0xDC00 + n mod 1024)%N).
  { subst lo. rewrite Eb. change 0xDC00%N with (N.shiftl 55 10).
    rewrite lor_shiftl_low by exact Hb. reflexivity. }
  assert (Ec : c = (0x10000 + n)%N) by (subst n; lia).
  pose proof (N.div_mod n 1024 ltac:(discriminate)) as Hdm.
  clearbody hi lo n. subst hi lo.
  unfold is_high_surrogate, is_low_surrogate, join_surrogates.
  repeat split.
  - lia.
  - apply andb_true_iff. split; apply N.leb_le; lia.
  - lia.
  - apply andb_true_iff. split; apply N.leb_le; lia.
  - replace (0xD800 + n / 1024 - 0xD800)%N with (n / 1024)%N by lia.
    replace (0xDC00 + n mod 1024 - 0xDC00)%N with (n mod 1024)%N by lia.
    rewrite lor_shiftl_low by exact Hb.
    change (2 ^ 10)%N with 1024%N. lia.
Qed.

(** How [scanstring] consumes what [escape_char] produces. *)
Lemma scanstring_plain c r :
  c <> 0x22%N -> c <> 0x5C%N -> (0x20 <= c)%N ->
  scanstring (c :: r) = cons_to c (scanstring r).
Proof.
  intros H1 H2 H3. simpl.
  destruct (N.eqb_spec c 0x22); [contradiction |].
  destruct (N.eqb_spec c 0x5C); [contradiction |].
  destruct (N.ltb_spec c 0x20); [lia | reflexivity].
Qed.

Lemma scanstring_letter e ch r :
  e <> 0x75%N -> unescape e = Some ch ->
  scanstring (0x5C%N :: e :: r) = cons_to ch (scanstring r).
Proof.
  intros H1 H2. simpl.
  destruct (N.eqb_spec e 0x75); [contradiction |].
  rewrite H2. reflexivity.
Qed.

Lemma scanstring_uescape n r :
  (n < 0x10000)%N -> is_high_surrogate n = false ->
  scanstring (uescape n ++ r) = cons_to n (scanstring r).
Proof.
  intros H1 H2. unfold uescape, hex4.
  cbn [app scanstring]. 
  change (0x5C =? 0x22)%N with false. change (0x5C =? 0x5C)%N with true.
  change (0x75 =? 0x75)%N with true. cbv iota.
  rewrite (unhex4_hex4 H1), H2. reflexivity.
Qed.

Lemma scanstring_pair hi lo r :
  (hi < 0x10000)%N -> is_high_surrogate hi = true ->
  (lo < 0x10000)%N -> is_low_surrogate lo = true ->
  scanstring (uescape hi ++ uescape lo ++ r)
  = cons_to (join_surrogates hi lo) (scanstring r).
Proof.
  intros H1 H2 H3 H4. unfold uescape, hex4.
  cbn [app scanstring].
  change (0x5C =? 0x22)%N with false. change (0x5C =? 0x5C)%N with true.
  change (0x75 =? 0x75)%N with true. cbv iota.
  rewrite (unhex4_hex4 H1), H2. cbn [andb].
  rewrite (unhex4_hex4 H3), H4. reflexivity.
Qed.

Lemma scalar_not_high c : scalar c -> is_high_surrogate c = false.
Proof.
  unfold scalar, is_high_surrogate. intros [[H | H] _].
  - apply andb_false_iff. left. apply N.leb_gt. exact H.
  - apply andb_false_iff. right. apply N.leb_gt. lia.
Qed.

Lemma scanstring_escape_char c r :
  scalar c -> scanstring (escape_char c ++ r) = cons_to c (scanstring r).
Proof.
  intros Hc. unfold escape_char.
  destruct (N.eqb_spec c 0x22) as [-> | N1]; [reflexivity |].
  destruct (N.eqb_spec c 0x5C) as [-> | N2]; [reflexivity |].
  destruct (N.eqb_spec c 0x08) as [-> | N3]; [reflexivity |].
  destruct (N.eqb_spec c 0x0C) as [-> | N4]; [reflexivity |].
  destruct (N.eqb_spec c 0x0A) as [-> | N5]; [reflexivity |].
  destruct (N.eqb_spec c 0x0D) as [-> | N6]; [reflexivity |].
  destruct (N.eqb_spec c 0x09) as [-> | N7]; [reflexivity |].
  destruct (N.leb_spec 0x20 c) as [L1 | L1]; cbn [andb].
  - destruct (N.leb_spec c 0x7E) as [L2 | L2].
    + apply scanstring_plain; assumption.
    + destruct (N.ltb_spec c 0x10000) as [L3 | L3].
      * apply scanstring_uescape; [assumption | apply scalar_not_high; assumption].
      * destruct (@surrogate_pair c) as (A & B & C & D & E).
        { destruct Hc as [_ Hc]. lia. }
        rewrite <- app_assoc. rewrite scanstring_pair by assumption.
        rewrite E. reflexivity.
  - destruct (N.ltb_spec c 0x10000) as [L3 | L3]; [| lia].
    apply scanstring_uescape; [assumption | apply scalar_not_high; assumption].
Qed.

(** A string body written by [quote] is read back by [scanstring]. *)
Lemma scanstring_escaped s r :
  scalar_text s ->
  scanstring (flat_map escape_char s ++ 0x22%N :: r) = Some (s, r).
Proof.
  induction 1 as [| c s Hc Hs IH]; [reflexivity |].
  cbn [flat_map]. rewrite <- app_assoc, scanstring_escape_char by assumption.
  rewrite IH. reflexivity.
Qed.

Lemma dumps_object m :
  dumps (JObj m) = 0x7B%N :: join (u ", ") (map member_text m) ++ [0x7D%N].
Proof. reflexivity. Qed.

Lemma dumps_value_head v :
  text_or_none v -> exists c r, dumps v = c :: r /\ is_ws c = false.
Proof. intros [| s _]; eexists _, _; split; reflexivity. Qed.

Lemma skip_ws_head c r : is_ws c = false -> skip_ws (c :: r) = c :: r.
Proof. intros H. simpl. rewrite H. reflexivity. Qed.

(** A value written by [dumps] is read back by [scan_once]. *)
Lemma scan_once_value v f tail :
  text_or_none v -> scan_once (S f) (dumps v ++ tail) = Ok v tail.
Proof.
  intros [| s Hs].
  - reflexivity.
  - change (dumps (JStr s)) with (0x22%N :: flat_map escape_char s ++ [0x22%N]).
    cbn [app scan_once]. change (0x22 =? 0x22)%N with true. cbv iota.
    rewrite <- app_assoc. cbn [app].
    rewrite (scanstring_escaped _ Hs). reflexivity.
Qed.

Lemma member_text_unfold k v :
  member_text (k, v)
  = 0x22%N :: flat_map escape_char k ++ 0x22%N :: 0x3A%N :: 0x20%N :: dumps v.
Proof.
  unfold member_text, quote. cbn [fst snd app].
  rewrite <- app_assoc. reflexivity.
Qed.

Lemma skip_ws_value v t : text_or_none v -> skip_ws (dumps v ++ t) = dumps v ++ t.
Proof.
  intros Hv. destruct (dumps_value_head Hv) as (c & r & E & Hc).
  rewrite E. cbn [app]. apply skip_ws_head. exact Hc.
Qed.

(** The turns of the loop of [JSONObject] on members that [dumps] wrote:
    the last one, and one followed by another. *)
Lemma object_loop_last scan n acc k v tail :
  scalar_text k -> text_or_none v ->
  (forall t, scan (dumps v ++ t) = Ok v t) ->
  object_loop scan (S n) acc (tl (member_text (k, v)) ++ 0x7D%N :: tail)
  = Ok (JObj (dict_set k v acc)) tail.
Proof.
  intros Hk Hv Hscan. rewrite member_text_unfold. cbn [tl].
  rewrite <- app_assoc. cbn [app object_loop].
  rewrite (scanstring_escaped _ Hk).
  cbn [skip_ws]. change (is_ws 0x3A) with false. cbv iota.
  change (0x3A =? 0x3A)%N with true. cbv iota.
  cbn [skip_ws]. change (is_ws 0x20) with true. cbv iota.
  rewrite (skip_ws_value _ Hv), Hscan. reflexivity.
Qed.

Lemma object_loop_next scan n acc k v r :
  scalar_text k -> text_or_none v ->
  (forall t, scan (dumps v ++ t) = Ok v t) ->
  object_loop scan (S n) acc
              (tl (member_text (k, v)) ++ 0x2C%N :: 0x20%N :: 0x22%N :: r)
  = object_loop scan n (dict_set k v acc) r.
Proof.
  intros Hk Hv Hscan. rewrite member_text_unfold. cbn [tl].
  rewrite <- app_assoc. cbn [app object_loop].
  rewrite (scanstring_escaped _ Hk).
  cbn [skip_ws]. change (is_ws 0x3A) with false. cbv iota.
  change (0x3A =? 0x3A)%N with true. cbv iota.
  cbn [skip_ws]. change (is_ws 0x20) with true. cbv iota.
  rewrite (skip_ws_value _ Hv), Hscan. reflexivity.
Qed.

Lemma member_text_head kv : member_text kv = 0x22%N :: tl (member_text kv).
Proof. destruct kv as [k v]. rewrite member_text_unfold. reflexivity. Qed.

Lemma join_members_head kv m :
  join (u ", ") (map member_text (kv :: m))
  = 0x22%N :: tl (join (u ", ") (map member_text (kv :: m))).
Proof.
  cbn [map join]. destruct (map member_text m); rewrite member_text_head; reflexivity.
Qed.

Lemma join_members_cons kv kv2 m :
  tl (join (u ", ") (map member_text (kv :: kv2 :: m)))
  = tl (member_text kv) ++ 0x2C%N :: 0x20%N :: 0x22%N
       :: tl (join (u ", ") (map member_text (kv2 :: m))).
Proof.
  change (map member_text (kv :: kv2 :: m))
    with (member_text kv :: map member_text (kv2 :: m)).
  change (join (u ", ") (member_text kv :: map member_text (kv2 :: m)))
    with (member_text kv ++ u ", " ++ join (u ", ") (map member_text (kv2 :: m))).
  rewrite (join_members_head kv2 m) at 1.
  rewrite (member_text_head kv) at 1. reflexivity.
Qed.

(** The loop of [JSONObject] reads back the members that [dumps] wrote. *)
Lemma object_loop_members scan m :
  (forall v t, text_or_none v -> scan (dumps v ++ t) = Ok v t) ->
  forall kv acc n tail,
    Forall plain_member (kv :: m) -> (List.length m < n)%nat ->
    object_loop scan n acc
                (tl (join (u ", ") (map member_text (kv :: m))) ++ 0x7D%N :: tail)
    = Ok (JObj (fold_left (fun d e => dict_set (fst e) (snd e) d) (kv :: m) acc)) tail.
Proof.
  intros Hscan. induction m as [| kv2 m IH]; intros [k v] acc n tail Hm Hn.
  - destruct n as [| n]; [inversion Hn |].
    inversion Hm as [| ? ? [Hk Hv] _]; subst.
    cbn [map join]. apply object_loop_last; auto.
  - destruct n as [| n]; [inversion Hn |].
    inversion Hm as [| ? ? [Hk Hv] Hm']; subst.
    rewrite join_members_cons, <- app_assoc. cbn [app].
    rewrite object_loop_next by auto.
    rewrite IH; [reflexivity | assumption |]. simpl in Hn. lia.
Qed.

Lemma join_members_length m :
  (List.length m <= List.length (join (u ", ") (map member_text m)))%nat.
Proof.
  induction m as [| kv m IH]; [apply Nat.le_refl |].
  destruct m as [| kv2 m].
  - cbn [map join]. rewrite member_text_head. simpl. lia.
  - change (join (u ", ") (map member_text (kv :: kv2 :: m)))
      with (member_text kv ++ u ", " ++ join (u ", ") (map member_text (kv2 :: m))).
    rewrite member_text_head, !length_app.
    cbn [List.length] in *. lia.
Qed.

Lemma scan_once_object f r :
  scan_once (S f) (0x7B%N :: r) = parse_object (scan_once f) f r.
Proof. reflexivity. Qed.

(** [loads] undoes [dumps] on a dict of text and [None]: the members
    come back, merged as a dict merges repeated keys. *)
Lemma loads_dumps_members m :
  Forall plain_member m ->
  loads (dumps (JObj m))
  = Some (JObj (fold_left (fun d e => dict_set (fst e) (snd e) d) m [])).
Proof.
  intros Hm. rewrite dumps_object. unfold loads.
  rewrite skip_ws_head by reflexivity.
  rewrite scan_once_object.
  unfold parse_object. destruct m as [| kv m].
  - reflexivity.
  - rewrite join_members_head. cbn [app].
    rewrite skip_ws_head by reflexivity.
    change (0x22 =? 0x7D)%N with false. change (0x22 =? 0x22)%N with true. cbv iota.
    pose proof (join_members_length (kv :: m)) as Hl.
    rewrite join_members_head in Hl.
    change (List.length (0x7B%N :: 0x22%N
                          :: tl (join (u ", ") (map member_text (kv :: m))) ++ [0x7D%N]))
      with (S (S (List.length (tl (join (u ", ") (map member_text (kv :: m)))
                               ++ [0x7D%N])))).
    rewrite object_loop_members with (tail := []).
    + reflexivity.
    + intros v t Hv. apply scan_once_value. exact Hv.
    + exact Hm.
    + rewrite length_app. cbn [List.length] in *. lia.
Qed.

(** ** The fuel of the decoder

    [loads] gives [scan_once] more fuel than its text has characters;
    that is always enough, so [None] from [loads] is a refusal of the
    text and never a lack of fuel. *)

Lemma skip_ws_length s : (List.length (skip_ws s) <= List.length s)%nat.
Proof.
  induction s as [| c s IH]; simpl; [lia |].
  destruct (is_ws c); simpl; lia.
Qed.

Lemma cons_to_some c x str r :
  cons_to c x = Some (str, r) -> exists str', x = Some (str', r).
Proof.
  destruct x as [[str' r'] |]; simpl; intros H; [| discriminate].
  injection H as _ <-. eauto.
Qed.

Lemma scanstring_shorter s :
  forall str r, scanstring s = Some (str, r) -> (List.length r < List.length s)%nat.
Proof.
  assert (H : forall n s, (List.length s <= n)%nat ->
           forall str r, scanstring s = Some (str, r) ->
                         (List.length r < List.length s)%nat).
  { clear s. induction n as [| n IH]; intros s Hn str r E.
    - destruct s; [discriminate | simpl in Hn; lia].
    - destruct s as [| c s]; [discriminate |].
      simpl in Hn. cbn [scanstring] in E.
      assert (Hrec : forall c' x, (List.length x <= n)%nat ->
                 cons_to c' (scanstring x) = Some (str, r) ->
                 (List.length r < List.length x)%nat).
      { intros c' x Hx Ex. apply cons_to_some in Ex. destruct Ex as [str' Ex].
        eapply IH; eassumption. }
      destruct (c =? 0x22)%N.
      { injection E as _ <-. simpl. lia. }
      destruct (c =? 0x5C)%N.
      + destruct s as [| e r1]; [discriminate |].
        destruct (e =? 0x75)%N.
        * destruct r1 as [| h1 [| h2 [| h3 [| h4 r2]]]]; try discriminate.
          destruct (unhex4 h1 h2 h3 h4) as [uni |]; [| discriminate].
          simpl in Hn. destruct (is_high_surrogate uni).
          -- destruct r2 as [| b [| e2 [| g1 [| g2 [| g3 [| g4 r3]]]]]];
               try (apply Hrec in E; simpl in *; lia).
             destruct ((b =? 0x5C) && (e2 =? 0x75))%N.
             ++ destruct (unhex4 g1 g2 g3 g4) as [uni2 |]; [| discriminate].
                destruct (is_low_surrogate uni2);
                  apply Hrec in E; simpl in *; lia.
             ++ apply Hrec in E; simpl in *; lia.
          -- apply Hrec in E; simpl in *; lia.
        * destruct (unescape e); [| discriminate].
          apply Hrec in E; simpl in *; lia.
      + destruct (c <? 0x20)%N; [discriminate |].
        apply Hrec in E; simpl in *; lia. }
  intros str r. apply (H (List.length s)). lia.
Qed.

Lemma span_digits_length s :
  (List.length (snd (span_digits s)) <= List.length s)%nat.
Proof.
  induction s as [| c s IH]; simpl; [lia |].
  destruct (is_digit c); [| simpl; lia].
  destruct (span_digits s) as [ds r]. simpl in *. lia.
Qed.

Lemma int_part_shorter s ip r :
  int_part s = Some (ip, r) -> (List.length r < List.length s)%nat.
Proof.
  destruct s as [| c s]; [discriminate |]. cbn [int_part].
  destruct (c =? 0x30)%N.
  - intros E. injection E as _ <-. simpl. lia.
  - destruct (is_digit c); [| discriminate].
    pose proof (span_digits_length s) as Hl.
    destruct (span_digits s) as [ds r']. intros E. injection E as _ <-.
    simpl in *. lia.
Qed.

Lemma frac_part_length s : (List.length (snd (frac_part s)) <= List.length s)%nat.
Proof.
  destruct s as [| c s]; simpl; [lia |].
  destruct (c =? 0x2E)%N; [| simpl; lia].
  pose proof (span_digits_length s) as Hl.
  destruct (span_digits s) as [[| d ds] r]; simpl in *; lia.
Qed.

Lemma exp_part_length s : (List.length (snd (exp_part s)) <= List.length s)%nat.
Proof.
  destruct s as [| c s]; simpl; [lia |].
  destruct ((c =? 0x65) || (c =? 0x45))%N; [| simpl; lia].
  destruct s as [| sg s]; [simpl; lia |].
  destruct ((sg =? 0x2B) || (sg =? 0x2D))%N.
  - pose proof (span_digits_length s) as Hl.
    destruct (span_digits s) as [[| d ds] r]; simpl in *; lia.
  - pose proof (span_digits_length (sg :: s)) as Hl.
    destruct (span_digits (sg :: s)) as [[| d ds] r]; simpl in *; lia.
Qed.

Lemma scan_number_shorter s v r :
  scan_number s = Ok v r -> (List.length r < List.length s)%nat.
Proof.
  unfold scan_number.
  set (cut := match s with
              | [] => ([], s)
              | c :: s' => if (c =? 0x2D)%N then ([c], s') else ([], s)
              end).
  assert (Hc : (List.length (snd cut) <= List.length s)%nat).
  { subst cut. destruct s as [| c s]; [simpl; lia |].
    destruct (c =? 0x2D)%N; simpl; lia. }
  destruct cut as [sign s0]. cbn [snd] in Hc.
  destruct (int_part s0) as [[ip s1] |] eqn:Ei; [| discriminate].
  apply int_part_shorter in Ei.
  pose proof (frac_part_length s1) as Hf.
  destruct (frac_part s1) as [fp s2]. cbn [snd] in Hf.
  pose proof (exp_part_length s2) as He.
  destruct (exp_part s2) as [ep s3]. cbn [snd] in He.
  destruct fp; destruct ep;
    try destruct (N.of_nat (List.length ip) <=? int_max_str_digits)%N;
    intros E; try discriminate; injection E as _ <-; lia.
Qed.

Lemma scan_number_fuel s : scan_number s <> OutOfFuel.
Proof.
  unfold scan_number.
  destruct (match s with
            | [] => ([], s)
            | c :: s' => if (c =? 0x2D)%N then ([c], s') else ([], s)
            end) as [sign s0].
  destruct (int_part s0) as [[ip s1] |]; [| discriminate].
  destruct (frac_part s1) as [fp s2]. destruct (exp_part s2) as [ep s3].
  destruct fp; destruct ep;
    try destruct (N.of_nat (List.length ip) <=? int_max_str_digits)%N; discriminate.
Qed.

Lemma startswith_length p s :
  startswith p s = true -> (List.length p <= List.length s)%nat.
Proof.
  revert s. induction p as [| a p IH]; intros s H; [simpl; lia |].
  destruct s as [| b s]; [discriminate |]. simpl in H.
  apply andb_true_iff in H. destruct H as [_ H]. apply IH in H. simpl. lia.
Qed.

Lemma skipn_shorter (n : nat) (p s : pystr) :
  startswith p s = true -> List.length p = n -> (0 < n)%nat ->
  (List.length (skipn n s) < List.length s)%nat.
Proof.
  intros H Hp Hn. apply startswith_length in H. rewrite length_skipn. lia.
Qed.

Lemma scan_const_shorter s v r :
  scan_const s = Ok v r -> (List.length r < List.length s)%nat.
Proof.
  unfold scan_const.
  destruct (startswith (u "NaN") s) eqn:E1.
  { intros E. injection E as _ <-.
    exact (@skipn_shorter 3 (u "NaN") s E1 eq_refl (Nat.lt_0_succ _)). }
  destruct (startswith (u "Infinity") s) eqn:E2.
  { intros E. injection E as _ <-.
    exact (@skipn_shorter 8 (u "Infinity") s E2 eq_refl (Nat.lt_0_succ _)). }
  destruct (startswith (u "-Infinity") s) eqn:E3.
  { intros E. injection E as _ <-.
    exact (@skipn_shorter 9 (u "-Infinity") s E3 eq_refl (Nat.lt_0_succ _)). }
  discriminate.
Qed.

Lemma array_loop_fuel scan bound :
  scans_well scan bound ->
  forall n acc s,
    (List.length s < n)%nat -> (List.length s < bound)%nat ->
    array_loop scan n acc s <> OutOfFuel /\
    forall v r, array_loop scan n acc s = Ok v r -> (List.length r < List.length s)%nat.
Proof.
  intros Hscan. induction n as [| n IH]; intros acc s Hn Hb; [lia |].
  cbn [array_loop]. destruct (Hscan s Hb) as [Hf Hs].
  destruct (scan s) as [v0 r0 | |]; [| split; [discriminate | intros; discriminate] | congruence].
  specialize (Hs v0 r0 eq_refl).
  pose proof (skip_ws_length r0) as Hw.
  destruct (skip_ws r0) as [| c r1]; [split; [discriminate | intros; discriminate] |].
  simpl in Hw.
  destruct (c =? 0x5D)%N.
  { split; [discriminate |]. intros v r E. injection E as _ <-. lia. }
  destruct (c =? 0x2C)%N; [| split; [discriminate | intros; discriminate]].
  pose proof (skip_ws_length r1) as Hw1.
  destruct (IH (v0 :: acc) (skip_ws r1)) as [Hf' Hs']; [lia | lia |].
  split; [exact Hf' |]. intros v r E. apply Hs' in E. lia.
Qed.

Lemma object_loop_fuel scan bound :
  scans_well scan bound ->
  forall n acc s,
    (List.length s < n)%nat -> (List.length s < bound)%nat ->
    object_loop scan n acc s <> OutOfFuel /\
    forall v r, object_loop scan n acc s = Ok v r -> (List.length r < List.length s)%nat.
Proof.
  intros Hscan. induction n as [| n IH]; intros acc s Hn Hb; [lia |].
  cbn [object_loop].
  destruct (scanstring s) as [[key r0] |] eqn:Ek;
    [| split; [discriminate | intros; discriminate]].
  apply scanstring_shorter in Ek.
  pose proof (skip_ws_length r0) as Hw0.
  destruct (skip_ws r0) as [| c r1]; [split; [discriminate | intros; discriminate] |].
  simpl in Hw0.
  destruct (c =? 0x3A)%N; [| split; [discriminate | intros; discriminate]].
  pose proof (skip_ws_length r1) as Hw1.
  destruct (Hscan (skip_ws r1)) as [Hf Hs]; [lia |].
  destruct (scan (skip_ws r1)) as [v0 r2 | |];
    [| split; [discriminate | intros; discriminate] | congruence].
  specialize (Hs v0 r2 eq_refl).
  pose proof (skip_ws_length r2) as Hw2.
  destruct (skip_ws r2) as [| d r3]; [split; [discriminate | intros; discriminate] |].
  simpl in Hw2.
  destruct (d =? 0x7D)%N.
  { split; [discriminate |]. intros v r E. injection E as _ <-. lia. }
  destruct (d =? 0x2C)%N; [| split; [discriminate | intros; discriminate]].
  pose proof (skip_ws_length r3) as Hw3.
  destruct (skip_ws r3) as [| q r4]; [split; [discriminate | intros; discriminate] |].
  simpl in Hw3.
  destruct (q =? 0x22)%N; [| split; [discriminate | intros; discriminate]].
  destruct (IH (dict_set key v0 acc) r4) as [Hf' Hs']; [lia | lia |].
  split; [exact Hf' |]. intros v r E. apply Hs' in E. lia.
Qed.

Lemma scan_once_fuel f : scans_well (scan_once f) f.
Proof.
  induction f as [| f IH]; intros s Hs; [lia |].
  destruct s as [| c s]; [split; [discriminate | intros; discriminate] |].
  simpl in Hs. cbn [scan_once].
  destruct (c =? 0x22)%N.
  { destruct (scanstring s) as [[str r'] |] eqn:E;
      [| split; [discriminate | intros; discriminate]].
    apply scanstring_shorter in E.
    split; [discriminate |]. intros v r Ev. injection Ev as _ <-. simpl. lia. }
  destruct (c =? 0x7B)%N.
  { unfold parse_object. pose proof (skip_ws_length s) as Hw.
    destruct (skip_ws s) as [| d r]; [split; [discriminate | intros; discriminate] |].
    simpl in Hw. destruct (d =? 0x7D)%N.
    { split; [discriminate |]. intros v r' E. injection E as _ <-. simpl. lia. }
    destruct (d =? 0x22)%N; [| split; [discriminate | intros; discriminate]].
    destruct (@object_loop_fuel (scan_once f) f IH f [] r) as [Hf Hr]; [lia | lia |].
    split; [exact Hf |]. intros v r' E. apply Hr in E. simpl. lia. }
  destruct (c =? 0x5B)%N.
  { unfold parse_array. pose proof (skip_ws_length s) as Hw.
    destruct (skip_ws s) as [| d r] eqn:Ew; [split; [discriminate | intros; discriminate] |].
    simpl in Hw. destruct (d =? 0x5D)%N.
    { split; [discriminate |]. intros v r' E. injection E as _ <-. simpl. lia. }
    destruct (@array_loop_fuel (scan_once f) f IH f [] (d :: r)) as [Hf Hr];
      [simpl; lia | simpl; lia |].
    split; [exact Hf |]. intros v r' E. apply Hr in E. simpl in *. lia. }
  destruct (startswith (u "null") (c :: s)) eqn:E1.
  { split; [discriminate |]. intros v r E. injection E as _ <-.
    exact (@skipn_shorter 4 (u "null") (c :: s) E1 eq_refl (Nat.lt_0_succ _)). }
  destruct (startswith (u "true") (c :: s)) eqn:E2.
  { split; [discriminate |]. intros v r E. injection E as _ <-.
    exact (@skipn_shorter 4 (u "true") (c :: s) E2 eq_refl (Nat.lt_0_succ _)). }
  destruct (startswith (u "false") (c :: s)) eqn:E3.
  { split; [discriminate |]. intros v r E. injection E as _ <-.
    exact (@skipn_shorter 5 (u "false") (c :: s) E3 eq_refl (Nat.lt_0_succ _)). }
  destruct (scan_number (c :: s)) as [v0 r0 | |] eqn:En.
  - apply scan_number_shorter in En.
    split; [discriminate |]. intros v r E. injection E as _ <-. exact En.
  - unfold scan_const.
    split; [repeat (destruct (startswith _ _)); discriminate |].
    intros v r E. eapply scan_const_shorter. exact E.
  - exfalso. exact (scan_number_fuel _ En).
Qed.

(** [loads] never runs out of fuel. *)
Lemma loads_fuel s : scan_once (S (List.length s)) (skip_ws s) <> OutOfFuel.
Proof.
  pose proof (skip_ws_length s) as Hw.
  destruct (@scan_once_fuel (S (List.length s)) (skip_ws s)) as [H _]; [lia | exact H].
Qed.

(** ** Dicts and jars with distinct keys *)

Lemma dict_set_fresh (A : Type) k (v : A) d :
  ~ In k (map fst d) -> dict_set k v d = d ++ [(k, v)].
Proof.
  induction d as [| [k' v'] d IH]; intros H; [reflexivity |].
  cbn [dict_set]. destruct (str_eqb k k') eqn:E.
  - apply str_eqb_eq in E. subst. exfalso. apply H. left. reflexivity.
  - cbn [app]. f_equal. apply IH. intros Hin. apply H. right. exact Hin.
Qed.

Lemma dict_fold_distinct (A : Type) (m acc : list (pystr * A)) :
  NoDup (map fst m) ->
  (forall k, In k (map fst m) -> ~ In k (map fst acc)) ->
  fold_left (fun d e => dict_set (fst e) (snd e) d) m acc = acc ++ m.
Proof.
  revert acc. induction m as [| [k v] m IH]; intros acc Hnd Hd.
  - cbn. rewrite app_nil_r. reflexivity.
  - cbn [fold_left fst snd]. inversion Hnd as [| ? ? Hk Hnd']; subst.
    rewrite dict_set_fresh by (apply Hd; left; reflexivity).
    rewrite IH.
    + rewrite <- app_assoc. reflexivity.
    + exact Hnd'.
    + intros k' Hin. rewrite map_app, in_app_iff. cbn. intros [H | [H | []]].
      * apply (Hd k'); [right; exact Hin | exact H].
      * subst. contradiction.
Qed.

Lemma key_eqb_text a b : key_eqb (KStr a) (KStr b) = str_eqb a b.
Proof. reflexivity. Qed.

Lemma pydict_set_fresh k v d :
  (forall k', In k' (map fst d) -> key_eqb k k' = false) ->
  Requests.pydict_set k v d = d ++ [(k, v)].
Proof.
  induction d as [| [k' v'] d IH]; intros H; [reflexivity |].
  cbn [Requests.pydict_set]. rewrite (H k') by (left; reflexivity).
  cbn [app]. f_equal. apply IH. intros k2 Hin. apply H. right. exact Hin.
Qed.

Lemma text_keys_differ k1 k2 :
  (exists s, k1 = KStr s) -> (exists s, k2 = KStr s) -> k1 <> k2 ->
  key_eqb k1 k2 = false.
Proof.
  intros [a ->] [s ->] H. rewrite key_eqb_text. apply str_eqb_neq. congruence.
Qed.

(** With distinct text names, the dict of a jar lists its pairs. *)
Lemma dict_from_cookiejar_distinct j :
  Forall (fun c => exists s, name c = KStr s) j -> NoDup (map name j) ->
  Requests.dict_from_cookiejar j = pairs j.
Proof.
  unfold Requests.dict_from_cookiejar.
  assert (H : forall acc,
             Forall (fun c => exists s, name c = KStr s) j -> NoDup (map name j) ->
             Forall (fun k => exists s, k = KStr s) (map fst acc) ->
             (forall k, In k (map name j) -> ~ In k (map fst acc)) ->
             fold_left (fun d c => Requests.pydict_set (name c) (value c) d) j acc
             = acc ++ pairs j).
  { induction j as [| c j IH]; intros acc Ht Hnd Ha Hd.
    - cbn. rewrite app_nil_r. reflexivity.
    - cbn [fold_left pairs map].
      inversion Ht as [| ? ? [s Hs] Ht']; subst.
      inversion Hnd as [| ? ? Hc Hnd']; subst.
      rewrite pydict_set_fresh.
      + rewrite IH.
        * rewrite <- app_assoc. reflexivity.
        * exact Ht'.
        * exact Hnd'.
        * rewrite map_app. apply Forall_app. split; [exact Ha |].
          cbn. constructor; [eauto | constructor].
        * intros k Hin. rewrite map_app, in_app_iff. cbn. intros [H | [H | []]].
          -- apply (Hd k); [right; exact Hin | exact H].
          -- subst. contradiction.
      + intros k' Hin. apply text_keys_differ.
        * eauto.
        * rewrite Forall_forall in Ha. apply Ha. exact Hin.
        * intros <-. exact (Hd (name c) (or_introl eq_refl) Hin). }
  intros Ht Hnd. apply (H []); auto.
Qed.

Lemma jar_put_fresh c j :
  (forall c', In c' j -> key_eqb (name c) (name c') = false) ->
  Requests.jar_put c j = j ++ [c].
Proof.
  induction j as [| c' j IH]; intros H; [reflexivity |].
  cbn [Requests.jar_put]. unfold Requests.same_slot.
  rewrite (H c') by (left; reflexivity). rewrite andb_false_r.
  cbn [app]. f_equal. apply IH. intros c2 Hin. apply H. right. exact Hin.
Qed.

(** With distinct keys, the jar made from a dict lists its members. *)
Lemma cookiejar_from_dict_distinct m :
  NoDup (map fst m) ->
  Requests.cookiejar_from_dict (JObj m)
  = Ret (map (fun kv => Cookie (KStr (fst kv)) (Requests.unquote_value (snd kv)) [] (u "/")) m).
Proof.
  cbn [Requests.cookiejar_from_dict]. intros Hnd. f_equal.
  assert (H : forall acc,
             NoDup (map fst m) ->
             Forall (fun c => exists s, name c = KStr s /\ ~ In s (map fst m)) acc ->
             fold_left (fun j kv => Requests.set_cookie
                                      (Requests.create_cookie (KStr (fst kv)) (snd kv)) j)
                       m acc
             = acc ++ map (fun kv => Cookie (KStr (fst kv))
                                            (Requests.unquote_value (snd kv)) [] (u "/")) m).
  { clear Hnd. induction m as [| [k v] m IH]; intros acc Hnd Ha.
    - cbn. rewrite app_nil_r. reflexivity.
    - cbn [fold_left map fst snd].
      inversion Hnd as [| ? ? Hk Hnd']; subst.
      unfold Requests.set_cookie at 2. unfold Requests.create_cookie at 2.
      cbn [name value domain path].
      rewrite jar_put_fresh.
      + rewrite IH.
        * rewrite <- app_assoc. reflexivity.
        * exact Hnd'.
        * apply Forall_app. split.
          -- eapply Forall_impl; [| exact Ha].
             intros c (s & Hs & Hin). exists s. split; [exact Hs |].
             intros H. apply Hin. right. exact H.
          -- constructor; [| constructor]. exists k. split; [reflexivity | exact Hk].
      + intros c' Hin. rewrite Forall_forall in Ha.
        destruct (Ha c' Hin) as (s & Hs & Hns). cbn [name].
        apply text_keys_differ; [eauto | eauto |].
        intros E. rewrite Hs in E. injection E as <-. apply Hns. left. reflexivity. }
  apply (H []); [exact Hnd | constructor].
Qed.

(** ** Saving and loading *)

Lemma plain_jar_texts j :
  plain_jar j ->
  Forall (fun c => exists s, name c = KStr s) j /\
  Forall plain_member (map (fun c => (key_text (name c), value c)) j) /\
  NoDup (map fst (map (fun c => (key_text (name c), value c)) j)) /\
  map (fun kv => (KStr (fst kv), Requests.unquote_value (snd kv)))
      (map (fun c => (key_text (name c), value c)) j) = pairs j.
Proof.
  intros [Hp Hnd]. induction j as [| c j IH].
  - repeat split; constructor.
  - inversion Hp as [| ? ? [[s [Hs Hsc]] [Hv Hq]] Hp']; subst.
    inversion Hnd as [| ? ? Hc Hnd']; subst.
    destruct (IH Hp' Hnd') as (A & B & C & D).
    repeat split.
    + constructor; eauto.
    + cbn [map]. constructor; [| exact B].
      split; cbn [fst snd]; [rewrite Hs; exact Hsc | exact Hv].
    + cbn [map fst]. constructor; [| exact C].
      rewrite map_map. cbn [fst]. rewrite in_map_iff.
      intros (c' & E & Hin). apply Hc. rewrite in_map_iff. exists c'.
      split; [| exact Hin].
      rewrite Forall_forall in A. destruct (A c' Hin) as [s' Hs'].
      rewrite Hs, Hs' in *. cbn [key_text] in E. congruence.
    + cbn [map pairs fst snd]. rewrite D. f_equal.
      rewrite Hs, Hq. reflexivity.
Qed.

(** C5, as amended: for a jar whose cookies have pairwise distinct names
    that are text, and values that are [None] or text which [set_cookie]
    leaves as it is, all text being made of Unicode scalar values, and
    where [cookies.json] can be written, [save_cookies] followed by
    [load_cookies] raises nothing and leaves a jar with the same
    name/value pairs, in the same order. *)
Theorem save_then_load st :
  disk_writable st = true ->
  plain_jar (cookies st) ->
  exists st2,
    save_cookies st = (Ret tt, saved st) /\
    load_cookies (saved st) = (Ret tt, st2) /\
    pairs (cookies st2) = pairs (cookies st) /\
    (forall p, In p (pairs (cookies st2)) <-> In p (pairs (cookies st))).
Proof.
  intros Hw Hj.
  destruct (plain_jar_texts Hj) as (Ht & Hm & Hnd & Hp).
  destruct Hj as [_ Hn].
  set (m := map (fun c => (key_text (name c), value c)) (cookies st)) in *.
  exists (with_cookies
            (map (fun kv => Cookie (KStr (fst kv)) (Requests.unquote_value (snd kv))
                                   [] (u "/")) m)
            (saved st)).
  assert (Es : save_cookies st = (Ret tt, saved st)).
  { rewrite save_cookies_run. unfold after_save. rewrite Hw. reflexivity. }
  assert (El : load_cookies (saved st)
               = (Ret tt,
                  with_cookies
                    (map (fun kv => Cookie (KStr (fst kv))
                                           (Requests.unquote_value (snd kv)) [] (u "/")) m)
                    (saved st))).
  { rewrite (@load_cookies_file (saved st)
               (dumps_dict (Requests.dict_from_cookiejar (cookies st)))) by reflexivity.
    rewrite (dict_from_cookiejar_distinct Ht Hn).
    unfold dumps_dict, pairs. rewrite map_map. cbn [fst snd]. fold m.
    rewrite (loads_dumps_members Hm).
    rewrite dict_fold_distinct by (auto; intros k _ []).
    cbn [app]. rewrite (cookiejar_from_dict_distinct _ Hnd). reflexivity. }
  assert (Ep : pairs (map (fun kv => Cookie (KStr (fst kv))
                                            (Requests.unquote_value (snd kv)) [] (u "/")) m)
               = pairs (cookies st)).
  { rewrite <- Hp. unfold pairs. rewrite map_map. reflexivity. }
  split; [exact Es |]. split; [exact El |].
  cbn [cookies with_cookies]. split; [exact Ep |].
  intros p. rewrite Ep. reflexivity.
Qed.

Lemma save_then_load_witness :
  exists st2,
    load_cookies (saved (Examples.holding [Examples.sid (u "1") (u "/"); Examples.lang]))
    = (Ret tt, st2) /\
    pairs (cookies st2) = [(KStr (u "sid"), JStr (u "1")); (KStr (u "lang"), JStr (u "zh"))].
Proof.
  destruct (@save_then_load
              (Examples.holding [Examples.sid (u "1") (u "/"); Examples.lang]))
    as (st2 & _ & El & Ep & _).
  - reflexivity.
  - split.
    + repeat constructor; try (exists (u "sid"); split; [reflexivity |]);
        try (exists (u "lang"); split; [reflexivity |]);
        repeat constructor; vm_compute; intuition discriminate.
    + repeat constructor; cbn; intuition discriminate.
  - exists st2. split; [exact El | exact Ep].
Defined.

(** C5, as stated, fails on a jar that holds one name under two paths:
    the pair of the first cookie is not there after the round trip. *)
Lemma save_then_load_same_name :
  exists st1 st2,
    save_cookies
      (Examples.holding [Examples.sid (u "1") (u "/"); Examples.sid (u "2") (u "/forum")])
    = (Ret tt, st1) /\
    load_cookies st1 = (Ret tt, st2) /\
    In (KStr (u "sid"), JStr (u "1"))
       (pairs [Examples.sid (u "1") (u "/"); Examples.sid (u "2") (u "/forum")]) /\
    pairs (cookies st2) = [(KStr (u "sid"), JStr (u "2"))] /\
    ~ In (KStr (u "sid"), JStr (u "1")) (pairs (cookies st2)).
Proof.
  eexists _, _. split; [vm_compute; reflexivity |].
  split; [vm_compute; reflexivity |].
  split; [left; reflexivity |].
  split; [vm_compute; reflexivity |].
  vm_compute. intros [H | []]. discriminate.
Qed.

(** The other conditions of the round trip are needed as well: a value
    wrapped in double quotes loses its escaped quotes on the way back, a
    high surrogate followed by a low one comes back as one character,
    and nothing comes back when the file cannot be written. *)
Lemma round_trip_quoted_value :
  exists st1 st2,
    save_cookies (Examples.holding [Examples.sid [0x22; 0x61; 0x5C; 0x22]%N (u "/")])
    = (Ret tt, st1) /\
    load_cookies st1 = (Ret tt, st2) /\
    pairs (cookies st2) = [(KStr (u "sid"), JStr [0x22; 0x61]%N)].
Proof. eexists _, _. repeat split; vm_compute; reflexivity. Qed.

Lemma round_trip_surrogates :
  exists st1 st2,
    save_cookies (Examples.holding [Examples.sid [0xD83D; 0xDE00]%N (u "/")])
    = (Ret tt, st1) /\
    load_cookies st1 = (Ret tt, st2) /\
    pairs (cookies st2) = [(KStr (u "sid"), JStr [0x1F600%N])].
Proof. eexists _, _. repeat split; vm_compute; reflexivity. Qed.

Lemma round_trip_read_only :
  exists st1 msg st2,
    save_cookies (Examples.alice_read_only []) = (Ret tt, st1) /\
    cookies_json st1 = None /\
    load_cookies st1 = (Raise (Exn FileNotFoundError msg), st2).
Proof. eexists _, _, _. repeat split; vm_compute; reflexivity. Qed.

(** ** [get_top_posts] *)

(** The fetch of the front page never raises: every fault ends in
    [None], with a line printed. *)
Lemma get_top_posts_returns parser st :
  exists v st', get_top_posts parser st = (Ret v, st').
Proof.
  unfold get_top_posts, try_except, bind, lift, ret, print.
  destruct (Requests.send _ st) as [[r | e] st1]; [| eauto].
  destruct (Requests.raise_for_status r); [| eauto].
  destruct (extract (parser (text r))); eauto.
Qed.

(** A missing block gives the empty list for its kind, and both kinds
    are empty when neither block is there. *)
Lemma extract_kind_missing soup target :
  Bs4.find_id target soup = None -> extract_kind soup target = Ret [].
Proof. intros H. unfold extract_kind. rewrite H. reflexivity. Qed.

Lemma extract_both_missing soup :
  Bs4.find_id (u "portal_block_66_content") soup = None ->
  Bs4.find_id (u "portal_block_67_content") soup = None ->
  extract soup = Ret [(u "new_reply", []); (u "new_post", [])].
Proof.
  intros H1 H2. unfold extract, modes. cbn [fold_left fst snd obind].
  rewrite (extract_kind_missing _ _ H1). cbn [obind].
  rewrite (extract_kind_missing _ _ H2). reflexivity.
Qed.

(** With the block of latest replies missing, the page yields the empty
    list for them exactly when the other block is extracted without a
    fault. *)
Lemma extract_reply_missing soup :
  Bs4.find_id (u "portal_block_66_content") soup = None ->
  extract soup
  = match extract_kind soup (u "portal_block_67_content") with
    | Ret posts => Ret [(u "new_reply", []); (u "new_post", posts)]
    | Raise e => Raise e
    end.
Proof.
  intros H1. unfold extract, modes. cbn [fold_left fst snd obind].
  rewrite (extract_kind_missing _ _ H1). cbn [obind].
  destruct (extract_kind soup (u "portal_block_67_content")); reflexivity.
Qed.

(** A list item without a titled link adds no entry; a titled link
    whose [href] has no [tid=] adds an entry with [tid] 0. *)
Lemma li_entry_no_anchor li :
  Bs4.find_with_attr (u "a") (u "title") li = None -> li_entry li = Ret None.
Proof. intros H. unfold li_entry. rewrite H. reflexivity. Qed.

Lemma li_entry_no_tid li a t :
  Bs4.find_with_attr (u "a") (u "title") li = Some a ->
  Bs4.get a (u "title") = Some t ->
  py_in (u "tid=") (match Bs4.get a (u "href") with Some h => h | None => [] end) = false ->
  li_entry li = Ret (Some (Entry 0 t)).
Proof. intros H1 H2 H3. unfold li_entry. rewrite H1, H2, H3. reflexivity. Qed.

(** The example of the specification: in order, [tid] 42 and [tid] 0. *)
Lemma extract_good_page :
  extract Examples.good_page
  = Ret [(u "new_reply", [Entry 42 (u "Post One"); Entry 0 (u "Post Two")]);
         (u "new_post", [Entry 0 (u "Post Two")])].
Proof. vm_compute. reflexivity. Qed.

(** C3: a link whose [tid] is followed by a fragment, [tid=43#lastpost].
    [int] raises [ValueError] on ['43#lastpost'],
    the handler of [get_top_posts] prints it and the whole result is
    [None]: no entry with [tid] 0 is produced, and the entries of the
    well-formed links are lost with it. *)
Theorem get_top_posts_malformed_tid :
  li_entry Examples.post_bad
  = Raise (Exn ValueError (u "invalid literal for int() with base 10")) /\
  get_top_posts (fun _ => Examples.bad_reply_page) (Examples.blank Examples.front)
  = (Ret None,
     printed (u "获取最新帖子信息失败: " ++ u "invalid literal for int() with base 10")
             (answered page_request [] [] (Examples.blank Examples.front))).
Proof. split; vm_compute; reflexivity. Qed.

(** C9: a page without the block of latest replies, where a link among
    the latest threads has its [tid] followed by a fragment.  The result
    is [None], not a dict with the empty list for the replies. *)
Theorem get_top_posts_missing_block_malformed_tid :
  Bs4.find_id (u "portal_block_66_content") Examples.no_reply_bad_post_page = None /\
  get_top_posts (fun _ => Examples.no_reply_bad_post_page) (Examples.blank Examples.front)
  = (Ret None,
     printed (u "获取最新帖子信息失败: " ++ u "invalid literal for int() with base 10")
             (answered page_request [] [] (Examples.blank Examples.front))).
Proof. split; vm_compute; reflexivity. Qed.

(** A fresh process without a cookie file and without credentials, which
    the site does not recognise: construction raises. *)
Lemma init_fresh_process :
  fst (__init__ [] None None true (Examples.blank Examples.front))
  = Raise (Exn Exception (u "Cookie已失效或不存在")).
Proof. vm_compute. reflexivity. Qed.

(** ** The thread identifier of a link *)

Lemma u_tid : u "tid=" = [116; 105; 100; 61]%N.
Proof. reflexivity. Qed.

Lemma u_amp : u "&" = [38]%N.
Proof. reflexivity. Qed.

(** The first piece of a split starts with what was gathered so far. *)
Lemma split_go_first sep s :
  forall cur, exists x more, split_go sep 0 cur s = (rev cur ++ x) :: more.
Proof.
  induction s as [| c s IH]; intros cur.
  - exists [], []. cbn. rewrite app_nil_r. reflexivity.
  - cbn [split_go]. destruct (startswith sep (c :: s)).
    + exists [], (split_go sep (List.length sep - 1) [] s).
      rewrite app_nil_r. reflexivity.
    + destruct (IH (c :: cur)) as (x & more & E). exists (c :: x), more.
      rewrite E. cbn [rev]. rewrite <- app_assoc. reflexivity.
Qed.

(** Characters that do not start the separator are gathered. *)
Lemma split_go_gather sep0 sep pfx s :
  Forall (fun c => c <> sep0) pfx ->
  forall cur,
    split_go (sep0 :: sep) 0 cur (pfx ++ s) = split_go (sep0 :: sep) 0 (rev pfx ++ cur) s.
Proof.
  induction 1 as [| c pfx Hc Hp IH]; intros cur; [reflexivity |].
  cbn [app split_go startswith].
  destruct (N.eqb_spec sep0 c) as [<- | _]; [contradiction |].
  cbn [andb]. rewrite IH. cbn [rev]. rewrite <- app_assoc. reflexivity.
Qed.

Lemma digit_not c d : is_digit c = true -> (d < 0x30 \/ 0x39 < d)%N -> c <> d.
Proof.
  unfold is_digit. intros H Hd ->. apply andb_true_iff in H.
  destruct H as [H1 H2]. apply N.leb_le in H1. apply N.leb_le in H2. lia.
Qed.

Lemma digits_not ds d :
  digits ds -> (d < 0x30 \/ 0x39 < d)%N -> Forall (fun c => c <> d) ds.
Proof.
  intros H Hd. eapply Forall_impl; [| exact H].
  intros c Hc. eapply digit_not; eassumption.
Qed.

(** Before its first occurrence, [tid=] cuts nothing. *)
Lemma split_tid_first pre rest :
  py_in (u "tid=") pre = false ->
  forall cur,
    split_go (u "tid=") 0 cur (pre ++ u "tid=" ++ rest)
    = (rev cur ++ pre) :: split (u "tid=") rest.
Proof.
  rewrite u_tid. induction pre as [| c pre IH]; intros H cur.
  - cbn [app split_go startswith List.length Nat.sub].
    rewrite !N.eqb_refl. cbn [andb]. rewrite app_nil_r. reflexivity.
  - cbn [py_in] in H. apply orb_false_iff in H. destruct H as [Hs Hp].
    assert (Hhere : startswith [116; 105; 100; 61]%N ((c :: pre) ++ [116; 105; 100; 61]%N ++ rest)
                    = false).
    { destruct pre as [| c2 [| c3 [| c4 pre]]]; cbn [app startswith] in *.
      - change (116 =? 105)%N with false. rewrite andb_false_r. reflexivity.
      - change (116 =? 100)%N with false. rewrite !andb_false_r. reflexivity.
      - change (116 =? 61)%N with false. rewrite !andb_false_r. reflexivity.
      - exact Hs. }
    cbn [app split_go]. cbn [app] in Hhere. rewrite Hhere.
    rewrite (IH Hp). cbn [rev]. rewrite <- app_assoc. reflexivity.
Qed.

(** The text between [tid=] and the next [&] or the end, when it is made
    of digits, is what the two splits select. *)
Lemma tid_digits_selected pre ds post :
  py_in (u "tid=") pre = false ->
  digits ds ->
  post = [] \/ (exists post', post = 0x26%N :: post') ->
  (after <- getitem_list (split (u "tid=") (pre ++ u "tid=" ++ ds ++ post)) 1 ;;
   getitem_list (split (u "&") after) 0)%outcome = Ret ds.
Proof.
  intros Hpre Hds Hpost. unfold split at 1.
  rewrite (split_tid_first _ _ Hpre). cbn [rev app].
  assert (Ht : Forall (fun c => c <> 116%N) ds) by (apply digits_not; [exact Hds | lia]).
  assert (Ha : Forall (fun c => c <> 38%N) ds) by (apply digits_not; [exact Hds | lia]).
  destruct Hpost as [-> | [post' ->]].
  - rewrite app_nil_r. unfold split. rewrite u_tid.
    rewrite <- (app_nil_r ds) at 1. rewrite (split_go_gather _ _ Ht).
    cbn [split_go app getitem_list nth_error obind]. rewrite app_nil_r, rev_involutive.
    rewrite u_amp. rewrite <- (app_nil_r ds) at 1. rewrite (split_go_gather _ _ Ha).
    cbn [split_go app getitem_list nth_error]. rewrite app_nil_r, rev_involutive.
    reflexivity.
  - unfold split. rewrite u_tid.
    replace (ds ++ 38%N :: post') with ((ds ++ [38%N]) ++ post')
      by (rewrite <- app_assoc; reflexivity).
    rewrite split_go_gather
      by (apply Forall_app; split; [exact Ht | repeat constructor; discriminate]).
    destruct (split_go_first [116; 105; 100; 61]%N post' (rev (ds ++ [38%N]) ++ []))
      as (x & more & E).
    rewrite E. cbn [getitem_list nth_error obind].
    rewrite app_nil_r, rev_involutive, <- app_assoc. cbn [app].
    rewrite u_amp. rewrite (split_go_gather _ _ Ha).
    cbn [split_go startswith]. rewrite N.eqb_refl. cbn [andb].
    rewrite app_nil_r, rev_involutive. reflexivity.
Qed.

(** [int] reads a run of at most 4300 digits as the number it spells. *)
Lemma digits_go_digits ds :
  digits ds ->
  forall acc n b,
    ds <> [] \/ b = false ->
    digits_go acc n b ds
    = Some (fold_left (fun a c => (a * 10 + digit_val c)%Z) ds acc,
            (n + N.of_nat (List.length ds))%N).
Proof.
  induction 1 as [| c ds Hc Hd IH]; intros acc n b Hb.
  - destruct Hb as [Hb | ->]; [congruence |]. cbn. rewrite N.add_0_r. reflexivity.
  - cbn [digits_go fold_left]. rewrite Hc. rewrite IH by (right; reflexivity).
    f_equal. f_equal. cbn [List.length]. lia.
Qed.

Lemma lstrip_digit c s : is_digit c = true -> lstrip (c :: s) = c :: s.
Proof.
  intros H. cbn [lstrip].
  assert (is_space c = false) as ->; [| reflexivity].
  unfold is_digit in H. apply andb_true_iff in H. destruct H as [H1 H2].
  apply N.leb_le in H1. apply N.leb_le in H2. unfold is_space.
  repeat match goal with
         | |- context [(?a <=? ?b)%N] => destruct (N.leb_spec a b); try lia
         | |- context [(?a =? ?b)%N] => destruct (N.eqb_spec a b); try lia
         end; reflexivity.
Qed.

Lemma int_digits ds :
  digits ds -> ds <> [] -> (N.of_nat (List.length ds) <= int_max_str_digits)%N ->
  int ds = Some (digits_value ds).
Proof.
  intros Hd Hne Hl. unfold int, strip.
  destruct ds as [| c ds]; [congruence |].
  inversion Hd as [| ? ? Hc Hd']; subst.
  rewrite (@lstrip_digit c ds Hc).
  assert (Hr : lstrip (rev (c :: ds)) = rev (c :: ds)).
  { destruct (rev (c :: ds)) as [| d r] eqn:E; [reflexivity |].
    apply lstrip_digit.
    assert (Hin : In d (c :: ds)).
    { apply in_rev. rewrite E. left. reflexivity. }
    unfold digits in Hd. rewrite Forall_forall in Hd. apply Hd. exact Hin. }
  rewrite Hr, rev_involutive.
  destruct (N.eqb_spec c 0x2D) as [-> | _]; [discriminate |].
  destruct (N.eqb_spec c 0x2B) as [-> | _]; [discriminate |].
  unfold int_unsigned. rewrite (digits_go_digits Hd) by (left; discriminate).
  rewrite N.add_0_l. apply N.leb_le in Hl. rewrite Hl. reflexivity.
Qed.

(** A titled link whose [href] has a [tid=] followed by a run of digits
    that ends the text or is followed by [&] adds an entry with that
    number. *)
Lemma li_entry_tid li a t pre ds post :
  Bs4.find_with_attr (u "a") (u "title") li = Some a ->
  Bs4.get a (u "title") = Some t ->
  Bs4.get a (u "href") = Some (pre ++ u "tid=" ++ ds ++ post) ->
  py_in (u "tid=") pre = false ->
  digits ds -> ds <> [] -> (N.of_nat (List.length ds) <= int_max_str_digits)%N ->
  post = [] \/ (exists post', post = 0x26%N :: post') ->
  li_entry li = Ret (Some (Entry (digits_value ds) t)).
Proof.
  intros Ha Ht Hh Hpre Hd Hne Hl Hpost. unfold li_entry.
  rewrite Ha, Ht, Hh. rewrite py_in_app.
  pose proof (tid_digits_selected pre Hpre Hd Hpost) as Hsel.
  destruct (getitem_list (split (u "tid=") (pre ++ u "tid=" ++ ds ++ post)) 1)
    as [after | e]; [| discriminate].
  cbn [obind] in *. rewrite Hsel. cbn [obind].
  unfold int_of. rewrite (int_digits Hd Hne Hl). reflexivity.
Qed.

(** * Further properties of the code *)

(** ** Further properties of the session methods *)

(** What [load_saved_cookies] can change: the jar and the lines
    printed. *)
Lemma load_saved_cookies_effect st :
  exists st1,
    load_saved_cookies st = (Ret tt, st1) /\
    username st1 = username st /\ password st1 = password st /\
    session_headers st1 = session_headers st /\ cookies_json st1 = cookies_json st /\
    disk_writable st1 = disk_writable st /\ net st1 = net st /\ sent st1 = sent st /\
    exists more, stdout st1 = stdout st ++ more.
Proof.
  rewrite load_saved_cookies_run.
  assert (Hnil : exists more : list pystr, stdout st = stdout st ++ more)
    by (exists []; symmetry; apply app_nil_r).
  destruct (cookies_json st) as [[|c content]|] eqn:Ef.
  - exists st. repeat split; assumption.
  - rewrite (load_cookies_file _ Ef).
    destruct (loads (c :: content)) as [v|].
    + destruct (Requests.cookiejar_from_dict v) as [j|e].
      * eexists. split; [reflexivity|]. cbn. repeat split; assumption.
      * eexists. split; [reflexivity|]. cbn. repeat split; try assumption.
        eexists. reflexivity.
    + eexists. split; [reflexivity|]. cbn. repeat split; try assumption.
      eexists. reflexivity.
  - exists st. repeat split; assumption.
Qed.

(** X1: built with [autoLogin=False], the client sends no request and
    raises nothing, whatever the credentials are: only the attributes,
    the new session and the saved cookies are set up. *)
Theorem init_without_auto_login dh user pass st :
  exists st',
    __init__ dh user pass false st = (Ret tt, st') /\
    load_saved_cookies (fresh dh user pass st) = (Ret tt, st') /\
    sent st' = sent st /\ net st' = net st /\
    session_headers st' = dh /\ username st' = user /\ password st' = pass /\
    cookies_json st' = cookies_json st.
Proof.
  destruct (load_saved_cookies_effect (fresh dh user pass st))
    as (st1 & El & Hu & Hp & Hh & Hf & _ & Hn & Hs & _).
  exists st1. split; [|split; [exact El|]].
  - unfold __init__, bind. rewrite new_session_run, El. reflexivity.
  - rewrite Hs, Hn, Hh, Hu, Hp, Hf. repeat split; reflexivity.
Qed.

(** X2: an empty or missing user name or password counts as no
    credentials.  With [autoLogin] the constructor then only probes the
    session; the login request is not sent, even when the other
    credential is given. *)
Theorem init_empty_credential dh user pass st :
  truthy user && truthy pass = false ->
  exists st1 b st2,
    load_saved_cookies (fresh dh user pass st) = (Ret tt, st1) /\
    check_login_status st1 = (Ret b, st2) /\
    sent st2 = sent st ++ [Sent probe_request (cookies st1) dh] /\
    __init__ dh user pass true st
    = if b then (Ret tt, printed (u "已进入主页") st2)
      else (Raise (Exn Exception (u "Cookie已失效或不存在")), st2).
Proof.
  intros Hc.
  destruct (load_saved_cookies_effect (fresh dh user pass st))
    as (st1 & El & _ & _ & Hh & _ & _ & _ & Hs & _).
  destruct (check_login_status_returns st1) as (b & j & rest & Ec).
  exists st1, b, (answered probe_request j rest st1).
  split; [exact El|]. split; [exact Ec|]. split.
  - simpl. rewrite Hs, Hh. reflexivity.
  - unfold __init__, bind. rewrite new_session_run, El.
    cbn [andb]. rewrite Hc. rewrite Ec. destruct b; reflexivity.
Qed.

Lemma init_empty_credential_witness :
  exists st2,
    __init__ [] (Some (u "alice")) (Some []) true
             (Examples.blank [Net (Fault (u "Read timed out.")) []])
    = (Raise (Exn Exception (u "Cookie已失效或不存在")), st2) /\
    sent st2 = [Sent probe_request [] []].
Proof.
  destruct (@init_empty_credential [] (Some (u "alice")) (Some [])
              (Examples.blank [Net (Fault (u "Read timed out.")) []]) eq_refl)
    as (st1 & b & st2 & El & Ec & Hs & Hi).
  vm_compute in El. injection El as <-.
  vm_compute in Ec. injection Ec as <- <-.
  eexists. split; [exact Hi|]. reflexivity.
Defined.

(** [login] raises nothing but [HepanException]. *)
Lemma login_raises st e st' : login st = (Raise e, st') -> cls e = HepanException.
Proof.
  destruct (next_answer st) as [(r & j & rest & Hn)|[(msg & j & rest & Hn)|Hn]].
  - rewrite (login_answer _ Hn).
    destruct (Requests.raise_for_status r) as [[]|e0]; [|discriminate].
    destruct (py_in welcome (text r)).
    + destruct (update_authorization_returns
                  (after_save (answered (login_request st) j rest st))) as (b & s & E).
      rewrite E. discriminate.
    + intros H. injection H as <- _. reflexivity.
  - rewrite (login_fault _ Hn). discriminate.
  - rewrite (login_silence _ Hn). discriminate.
Qed.

(** X3: with a user name and a password the constructor runs [login] on
    the new session and drops its result: it completes normally even
    when [login] returned [False], never probes the session, and raises
    only the [HepanException] of a rejected login. *)
Theorem init_with_credentials dh user pass st :
  truthy user = true -> truthy pass = true ->
  exists st1,
    load_saved_cookies (fresh dh user pass st) = (Ret tt, st1) /\
    (forall b st2, login st1 = (Ret b, st2) ->
                   __init__ dh user pass true st = (Ret tt, st2)) /\
    (forall e st2, login st1 = (Raise e, st2) ->
                   __init__ dh user pass true st = (Raise e, st2) /\
                   cls e = HepanException).
Proof.
  intros Hu Hp.
  destruct (load_saved_cookies_effect (fresh dh user pass st)) as (st1 & El & _).
  exists st1. split; [exact El|].
  split.
  - intros b st2 E. unfold __init__, bind. rewrite new_session_run, El, Hu, Hp.
    cbn [andb]. rewrite E. reflexivity.
  - intros e st2 E. split.
    + unfold __init__, bind. rewrite new_session_run, El, Hu, Hp.
      cbn [andb]. rewrite E. reflexivity.
    + exact (login_raises _ E).
Qed.

Lemma init_with_credentials_witness :
  exists st2,
    __init__ [] (Some (u "alice")) (Some (u "s3cret")) true
             (Examples.blank [Net (Fault (u "Read timed out.")) []])
    = (Ret tt, st2) /\
    stdout st2 = [u "Read timed out."] /\ session_headers st2 = [].
Proof.
  destruct (@init_with_credentials [] (Some (u "alice")) (Some (u "s3cret"))
              (Examples.blank [Net (Fault (u "Read timed out.")) []]) eq_refl eq_refl)
    as (st1 & El & Hret & _).
  vm_compute in El. injection El as <-.
  eexists. split.
  - apply (Hret false). vm_compute. reflexivity.
  - split; reflexivity.
Defined.

(** The two ways [update_authorization] ends. *)
Lemma update_authorization_forms st :
  exists j rest,
    (exists a, update_authorization st
               = (Ret true, authorized a (answered token_request j rest st))) \/
    (exists line, update_authorization st
                  = (Ret false, printed line (answered token_request j rest st))).
Proof.
  destruct (next_answer st) as [(r & j & rest & Hn)|[(msg & j & rest & Hn)|Hn]].
  - exists j, rest. rewrite (update_authorization_answer _ Hn).
    destruct (Requests.raise_for_status r) as [[]|e].
    + destruct (authorization_of r) as [a|e]; [left|right]; eexists; reflexivity.
    + right. eexists. reflexivity.
  - exists j, rest. right. rewrite (update_authorization_fault _ Hn). eexists. reflexivity.
  - exists (cookies st), []. right. rewrite (update_authorization_silence _ Hn).
    eexists. reflexivity.
Qed.

(** The three ways [login] goes on after its request. *)
Lemma login_forms st :
  exists j rest,
    (exists line,
        login st = (Ret false, printed line (answered (login_request st) j rest st))) \/
    (exists r,
        net st = Net (Answer r) j :: rest /\ status_accepted r /\
        py_in welcome (text r) = false /\
        login st = (Raise (Exn HepanException (rejection_text st (text r))),
                    answered (login_request st) j rest st)) \/
    (exists r,
        net st = Net (Answer r) j :: rest /\ status_accepted r /\
        py_in welcome (text r) = true /\
        login st = update_authorization (after_save (answered (login_request st) j rest st))).
Proof.
  destruct (next_answer st) as [(r & j & rest & Hn)|[(msg & j & rest & Hn)|Hn]].
  - exists j, rest. rewrite (login_answer _ Hn).
    destruct (raise_for_status_cases r) as [(Ha & E)|(Hr & msg & E)]; rewrite E.
    + destruct (py_in welcome (text r)) eqn:Ew.
      * right. right. exists r. auto.
      * right. left. exists r. auto.
    + left. eexists. reflexivity.
  - exists j, rest. left. rewrite (login_fault _ Hn). eexists. reflexivity.
  - exists (cookies st), []. left. rewrite (login_silence _ Hn). eexists. reflexivity.
Qed.

Lemma after_save_sent st : sent (after_save st) = sent st.
Proof. unfold after_save. destruct (disk_writable st); reflexivity. Qed.

Lemma after_save_cookies st : cookies (after_save st) = cookies st.
Proof. unfold after_save. destruct (disk_writable st); reflexivity. Qed.

(** X4: [login] posts the credentials exactly once, and contacts the
    token endpoint at most once, only after an accepted reply that
    carries the welcome marker; the token request goes out with the
    cookies that the login exchange left. *)
Theorem login_requests st o st' :
  login st = (o, st') ->
  sent st' = sent st ++ [Sent (login_request st) (cookies st) (session_headers st)] \/
  exists r j rest,
    net st = Net (Answer r) j :: rest /\ status_accepted r /\
    py_in welcome (text r) = true /\
    sent st' = sent st ++ [Sent (login_request st) (cookies st) (session_headers st);
                           Sent token_request j (session_headers st)].
Proof.
  intros E.
  destruct (login_forms st) as (j & rest & [(line & H)|[(r & Hn & Ha & Hw & H)|(r & Hn & Ha & Hw & H)]]).
  - rewrite H in E. injection E as _ <-. left. reflexivity.
  - rewrite H in E. injection E as _ <-. left. reflexivity.
  - right. exists r, j, rest. repeat split; try assumption.
    rewrite H in E.
    destruct (update_authorization_forms (after_save (answered (login_request st) j rest st)))
      as (j2 & rest2 & [(a & Hu)|(line & Hu)]);
      rewrite Hu in E; injection E as _ <-; cbn [sent authorized printed answered];
      rewrite after_save_sent, after_save_cookies, after_save_headers;
      cbn [sent cookies session_headers answered]; rewrite <- app_assoc; reflexivity.
Qed.

Lemma login_requests_witness :
  exists st',
    login (Examples.alice [Net (Answer (Response 503 (u "busy"))) []; Net (Answer Examples.welcome_back) []])
    = (Ret false, st') /\
    sent st' = [Sent (login_request (Examples.alice [])) [] []].
Proof.
  eexists. split; [vm_compute; reflexivity|].
  destruct (@login_requests
              (Examples.alice [Net (Answer (Response 503 (u "busy"))) [];
                               Net (Answer Examples.welcome_back) []])
              _ _ eq_refl) as [H|(r & j & rest & Hn & Ha & _)].
  - exact H.
  - exfalso. injection Hn as <- _ _. unfold status_accepted in Ha. cbn in Ha. lia.
Defined.

(** X5: [cookies.json] is rewritten by [login] only after an accepted
    reply that carries the welcome marker; a fault, an error status and
    a rejection leave the file as it was. *)
Theorem login_keeps_file st o st' :
  login st = (o, st') ->
  cookies_json st' = cookies_json st \/
  exists r j rest,
    net st = Net (Answer r) j :: rest /\ status_accepted r /\
    py_in welcome (text r) = true /\ disk_writable st = true /\
    cookies_json st' = Some (dumps_dict (Requests.dict_from_cookiejar j)).
Proof.
  intros E.
  destruct (login_forms st) as (j & rest & [(line & H)|[(r & Hn & Ha & Hw & H)|(r & Hn & Ha & Hw & H)]]).
  - rewrite H in E. injection E as _ <-. left. reflexivity.
  - rewrite H in E. injection E as _ <-. left. reflexivity.
  - rewrite H in E.
    assert (Hf : cookies_json st'
                 = cookies_json (after_save (answered (login_request st) j rest st))).
    { destruct (update_authorization_forms (after_save (answered (login_request st) j rest st)))
        as (j2 & rest2 & [(a & Hu)|(line & Hu)]);
        rewrite Hu in E; injection E as _ <-; reflexivity. }
    rewrite after_save_file in Hf. cbn [disk_writable cookies cookies_json answered] in Hf.
    destruct (disk_writable st) eqn:Ed.
    + right. exists r, j, rest. auto.
    + left. exact Hf.
Qed.

Lemma login_keeps_file_witness :
  exists o st',
    login (Examples.with_file (u "{}") [Net (Answer Examples.wrong_password) []]) = (o, st') /\
    cookies_json st' = Some (u "{}").
Proof.
  eexists _, _. split; [vm_compute; reflexivity|].
  destruct (@login_keeps_file
              (Examples.with_file (u "{}") [Net (Answer Examples.wrong_password) []])
              _ _ eq_refl) as [H|(r & j & rest & Hn & _ & Hw & _)].
  - exact H.
  - exfalso. injection Hn as <- _ _. vm_compute in Hw. discriminate.
Defined.

(** X6: once the login reply is accepted with the welcome marker, the
    cookies are on disk whatever the token exchange does: [login] can
    return [False] with [cookies.json] already rewritten and the headers
    untouched. *)
Theorem login_saves_before_token st r j rest :
  net st = Net (Answer r) j :: rest ->
  status_accepted r ->
  py_in welcome (text r) = true ->
  disk_writable st = true ->
  exists b st',
    login st = (Ret b, st') /\
    cookies_json st' = Some (dumps_dict (Requests.dict_from_cookiejar j)) /\
    (b = false -> session_headers st' = session_headers st).
Proof.
  intros Hn Ha Hw Hd.
  rewrite (login_answer _ Hn), (raise_for_status_accepted Ha), Hw.
  assert (Hf : cookies_json (after_save (answered (login_request st) j rest st))
               = Some (dumps_dict (Requests.dict_from_cookiejar j))).
  { rewrite after_save_file. cbn [disk_writable cookies answered]. rewrite Hd. reflexivity. }
  destruct (update_authorization_forms (after_save (answered (login_request st) j rest st)))
    as (j2 & rest2 & [(a & Hu)|(line & Hu)]); rewrite Hu.
  - exists true. eexists. split; [reflexivity|]. split; [exact Hf|]. discriminate.
  - exists false. eexists. split; [reflexivity|]. split; [exact Hf|].
    intros _. cbn [session_headers printed answered]. rewrite after_save_headers. reflexivity.
Qed.

Lemma login_saves_before_token_witness :
  exists st',
    login (Examples.alice [Net (Answer Examples.welcome_back) [Examples.lang];
                           Net (Fault (u "Read timed out.")) [Examples.lang]])
    = (Ret false, st') /\
    cookies_json st' = Some (dumps_dict [(KStr (u "lang"), JStr (u "zh"))]) /\
    session_headers st' = [].
Proof.
  destruct (@login_saves_before_token
              (Examples.alice [Net (Answer Examples.welcome_back) [Examples.lang];
                               Net (Fault (u "Read timed out.")) [Examples.lang]])
              Examples.welcome_back [Examples.lang]
              [Net (Fault (u "Read timed out.")) [Examples.lang]] eq_refl)
    as (b & st' & E & Hf & Hh).
  - left. vm_compute. reflexivity.
  - vm_compute. reflexivity.
  - reflexivity.
  - vm_compute in E. injection E as <- <-.
    eexists. split; [vm_compute; reflexivity|]. split; [exact Hf|exact (Hh eq_refl)].
Defined.

(** X7: [update_authorization] never raises.  It sends exactly one
    request, the token request (a POST with the header [X-Uestc-Bbs: 1]
    and no timeout), leaves [cookies.json] alone, and prints one line
    exactly when it returns [False]. *)
Theorem update_authorization_request st :
  exists b st',
    update_authorization st = (Ret b, st') /\
    sent st' = sent st ++ [Sent token_request (cookies st) (session_headers st)] /\
    cookies_json st' = cookies_json st /\
    (b = true -> stdout st' = stdout st) /\
    (b = false -> exists line, stdout st' = stdout st ++ [line]).
Proof.
  destruct (update_authorization_forms st) as (j & rest & [(a & Hu)|(line & Hu)]); rewrite Hu.
  - exists true. eexists. split; [reflexivity|]. repeat split. discriminate.
  - exists false. eexists. split; [reflexivity|]. repeat split.
    + discriminate.
    + intros _. exists line. reflexivity.
Qed.

(** X8: [check_login_status] never raises and is silent: it sends
    exactly one probe (a GET of the root URL with a timeout of 10
    seconds), prints nothing even when the probe fails, and leaves the
    headers and [cookies.json] alone. *)
Theorem check_login_status_quiet st :
  exists b st',
    check_login_status st = (Ret b, st') /\
    sent st' = sent st ++ [Sent probe_request (cookies st) (session_headers st)] /\
    stdout st' = stdout st /\
    session_headers st' = session_headers st /\
    cookies_json st' = cookies_json st.
Proof.
  destruct (check_login_status_returns st) as (b & j & rest & E).
  exists b. eexists. split; [exact E|]. repeat split.
Qed.

(** The result of the extraction names both kinds, in the order of
    [modes]. *)
Lemma extract_shape soup d :
  extract soup = Ret d ->
  exists replies posts,
    d = [(u "new_reply", replies); (u "new_post", posts)] /\
    extract_kind soup (u "portal_block_66_content") = Ret replies /\
    extract_kind soup (u "portal_block_67_content") = Ret posts.
Proof.
  unfold extract, modes. cbn [fold_left fst snd obind].
  destruct (extract_kind soup (u "portal_block_66_content")) as [a|e]; cbn [obind];
    [|discriminate].
  destruct (extract_kind soup (u "portal_block_67_content")) as [b|e]; cbn [obind];
    [|discriminate].
  intros H. injection H as <-. exists a, b. repeat split; reflexivity.
Qed.

(** The two ways [get_top_posts] ends. *)
Lemma get_top_posts_forms parser st :
  exists j rest,
    (exists r d,
        net st = Net (Answer r) j :: rest /\ status_accepted r /\
        extract (parser (text r)) = Ret d /\
        get_top_posts parser st = (Ret (Some d), answered page_request j rest st)) \/
    (exists msg,
        get_top_posts parser st
        = (Ret None,
           printed (u "获取最新帖子信息失败: " ++ msg) (answered page_request j rest st))).
Proof.
  destruct (next_answer st) as [(r & j & rest & Hn)|[(msg & j & rest & Hn)|Hn]].
  - exists j, rest. unfold get_top_posts, try_except, bind.
    fold page_request. rewrite (send_answer _ _ Hn). unfold lift.
    destruct (raise_for_status_cases r) as [(Ha & E)|(Hr & msg & E)]; rewrite E.
    + destruct (extract (parser (text r))) as [d|e] eqn:Ex.
      * left. exists r, d. auto.
      * right. eexists. reflexivity.
    + right. eexists. reflexivity.
  - exists j, rest. right. unfold get_top_posts, try_except, bind.
    fold page_request. rewrite (send_fault _ _ Hn). eexists. reflexivity.
  - exists (cookies st), []. right. unfold get_top_posts, try_except, bind.
    fold page_request. rewrite (send_silence _ _ Hn). eexists. reflexivity.
Qed.

(** X9: [get_top_posts] never raises and sends exactly one request, a
    GET of the root URL without a timeout.  A result that is not [None]
    is a dict with exactly the keys [new_reply] and [new_post], in that
    order, and nothing is printed; [None] comes with one printed line.
    Headers and [cookies.json] are left alone. *)
Theorem get_top_posts_result parser st :
  exists v st',
    get_top_posts parser st = (Ret v, st') /\
    sent st' = sent st ++ [Sent page_request (cookies st) (session_headers st)] /\
    session_headers st' = session_headers st /\
    cookies_json st' = cookies_json st /\
    (forall d, v = Some d ->
               stdout st' = stdout st /\
               exists replies posts, d = [(u "new_reply", replies); (u "new_post", posts)]) /\
    (v = None ->
     exists msg, stdout st' = stdout st ++ [u "获取最新帖子信息失败: " ++ msg]).
Proof.
  destruct (get_top_posts_forms parser st)
    as (j & rest & [(r & d & Hn & Ha & Ex & H)|(msg & H)]); rewrite H;
    eexists _, _; (split; [reflexivity|]);
    do 3 (split; [reflexivity|]); split.
  - intros d' Hd'. injection Hd' as <-. split; [reflexivity|].
    destruct (extract_shape _ Ex) as (a & b & Hd & _). exists a, b. exact Hd.
  - discriminate.
  - discriminate.
  - intros _. exists msg. reflexivity.
Qed.

Lemma li_entries_app lis : forall temp l,
  li_entries lis temp = Ret l ->
  l = temp ++ flat_map (fun li => match li_entry li with
                                  | Ret (Some e) => [e]
                                  | _ => []
                                  end) lis.
Proof.
  induction lis as [|li lis IH]; intros temp l; cbn [li_entries flat_map].
  - intros H. injection H as <-. symmetry. apply app_nil_r.
  - destruct (li_entry li) as [[e|]|x]; cbn [obind]; [| |discriminate].
    + intros H. rewrite (IH _ _ H), <- app_assoc. reflexivity.
    + intros H. rewrite (IH _ _ H). reflexivity.
Qed.

(** X10: when the extraction of a kind succeeds, its entries are, in
    page order, those of the [li] elements of the block that hold a
    link with a title: an item without such a link is skipped, and no
    item gives more than one entry. *)
Theorem extract_kind_entries soup target element l :
  Bs4.find_id target soup = Some element ->
  extract_kind soup target = Ret l ->
  l = flat_map (fun li => match li_entry li with
                          | Ret (Some e) => [e]
                          | _ => []
                          end) (Bs4.find_all (u "li") element) /\
  (List.length l <= List.length (Bs4.find_all (u "li") element))%nat.
Proof.
  intros Hf. unfold extract_kind. rewrite Hf. intros H.
  apply li_entries_app in H. cbn [app] in H. split; [exact H|].
  rewrite H. clear. induction (Bs4.find_all (u "li") element) as [|li lis IH]; [apply Nat.le_refl|].
  cbn [flat_map]. rewrite length_app.
  destruct (li_entry li) as [[e|]|x]; cbn [List.length]; lia.
Qed.

Lemma extract_kind_entries_witness :
  exists l,
    extract_kind Examples.good_page (u "portal_block_66_content") = Ret l /\
    l = [Entry 42 (u "Post One"); Entry 0 (u "Post Two")] /\
    (List.length l <= 3)%nat.
Proof.
  assert (E : extract_kind Examples.good_page (u "portal_block_66_content")
              = Ret [Entry 42 (u "Post One"); Entry 0 (u "Post Two")])
    by (vm_compute; reflexivity).
  destruct (@extract_kind_entries Examples.good_page (u "portal_block_66_content")
              (Examples.block (u "portal_block_66_content")
                 [Examples.post_one; Examples.post_two;
                  Examples.item [Bs4.NavigableString (u "-")]])
              _ eq_refl E) as [_ Hlen].
  eexists. split; [exact E|]. split; [reflexivity|]. exact Hlen.
Defined.

(** X11: the thread id of an entry.  For a link whose address holds
    [tid=] followed by one to 4300 ASCII digits that run to the end or
    to an ampersand, with no [tid=] before it, the entry carries that
    number and the link's title. *)
Theorem li_entry_thread_id li a t pre ds post :
  Bs4.find_with_attr (u "a") (u "title") li = Some a ->
  Bs4.get a (u "title") = Some t ->
  Bs4.get a (u "href") = Some (pre ++ u "tid=" ++ ds ++ post) ->
  py_in (u "tid=") pre = false ->
  digits ds -> ds <> [] -> (N.of_nat (List.length ds) <= int_max_str_digits)%N ->
  post = [] \/ (exists post', post = 0x26%N :: post') ->
  li_entry li = Ret (Some (Entry (digits_value ds) t)).
Proof. apply li_entry_tid. Qed.

Lemma li_entry_thread_id_witness :
  li_entry Examples.post_one = Ret (Some (Entry 42 (u "Post One"))).
Proof.
  apply (@li_entry_thread_id Examples.post_one
           (Examples.anchor (u "Post One") (u "forum.php?mod=viewthread&tid=42&x=1"))
           (u "Post One") (u "forum.php?mod=viewthread&") (u "42") (u "&x=1")).
  - reflexivity.
  - reflexivity.
  - reflexivity.
  - vm_compute. reflexivity.
  - repeat constructor.
  - discriminate.
  - vm_compute. discriminate.
  - right. eexists. reflexivity.
Defined.

(** X12: [save_cookies] never raises and leaves the session as it is.
    Where the file can be written it then holds the dict of the jar and
    nothing is printed; where it cannot, the old file stays and one line
    is printed. *)
Theorem save_cookies_effect st :
  exists st',
    save_cookies st = (Ret tt, st') /\
    cookies st' = cookies st /\ session_headers st' = session_headers st /\
    sent st' = sent st /\ net st' = net st /\
    (disk_writable st = true ->
     cookies_json st' = Some (dumps_dict (Requests.dict_from_cookiejar (cookies st))) /\
     stdout st' = stdout st) /\
    (disk_writable st = false ->
     cookies_json st' = cookies_json st /\
     exists msg, stdout st' = stdout st ++ [u "保存cookies失败: " ++ msg]).
Proof.
  exists (after_save st). split; [apply save_cookies_run|].
  rewrite after_save_cookies, after_save_headers, after_save_sent, after_save_net,
    after_save_file.
  unfold after_save. destruct (disk_writable st); do 4 (split; [reflexivity|]); split;
    try discriminate; intros _; (split; [reflexivity|]).
  - reflexivity.
  - eexists. reflexivity.
Qed.





(** X14: called where [cookies.json] does not exist, [load_cookies]
    raises [FileNotFoundError]: its handler asks for the size of the
    missing file.  Nothing is printed and the session is unchanged. *)
Theorem load_cookies_no_file st :
  cookies_json st = None ->
  exists msg, load_cookies st = (Raise (Exn FileNotFoundError msg), st).
Proof. apply load_cookies_missing. Qed.

Lemma load_cookies_no_file_witness :
  exists msg,
    load_cookies (Examples.blank []) = (Raise (Exn FileNotFoundError msg), Examples.blank []).
Proof. exact (@load_cookies_no_file (Examples.blank []) eq_refl). Defined.

(** X15: a [cookies.json] that holds JSON other than an object.  For
    [null] the jar is emptied without a word; for a number or a boolean
    the failure is printed and the jar is kept. *)
Theorem load_cookies_other_values st content :
  cookies_json st = Some content ->
  (loads content = Some JNull -> load_cookies st = (Ret tt, with_cookies [] st)) /\
  (forall v, loads content = Some v ->
             (exists z, v = JInt z) \/ (exists b, v = JBool b) \/ (exists lit, v = JFloat lit) ->
             load_cookies st
             = (Ret tt, printed (u "加载cookies失败: " ++ u "object is not iterable") st)).
Proof.
  intros Hf. split.
  - intros Hl. rewrite (load_cookies_file _ Hf), Hl. reflexivity.
  - intros v Hl Hv. rewrite (load_cookies_file _ Hf), Hl.
    destruct Hv as [(z & ->)|[(b & ->)|(lit & ->)]]; reflexivity.
Qed.

Lemma load_cookies_other_values_witness :
  load_cookies (State None None [Examples.lang] [] (Some (u "null")) true [] [] [])
  = (Ret tt, State None None [] [] (Some (u "null")) true [] [] []) /\
  load_cookies (State None None [Examples.lang] [] (Some (u "7")) true [] [] [])
  = (Ret tt, State None None [Examples.lang] [] (Some (u "7")) true [] []
                   [u "加载cookies失败: " ++ u "object is not iterable"]).
Proof.
  split.
  - apply (@load_cookies_other_values
             (State None None [Examples.lang] [] (Some (u "null")) true [] [] [])
             (u "null") eq_refl).
    vm_compute. reflexivity.
  - apply (proj2 (@load_cookies_other_values
             (State None None [Examples.lang] [] (Some (u "7")) true [] [] [])
             (u "7") eq_refl) (JInt 7)).
    + vm_compute. reflexivity.
    + left. exists 7%Z. reflexivity.
Defined.

(** ** [get_index_data] and [get_latest_threads] *)

Lemma get_with_params_answer rq query params w r j rest :
  forallb param_encodable query = true ->
  render_params query = Done params ->
  net (client w) = Net (Answer r) j :: rest ->
  get_with_params rq query w = (Done r, exchanged rq params j rest w).
Proof.
  intros Hp Hr Hn. unfold get_with_params. rewrite Hp, Hr.
  unfold of_client. cbn [client]. rewrite (send_answer _ _ Hn). reflexivity.
Qed.

Lemma get_with_params_fault rq query params w msg j rest :
  forallb param_encodable query = true ->
  render_params query = Done params ->
  net (client w) = Net (Fault msg) j :: rest ->
  get_with_params rq query w
  = (Failed (Raised (Exn RequestException msg)), exchanged rq params j rest w).
Proof.
  intros Hp Hr Hn. unfold get_with_params. rewrite Hp, Hr.
  unfold of_client. cbn [client]. rewrite (send_fault _ _ Hn). reflexivity.
Qed.

Lemma get_with_params_silence rq query params w :
  forallb param_encodable query = true ->
  render_params query = Done params ->
  net (client w) = [] ->
  get_with_params rq query w
  = (Failed (Raised (Exn RequestException (u "Connection aborted"))),
     exchanged rq params (cookies (client w)) [] w).
Proof.
  intros Hp Hr Hn. unfold get_with_params. rewrite Hp, Hr.
  unfold of_client. cbn [client]. rewrite (send_silence _ _ Hn). reflexivity.
Qed.

Lemma index_query_encodable : forallb param_encodable index_query = true.
Proof. vm_compute. reflexivity. Qed.

Lemma index_query_rendered : render_params index_query = Done index_params.
Proof. reflexivity. Qed.

Lemma get_index_data_unfold w :
  get_index_data w
  = wtry
      (r <- get_with_params index_request index_query ;;
       of_outcome (Requests.raise_for_status r) ;;
       write_index_data (text r) ;;
       of_outcome (Requests.json_of r))%run
      (fun e => wprint (u "获取首页信息失败: " ++ error_text e) ;; wret JNull)%run w.
Proof. reflexivity. Qed.

(** [get_index_data] on an answer, on a fault and on silence. *)
Lemma get_index_data_answer w r j rest :
  net (client w) = Net (Answer r) j :: rest ->
  get_index_data w
  = match Requests.raise_for_status r with
    | Raise e =>
      (Done JNull,
       wprinted (u "获取首页信息失败: " ++ message e)
                (exchanged index_request index_params j rest w))
    | Ret _ =>
      if index_data_writable w then
        if encodable (text r) then
          match loads (text r) with
          | Some v => (Done v, wrote (text r) (exchanged index_request index_params j rest w))
          | None =>
            (Done JNull,
             wprinted (u "获取首页信息失败: " ++ u "Expecting value")
                      (wrote (text r) (exchanged index_request index_params j rest w)))
          end
        else
          (Done JNull,
           wprinted (u "获取首页信息失败: "
                     ++ u "'utf-8' codec can't encode character: surrogates not allowed")
                    (wrote [] (exchanged index_request index_params j rest w)))
      else
        (Done JNull,
         wprinted (u "获取首页信息失败: " ++ u "[Errno 13] Permission denied: 'index_data.json'")
                  (exchanged index_request index_params j rest w))
    end.
Proof.
  intros Hn. rewrite get_index_data_unfold. unfold wtry, wbind.
  rewrite (@get_with_params_answer index_request index_query index_params w r j rest
             index_query_encodable index_query_rendered Hn).
  unfold of_outcome.
  destruct (Requests.raise_for_status r) as [[]|e]; [|reflexivity].
  unfold write_index_data. cbn [index_data_writable exchanged].
  destruct (index_data_writable w) eqn:Ew; [|reflexivity].
  destruct (encodable (text r)).
  - unfold Requests.json_of.
    destruct (loads (text r));
      unfold wprinted, wrote, with_client, exchanged; cbn; rewrite ?Ew; reflexivity.
  - unfold wprinted, wrote, with_client, exchanged; cbn; rewrite ?Ew; reflexivity.
Qed.

Lemma get_index_data_fault w msg j rest :
  net (client w) = Net (Fault msg) j :: rest ->
  get_index_data w
  = (Done JNull,
     wprinted (u "获取首页信息失败: " ++ msg) (exchanged index_request index_params j rest w)).
Proof.
  intros Hn. rewrite get_index_data_unfold. unfold wtry, wbind.
  rewrite (@get_with_params_fault index_request index_query index_params w msg j rest
             index_query_encodable index_query_rendered Hn). reflexivity.
Qed.

Lemma get_index_data_silence w :
  net (client w) = [] ->
  get_index_data w
  = (Done JNull,
     wprinted (u "获取首页信息失败: " ++ u "Connection aborted")
              (exchanged index_request index_params (cookies (client w)) [] w)).
Proof.
  intros Hn. rewrite get_index_data_unfold. unfold wtry, wbind.
  rewrite (@get_with_params_silence index_request index_query index_params w
             index_query_encodable index_query_rendered Hn). reflexivity.
Qed.

(** The ways [get_index_data] ends: with or without a line printed, and
    with the file [index_data.json] as it was or written. *)
Lemma get_index_data_forms w :
  exists v j rest,
    let w1 := exchanged index_request index_params j rest w in
    (exists body, get_index_data w = (Done v, wrote body w1)) \/
    (exists line, get_index_data w = (Done JNull, wprinted line w1) /\ v = JNull) \/
    (exists line body, get_index_data w = (Done JNull, wprinted line (wrote body w1)) /\ v = JNull).
Proof.
  destruct (next_answer (client w)) as [(r & j & rest & Hn)|[(msg & j & rest & Hn)|Hn]].
  - rewrite (get_index_data_answer _ Hn).
    destruct (Requests.raise_for_status r) as [[]|e].
    + destruct (index_data_writable w).
      * destruct (encodable (text r)).
        -- destruct (loads (text r)) as [v|].
           ++ exists v, j, rest. left. eexists. reflexivity.
           ++ exists JNull, j, rest. right. right. eexists _, _. split; reflexivity.
        -- exists JNull, j, rest. right. right. eexists _, _. split; reflexivity.
      * exists JNull, j, rest. right. left. eexists. split; reflexivity.
    + exists JNull, j, rest. right. left. eexists. split; reflexivity.
  - rewrite (get_index_data_fault _ Hn).
    exists JNull, j, rest. right. left. eexists. split; reflexivity.
  - rewrite (get_index_data_silence _ Hn).
    exists JNull, (cookies (client w)), []. right. left. eexists. split; reflexivity.
Qed.

(** X16: [get_index_data] never raises.  It sends exactly one request,
    a GET of the index URL with the four query parameters, the headers
    [X-Uestc-Bbs] and [User-Agent] and a timeout of 10 seconds, and it
    leaves the session headers, [cookies.json] and the keyboard alone. *)
Theorem get_index_data_returns w :
  exists v w',
    get_index_data w = (Done v, w') /\
    sent (client w')
    = sent (client w)
      ++ [Sent index_request (cookies (client w)) (session_headers (client w))] /\
    sent_params w' = sent_params w ++ [(index_url, index_params)] /\
    session_headers (client w') = session_headers (client w) /\
    cookies_json (client w') = cookies_json (client w) /\
    stdin w' = stdin w /\ tty w' = tty w /\ prompts w' = prompts w.
Proof.
  destruct (get_index_data_forms w)
    as (v & j & rest & [(body & H)|[(line & H & ->)|(line & body & H & ->)]]);
    rewrite H; eexists _, _; (split; [reflexivity|]); repeat split.
Qed.

(** X17: the reply is written to [index_data.json] before it is
    decoded.  For every accepted reply whose text can be encoded the
    file then holds the body, also when the body is not JSON; in that
    case [None] is returned and one line is printed. *)
Theorem get_index_data_file_first w r j rest :
  net (client w) = Net (Answer r) j :: rest ->
  status_accepted r ->
  index_data_writable w = true ->
  encodable (text r) = true ->
  exists w',
    get_index_data w = (Done (decoded (text r)), w') /\
    index_data_json w' = Some (text r) /\
    output w'
    = output w ++ match loads (text r) with
                  | Some _ => []
                  | None => [u "获取首页信息失败: " ++ u "Expecting value"]
                  end.
Proof.
  intros Hn Ha Hw He.
  rewrite (get_index_data_answer _ Hn), (raise_for_status_accepted Ha), Hw, He.
  unfold decoded, output. destruct (loads (text r)) as [v|].
  - eexists. split; [reflexivity|]. split; [reflexivity|].
    cbn. symmetry. apply app_nil_r.
  - eexists. split; [reflexivity|]. split; reflexivity.
Qed.

Lemma get_index_data_file_first_witness :
  exists w',
    get_index_data (Examples.alone [Net (Answer (Response 200 (u "<html>busy</html>"))) []])
    = (Done JNull, w') /\
    index_data_json w' = Some (u "<html>busy</html>") /\
    output w' = [u "获取首页信息失败: " ++ u "Expecting value"].
Proof.
  destruct (@get_index_data_file_first
              (Examples.alone [Net (Answer (Response 200 (u "<html>busy</html>"))) []])
              (Response 200 (u "<html>busy</html>")) [] [] eq_refl)
    as (w' & E & Hf & Ho).
  - left. vm_compute. reflexivity.
  - reflexivity.
  - vm_compute. reflexivity.
  - exists w'. split; [exact E|]. split; [exact Hf|]. exact Ho.
Defined.

(** X18: where [index_data.json] cannot be written the index is lost:
    [get_index_data] returns [None] for every accepted reply, also one
    with a well-formed JSON body, and prints the failure of the write. *)
Theorem get_index_data_unwritable w r j rest :
  net (client w) = Net (Answer r) j :: rest ->
  status_accepted r ->
  index_data_writable w = false ->
  exists w',
    get_index_data w = (Done JNull, w') /\
    index_data_json w' = index_data_json w /\
    output w'
    = output w ++ [u "获取首页信息失败: " ++ u "[Errno 13] Permission denied: 'index_data.json'"].
Proof.
  intros Hn Ha Hw.
  rewrite (get_index_data_answer _ Hn), (raise_for_status_accepted Ha), Hw.
  eexists. split; [reflexivity|]. split; reflexivity.
Qed.

Lemma get_index_data_unwritable_witness :
  loads (dumps (Examples.index_reply 0 (JObj []))) = Some (Examples.index_reply 0 (JObj [])) /\
  fst (get_index_data
         (Examples.alone_read_only
            [Net (Answer (Response 200 (dumps (Examples.index_reply 0 (JObj []))))) []]))
  = Done JNull.
Proof.
  split; [vm_compute; reflexivity|].
  destruct (@get_index_data_unwritable
              (Examples.alone_read_only
                 [Net (Answer (Response 200 (dumps (Examples.index_reply 0 (JObj []))))) []])
              (Response 200 (dumps (Examples.index_reply 0 (JObj [])))) [] [] eq_refl)
    as (w' & E & _).
  - left. vm_compute. reflexivity.
  - reflexivity.
  - rewrite E. reflexivity.
Defined.

(** X19: when the request fails, by a transport fault or a status from
    400 to 599, [get_index_data] returns [None], prints one line and
    leaves [index_data.json] as it was. *)
Theorem get_index_data_failure w :
  ((exists msg j rest, net (client w) = Net (Fault msg) j :: rest) \/
   (exists r j rest, net (client w) = Net (Answer r) j :: rest /\ status_rejected r) \/
   net (client w) = []) ->
  exists w' msg,
    get_index_data w = (Done JNull, w') /\
    index_data_json w' = index_data_json w /\
    output w' = output w ++ [u "获取首页信息失败: " ++ msg].
Proof.
  intros [(msg & j & rest & Hn)|[(r & j & rest & Hn & Hr)|Hn]].
  - rewrite (get_index_data_fault _ Hn). eexists _, _. repeat split.
  - rewrite (get_index_data_answer _ Hn).
    destruct (raise_for_status_rejected Hr) as (msg & E). rewrite E.
    eexists _, _. repeat split.
  - rewrite (get_index_data_silence _ Hn). eexists _, _. repeat split.
Qed.

Lemma get_index_data_failure_witness :
  exists w',
    get_index_data (Examples.alone [Net (Answer (Response 502 (u "{}"))) []])
    = (Done JNull, w') /\
    index_data_json w' = None /\
    output w' = [u "获取首页信息失败: " ++ u "502 Server Error"].
Proof.
  destruct (@get_index_data_failure
              (Examples.alone [Net (Answer (Response 502 (u "{}"))) []]))
    as (w' & msg & E & Hf & Ho).
  - right. left. exists (Response 502 (u "{}")), [], []. split; [reflexivity|].
    unfold status_rejected. cbn. lia.
  - exists w'. split; [exact E|]. split; [exact Hf|].
    vm_compute in E. injection E as <-. reflexivity.
Defined.










(** ** [display_index_data] *)

Lemma wprint_run line w : wprint line w = (Done tt, wprinted line w).
Proof. reflexivity. Qed.

Lemma wprinted_lines_app a b w :
  wprinted_lines (a ++ b) w = wprinted_lines b (wprinted_lines a w).
Proof. apply fold_left_app. Qed.

(** Printing changes the lines printed, and nothing else. *)
Lemma wprinted_lines_output lines : forall w,
  output (wprinted_lines lines w) = output w ++ lines.
Proof.
  induction lines as [|l lines IH]; intros w; cbn [wprinted_lines fold_left].
  - symmetry. apply app_nil_r.
  - fold (wprinted_lines lines (wprinted l w)). rewrite IH.
    unfold output. cbn. rewrite <- app_assoc. reflexivity.
Qed.

Lemma wprinted_lines_keeps lines : forall w,
  let w' := wprinted_lines lines w in
  sent (client w') = sent (client w) /\ net (client w') = net (client w) /\
  cookies (client w') = cookies (client w) /\
  session_headers (client w') = session_headers (client w) /\
  cookies_json (client w') = cookies_json (client w) /\
  index_data_json w' = index_data_json w /\ sent_params w' = sent_params w /\
  stdin w' = stdin w /\ tty w' = tty w /\ prompts w' = prompts w.
Proof.
  induction lines as [|l lines IH]; intros w; cbn [wprinted_lines fold_left].
  - repeat split.
  - fold (wprinted_lines lines (wprinted l w)).
    destruct (IH (wprinted l w)) as (H1 & H2 & H3 & H4 & H5 & H6 & H7 & H8 & H9 & H10).
    cbn zeta. rewrite H1, H2, H3, H4, H5, H6, H7, H8, H9, H10. repeat split.
Qed.

Lemma wbind_done (A B : Type) (m : W A) (k : A -> W B) w a w1 :
  m w = (Done a, w1) -> wbind m k w = k a w1.
Proof. intros H. unfold wbind. rewrite H. reflexivity. Qed.

Lemma wbind_failed (A B : Type) (m : W A) (k : A -> W B) w e w1 :
  m w = (Failed e, w1) -> wbind m k w = (Failed e, w1).
Proof. intros H. unfold wbind. rewrite H. reflexivity. Qed.

(** *** The entries of a kind *)

Lemma numbered_from_length entries : forall i,
  List.length (numbered_from i entries) = List.length entries.
Proof.
  induction entries as [|e entries IH]; intros i; cbn [numbered_from List.length].
  - reflexivity.
  - rewrite IH. reflexivity.
Qed.

Lemma show_entries_from entries : forall n pre rest w,
  entries = pre ++ rest ->
  (n <= List.length rest)%nat ->
  for_each (seq (List.length pre) n)
    (fun i =>
       if (i <? List.length entries)%nat then
         (thread <- of_outcome (getitem_list entries i) ;;
          wprint (format_2d (Z.of_nat i + 1) ++ u ". " ++ title thread))%run
       else wret tt) w
  = (Done tt, wprinted_lines (firstn n (numbered_from (List.length pre) rest)) w).
Proof.
  induction n as [|n IH]; intros pre rest w He Hn.
  - reflexivity.
  - destruct rest as [|e rest]; [cbn in Hn; lia|].
    cbn [seq for_each].
    assert (Hlt : (List.length pre <? List.length entries)%nat = true).
    { apply Nat.ltb_lt. rewrite He, length_app. cbn. lia. }
    assert (Hnth : nth_error entries (List.length pre) = Some e).
    { rewrite He, nth_error_app2 by apply Nat.le_refl. rewrite Nat.sub_diag. reflexivity. }
    erewrite wbind_done;
      [|rewrite Hlt; unfold wbind, of_outcome, getitem_list; rewrite Hnth; apply wprint_run].
    assert (He' : entries = (pre ++ [e]) ++ rest) by (rewrite <- app_assoc; exact He).
    assert (Hl : List.length (pre ++ [e]) = S (List.length pre))
      by (rewrite length_app; cbn; lia).
    specialize (IH (pre ++ [e]) rest
                   (wprinted (format_2d (Z.of_nat (List.length pre) + 1) ++ u ". " ++ title e) w)
                   He').
    rewrite Hl in IH. rewrite IH by (cbn in Hn; lia).
    reflexivity.
Qed.

Lemma show_entries_run entries w :
  show_entries entries w = (Done tt, wprinted_lines (firstn 10 (numbered_from 0 entries)) w).
Proof.
  unfold show_entries.
  change (seq 0) with (seq (List.length (@nil entry))).
  rewrite (@show_entries_from entries (Nat.min (List.length entries) 10) [] entries w eq_refl)
    by apply Nat.le_min_l.
  cbn [List.length]. f_equal. f_equal.
  destruct (Nat.le_ge_cases (List.length entries) 10) as [H|H].
  - rewrite Nat.min_l by exact H.
    rewrite !firstn_all2; try reflexivity; rewrite numbered_from_length; [exact H|apply Nat.le_refl].
  - rewrite Nat.min_r by exact H. reflexivity.
Qed.

(** *** The latest activity *)

Lemma of_client_run (A : Type) (m : M A) w a st' :
  m (client w) = (Ret a, st') -> of_client m w = (Done a, with_client st' w).
Proof. intros H. unfold of_client. rewrite H. reflexivity. Qed.

(** The two ways the block of the latest activity ends. *)
Lemma show_latest_run parser w :
  exists j rest,
    (exists r replies posts,
        net (client w) = Net (Answer r) j :: rest /\ status_accepted r /\
        extract (parser (text r)) = Ret [(u "new_reply", replies); (u "new_post", posts)] /\
        show_latest parser w
        = (Done tt,
           wprinted_lines
             ([banner (u "最新动态"); u "最新回复:"]
                ++ firstn 10 (numbered_from 0 replies)
                ++ [[0x0A%N] ++ u "最新发表:"]
                ++ firstn 10 (numbered_from 0 posts))
             (fetched j rest w))) \/
    (exists msg,
        show_latest parser w
        = (Done tt,
           wprinted_lines
             [u "获取最新帖子信息失败: " ++ msg; banner (u "最新动态"); u "暂无最新动态"]
             (fetched j rest w))).
Proof.
  destruct (get_top_posts_forms parser (client w))
    as (j & rest & [(r & d & Hn & Ha & Ex & H)|(msg & H)]); exists j, rest.
  - left. destruct (extract_shape _ Ex) as (a & b & -> & _).
    exists r, a, b. repeat split; try assumption.
    unfold show_latest, wtry.
    erewrite wbind_done; [|apply of_client_run; exact H].
    cbv beta iota.
    erewrite wbind_done; [|apply wprint_run].
    change (dict_get (u "new_reply") [(u "new_reply", a); (u "new_post", b)]) with (Some a).
    change (dict_get (u "new_post") [(u "new_reply", a); (u "new_post", b)]) with (Some b).
    erewrite wbind_done; [|apply wprint_run].
    erewrite wbind_done; [|apply show_entries_run].
    erewrite wbind_done; [|apply wprint_run].
    rewrite show_entries_run.
    rewrite !wprinted_lines_app. reflexivity.
  - right. exists msg. unfold show_latest, wtry.
    erewrite wbind_done; [|apply of_client_run; exact H].
    cbv beta iota.
    erewrite wbind_done; [|apply wprint_run].
    rewrite wprint_run. reflexivity.
Qed.


(** *** The blocks that show the data *)

Lemma bound_ret (A : Type) (a : A) : data_bound (wret a).
Proof. intros w. exists []. left. exists a. reflexivity. Qed.

Lemma bound_print line : data_bound (wprint line).
Proof. intros w. exists [line]. left. exists tt. reflexivity. Qed.

Lemma bound_bind (A B : Type) (m : W A) (k : A -> W B) :
  data_bound m -> (forall a, data_bound (k a)) -> data_bound (wbind m k).
Proof.
  intros Hm Hk w. destruct (Hm w) as (l1 & [(a & E)|(e & He & E)]).
  - destruct (Hk a (wprinted_lines l1 w)) as (l2 & [(b & E2)|(e & He & E2)]);
      exists (l1 ++ l2); rewrite wprinted_lines_app, (@wbind_done _ _ _ _ _ _ _ E), E2.
    + left. exists b. reflexivity.
    + right. exists e. split; [exact He|reflexivity].
  - exists l1. right. exists e. split; [exact He|]. apply (@wbind_failed _ _ _ _ _ _ _ E).
Qed.

Lemma bound_get obj key default : data_bound (of_run (py_get obj key default)).
Proof.
  intros w. exists []. unfold of_run.
  destruct obj; cbn [py_get];
    try (right; eexists; split; [apply no_get|reflexivity]).
  left. eexists. reflexivity.
Qed.

Lemma bound_slice n obj : data_bound (of_run (slice_to n obj)).
Proof.
  intros w. exists []. unfold of_run.
  destruct obj; cbn [slice_to];
    try (left; eexists; reflexivity);
    try (right; eexists; split; [apply no_slice|reflexivity]).
  right. eexists. split; [apply no_dict_slice|reflexivity].
Qed.

Lemma bound_items obj : data_bound (of_run (items_of obj)).
Proof.
  intros w. exists []. unfold of_run.
  destruct obj; cbn [items_of];
    try (left; eexists; reflexivity);
    right; eexists; (split; [apply no_items|reflexivity]).
Qed.

Lemma bound_data m : data_bound (of_outcome (getitem (JObj m) (u "data"))).
Proof.
  intros w. exists []. unfold of_outcome. cbn [getitem].
  destruct (dict_get (u "data") m).
  - left. eexists. reflexivity.
  - right. eexists. split; [apply no_data|reflexivity].
Qed.

Lemma bound_str rp v : data_bound (of_run (py_str rp v)).
Proof.
  intros w. exists []. unfold of_run.
  destruct v as [|[|]| z | | | |]; cbn [py_str]; try (left; eexists; reflexivity).
  unfold str_of_int. destruct (_ <=? _)%N.
  - left. eexists. reflexivity.
  - right. eexists. split; [apply too_long|reflexivity].
Qed.

Lemma bound_for_each (A : Type) (xs : list A) (body : A -> W unit) :
  (forall x, data_bound (body x)) -> data_bound (for_each xs body).
Proof.
  intros Hb. induction xs as [|x xs IH]; cbn [for_each].
  - apply bound_ret.
  - apply bound_bind; [apply Hb|intros _; exact IH].
Qed.

Lemma bound_global_stat fl rp m : data_bound (show_global_stat fl rp (JObj m)).
Proof.
  unfold show_global_stat.
  apply bound_bind; [apply bound_data|intros d].
  apply bound_bind; [apply bound_get|intros global_stat].
  destruct (truth fl global_stat); [|apply bound_ret].
  do 4 (apply bound_bind; [apply bound_get|intros ?];
        apply bound_bind; [apply bound_str|intros ?]).
  apply bound_print.
Qed.

Lemma bound_announcements fl rp m : data_bound (show_announcements fl rp (JObj m)).
Proof.
  unfold show_announcements.
  apply bound_bind; [apply bound_data|intros d].
  apply bound_bind; [apply bound_get|intros announcements].
  destruct (truth fl announcements); [|apply bound_ret].
  apply bound_bind; [apply bound_print|intros _].
  apply bound_bind; [apply bound_slice|intros first].
  apply bound_bind; [apply bound_items|intros each].
  apply bound_for_each. intros announcement.
  apply bound_bind; [apply bound_get|intros t].
  apply bound_bind; [apply bound_str|intros t']. apply bound_print.
Qed.

Lemma bound_forums fl rp m : data_bound (show_forums fl rp (JObj m)).
Proof.
  unfold show_forums.
  apply bound_bind; [apply bound_data|intros d].
  apply bound_bind; [apply bound_get|intros forum_list].
  destruct (truth fl forum_list); [|apply bound_ret].
  apply bound_bind; [apply bound_print|intros _].
  apply bound_bind; [apply bound_items|intros forums].
  apply bound_for_each. intros forum.
  apply bound_bind; [apply bound_get|intros nm].
  apply bound_bind; [apply bound_str|intros nm_text].
  apply bound_bind; [apply bound_get|intros fid].
  apply bound_bind; [apply bound_str|intros fid_text].
  apply bound_bind; [apply bound_print|intros _].
  apply bound_bind; [apply bound_get|intros children].
  destruct (truth fl children); [|apply bound_ret].
  apply bound_bind; [apply bound_items|intros each].
  apply bound_for_each. intros child.
  apply bound_bind; [apply bound_get|intros nm'].
  apply bound_bind; [apply bound_str|intros nm_text'].
  apply bound_bind; [apply bound_get|intros fid'].
  apply bound_bind; [apply bound_str|intros fid_text'].
  apply bound_print.
Qed.

(** The condition of the first statement. *)
Lemma refused_cases fl data :
  refused fl data = Done true \/
  (exists m, data = JObj m /\ refused fl data = Done false) \/
  (exists e, shape_error e /\ refused fl data = Failed e).
Proof.
  unfold refused. destruct (truth fl data); [|left; reflexivity].
  destruct data; cbn [py_get];
    try (right; right; eexists; split; [apply no_get|reflexivity]).
  destruct (differs_from_zero fl _).
  - left. reflexivity.
  - right. left. eexists. split; reflexivity.
Qed.

(** How [display_index_data] ends, and what it leaves behind: nothing
    but lines printed, before and after at most one fetch of the front
    page. *)
Lemma display_index_data_forms parser fl rp data w :
  exists r w',
    display_index_data parser fl rp data w = (r, w') /\
    (r = Done tt \/ exists e, r = Failed e /\ shape_error e) /\
    ((exists lines, w' = wprinted_lines lines w) \/
     (exists before j rest after,
         w' = wprinted_lines after (fetched j rest (wprinted_lines before w)))).
Proof.
  unfold display_index_data.
  destruct (refused_cases fl data) as [E|[(m & -> & E)|(e & He & E)]].
  - erewrite wbind_done; [|unfold of_run; rewrite E; reflexivity].
    cbv beta iota.
    rewrite wprint_run. eexists _, _. split; [reflexivity|]. split; [left; reflexivity|].
    left. exists [u "获取首页数据失败"]. reflexivity.
  - erewrite wbind_done; [|unfold of_run; rewrite E; reflexivity].
    cbv beta iota.
    erewrite wbind_done; [|apply wprint_run].
    destruct (bound_global_stat fl rp m (wprinted (banner (u "清水河畔论坛首页")) w))
      as (l1 & [([] & E1)|(e & He & E1)]).
    2:{ rewrite (@wbind_failed _ _ _ _ _ _ _ E1). eexists _, _. split; [reflexivity|].
        split; [right; exists e; split; [reflexivity|exact He]|].
        left. exists (banner (u "清水河畔论坛首页") :: l1). reflexivity. }
    rewrite (@wbind_done _ _ _ _ _ _ _ E1).
    destruct (bound_announcements fl rp m
                (wprinted_lines l1 (wprinted (banner (u "清水河畔论坛首页")) w)))
      as (l2 & [([] & E2)|(e & He & E2)]).
    2:{ rewrite (@wbind_failed _ _ _ _ _ _ _ E2). eexists _, _. split; [reflexivity|].
        split; [right; exists e; split; [reflexivity|exact He]|].
        left. exists ((banner (u "清水河畔论坛首页") :: l1) ++ l2).
        rewrite wprinted_lines_app. reflexivity. }
    rewrite (@wbind_done _ _ _ _ _ _ _ E2).
    set (w2 := wprinted_lines l2 (wprinted_lines l1 (wprinted (banner (u "清水河畔论坛首页")) w))).
    assert (Hw2 : w2 = wprinted_lines ((banner (u "清水河畔论坛首页") :: l1) ++ l2) w)
      by (rewrite wprinted_lines_app; reflexivity).
    assert (H3 : exists j rest l3,
               show_latest parser w2 = (Done tt, wprinted_lines l3 (fetched j rest w2))).
    { destruct (show_latest_run parser w2)
        as (j & rest & [(r & a & b & _ & _ & _ & H)|(msg & H)]);
        exists j, rest; eexists; exact H. }
    destruct H3 as (j & rest & l3 & E3). rewrite (@wbind_done _ _ _ _ _ _ _ E3).
    destruct (bound_forums fl rp m (wprinted_lines l3 (fetched j rest w2)))
      as (l4 & [([] & E4)|(e & He & E4)]).
    2:{ rewrite (@wbind_failed _ _ _ _ _ _ _ E4). eexists _, _. split; [reflexivity|].
        split; [right; exists e; split; [reflexivity|exact He]|].
        right. exists ((banner (u "清水河畔论坛首页") :: l1) ++ l2), j, rest, (l3 ++ l4).
        rewrite <- Hw2, wprinted_lines_app. reflexivity. }
    rewrite (@wbind_done _ _ _ _ _ _ _ E4), wprint_run.
    eexists _, _. split; [reflexivity|]. split; [left; reflexivity|].
    right. exists ((banner (u "清水河畔论坛首页") :: l1) ++ l2), j, rest,
           ((l3 ++ l4) ++ [banner (u "首页信息获取完成")]).
    rewrite <- Hw2, !wprinted_lines_app. reflexivity.
  - erewrite wbind_failed; [|unfold of_run; rewrite E; reflexivity].
    eexists _, _. split; [reflexivity|].
    split; [right; exists e; split; [reflexivity|exact He]|].
    left. exists []. reflexivity.
Qed.

(** X22: the first statement of [display_index_data].  Data that is
    empty ([None], an empty dict, ...) and a dict whose [code] is
    missing or differs from 0 are refused: one line is printed, nothing
    else happens, and no request is sent. *)
Theorem display_index_data_refused parser fl rp data w :
  truth fl data = false \/
  (exists m, data = JObj m /\ differs_from_zero fl (member (u "code") JNull data) = true) ->
  display_index_data parser fl rp data w = (Done tt, wprinted (u "获取首页数据失败") w).
Proof.
  intros H.
  assert (E : refused fl data = Done true).
  { unfold refused. destruct H as [H|(m & -> & H)].
    - rewrite H. reflexivity.
    - destruct (truth fl (JObj m)); [|reflexivity].
      cbn [py_get]. cbn [member] in H. rewrite H. reflexivity. }
  unfold display_index_data.
  erewrite wbind_done; [|unfold of_run; rewrite E; reflexivity].
  reflexivity.
Qed.

Lemma display_index_data_refused_witness :
  display_index_data (Examples.parsed Examples.good_page) Examples.nonzero Examples.dots
                     (JObj [(u "code", JInt 1); (u "data", JObj [])])
                     (Examples.alone Examples.front)
  = (Done tt, wprinted (u "获取首页数据失败") (Examples.alone Examples.front)).
Proof.
  apply display_index_data_refused.
  right. eexists. split; reflexivity.
Defined.



(** What lines printed around at most one fetch of the front page leave
    as it was. *)
Lemma shown_keeps w w' :
  (exists lines, w' = wprinted_lines lines w) \/
  (exists before j rest after,
      w' = wprinted_lines after (fetched j rest (wprinted_lines before w))) ->
  exists lines,
    output w' = output w ++ lines /\
    (sent (client w') = sent (client w) \/
     sent (client w')
     = sent (client w)
       ++ [Sent page_request (cookies (client w)) (session_headers (client w))]) /\
    session_headers (client w') = session_headers (client w) /\
    cookies_json (client w') = cookies_json (client w) /\
    index_data_json w' = index_data_json w /\
    sent_params w' = sent_params w /\
    stdin w' = stdin w /\ tty w' = tty w /\ prompts w' = prompts w.
Proof.
  intros [(lines & ->)|(l1 & j & rest & l2 & ->)].
  - exists lines. split; [apply wprinted_lines_output|].
    destruct (wprinted_lines_keeps lines w) as (H1 & H2 & H3 & H4 & H5 & H6 & H7 & H8 & H9 & H10).
    split; [left; exact H1|]. repeat split; assumption.
  - exists (l1 ++ l2).
    destruct (wprinted_lines_keeps l1 w) as (H1 & H2 & H3 & H4 & H5 & H6 & H7 & H8 & H9 & H10).
    destruct (wprinted_lines_keeps l2 (fetched j rest (wprinted_lines l1 w)))
      as (K1 & K2 & K3 & K4 & K5 & K6 & K7 & K8 & K9 & K10).
    cbn zeta in *.
    split.
    { rewrite wprinted_lines_output. unfold output at 1.
      cbn [fetched with_client client answered stdout].
      fold (output (wprinted_lines l1 w)). rewrite wprinted_lines_output, app_assoc.
      reflexivity. }
    split.
    { right. rewrite K1. cbn [fetched with_client client answered sent].
      rewrite H1, H3, H4. reflexivity. }
    rewrite K4, K5, K6, K7, K8, K9, K10.
    cbn [fetched with_client client answered session_headers cookies_json index_data_json
         sent_params stdin tty prompts].
    repeat split; assumption.
Qed.

(** X24: [display_index_data] sends at most one request, the GET of the
    front page without a timeout, and apart from that only prints: the
    headers, [cookies.json], [index_data.json] and the keyboard are left
    alone, and the lines printed before stay. *)
Theorem display_index_data_effects parser fl rp data w :
  exists r w' lines,
    display_index_data parser fl rp data w = (r, w') /\
    output w' = output w ++ lines /\
    (sent (client w') = sent (client w) \/
     sent (client w')
     = sent (client w)
       ++ [Sent page_request (cookies (client w)) (session_headers (client w))]) /\
    session_headers (client w') = session_headers (client w) /\
    cookies_json (client w') = cookies_json (client w) /\
    index_data_json w' = index_data_json w /\
    sent_params w' = sent_params w /\
    stdin w' = stdin w /\ tty w' = tty w /\ prompts w' = prompts w.
Proof.
  destruct (display_index_data_forms parser fl rp data w) as (r & w' & E & _ & Hw).
  destruct (@shown_keeps w w' Hw) as (lines & H).
  exists r, w', lines. split; [exact E|exact H].
Qed.

(** *** The announcements *)





(** ** [main] *)

Lemma main_parts parser dh fl rp :
  main parser dh fl rp
  = wtry (new_WebAPI dh None None true ;; show_index parser fl rp)%run
         (on_failure parser dh fl rp).
Proof. reflexivity. Qed.


Lemma wtry_caught (A : Type) (body : W A) (handler : error -> W A) w e w1 :
  body w = (Failed e, w1) -> is_Exception e = true -> wtry body handler w = handler e w1.
Proof. intros H He. unfold wtry. rewrite H, He. reflexivity. Qed.




(** The constructor with [autoLogin]. *)
Lemma init_auto dh user pass st :
  exists st1,
    load_saved_cookies (fresh dh user pass st) = (Ret tt, st1) /\
    __init__ dh user pass true st
    = if truthy user && truthy pass then
        match login st1 with
        | (Ret _, st2) => (Ret tt, st2)
        | (Raise e, st2) => (Raise e, st2)
        end
      else
        match check_login_status st1 with
        | (Ret true, st2) => (Ret tt, printed (u "已进入主页") st2)
        | (Ret false, st2) => (Raise (Exn Exception (u "Cookie已失效或不存在")), st2)
        | (Raise e, st2) => (Raise e, st2)
        end.
Proof.
  destruct (load_saved_cookies_effect (fresh dh user pass st)) as (st1 & El & _).
  exists st1. split; [exact El|].
  unfold __init__, bind. rewrite new_session_run, El. cbn [andb].
  destruct (truthy user && truthy pass).
  - destruct (login st1) as [[b|e] st2]; reflexivity.
  - destruct (check_login_status st1) as [[[|]|e] st2]; reflexivity.
Qed.





Lemma exit_run prefix e w :
  (wprint (prefix ++ error_text e) ;; sys_exit 1)%run w
  = (Failed (SystemExit 1), wprinted (prefix ++ error_text e) w).
Proof. reflexivity. Qed.


Lemma input_run prompt w :
  input prompt w
  = match stdin w with
    | [] => (Failed EOFError, answered_input prompt [] w)
    | line :: rest => (Done line, answered_input prompt rest w)
    end.
Proof. unfold input. destruct (stdin w); reflexivity. Qed.

Lemma getpass_run prompt w :
  getpass prompt w
  = match tty w with
    | [] => (Failed EOFError, answered_getpass prompt [] w)
    | line :: rest => (Done line, answered_getpass prompt rest w)
    end.
Proof. unfold getpass. destruct (tty w); reflexivity. Qed.

Lemma on_failure_cookie parser dh fl rp w :
  on_failure parser dh fl rp (Raised (Exn Exception (u "Cookie已失效或不存在"))) w
  = match stdin w with
    | [] =>
      (Failed EOFError, answered_input name_prompt [] (wprinted (u "Cookie已失效或不存在") w))
    | name :: more =>
      match tty w with
      | [] =>
        (Failed EOFError,
         answered_getpass password_prompt []
           (answered_input name_prompt more (wprinted (u "Cookie已失效或不存在") w)))
      | secret :: more' =>
        login_and_show parser dh fl rp name secret
          (answered_getpass password_prompt more'
             (answered_input name_prompt more (wprinted (u "Cookie已失效或不存在") w)))
      end
    end.
Proof.
  unfold on_failure. cbn [error_text message].
  replace (py_in (u "Cookie已失效或不存在") (u "Cookie已失效或不存在")) with true
    by (vm_compute; reflexivity).
  erewrite wbind_done; [|apply wprint_run].
  fold name_prompt password_prompt.
  assert (Hs : stdin (wprinted (u "Cookie已失效或不存在") w) = stdin w) by reflexivity.
  destruct (stdin w) as [|name more].
  - apply wbind_failed. rewrite input_run, Hs. reflexivity.
  - erewrite wbind_done; [|rewrite input_run, Hs; reflexivity].
    assert (Ht : tty (answered_input name_prompt more (wprinted (u "Cookie已失效或不存在") w))
                 = tty w) by reflexivity.
    destruct (tty w) as [|secret more'].
    + apply wbind_failed. rewrite getpass_run, Ht. reflexivity.
    + erewrite wbind_done; [|rewrite getpass_run, Ht; reflexivity]. reflexivity.
Qed.



(** What the probe does on an answer that shows no session. *)
Lemma probe_fails_run st a rest :
  net st = a :: rest -> probe_fails a ->
  check_login_status st = (Ret false, answered probe_request (net_cookies a) rest st).
Proof.
  destruct a as [[r|msg] j]; unfold probe_fails; cbn [net_answer_of net_cookies]; intros Hn H.
  - rewrite (check_login_status_answer _ Hn).
    destruct H as [H|H].
    + destruct (raise_for_status_rejected H) as (m & ->). reflexivity.
    + rewrite H. destruct (Requests.raise_for_status r); reflexivity.
  - apply (check_login_status_fault _ Hn).
Qed.

(** A construction that probes, when there are no saved cookies and the
    probe shows no session. *)
Lemma construction_probe_fails dh user pass w a rest :
  truthy user && truthy pass = false ->
  cookies_json (client w) = None ->
  net (client w) = a :: rest -> probe_fails a ->
  new_WebAPI dh user pass true w
  = (Failed (Raised (Exn Exception (u "Cookie已失效或不存在"))),
     with_client (answered probe_request (net_cookies a) rest (fresh dh user pass (client w))) w).
Proof.
  intros Hc Hf Hn Hp. unfold new_WebAPI, of_client.
  destruct (init_auto dh user pass (client w)) as (st1 & El & ->).
  rewrite load_saved_cookies_run in El. cbn [cookies_json fresh] in El. rewrite Hf in El.
  injection El as <-. rewrite Hc.
  rewrite (@probe_fails_run (fresh dh user pass (client w)) a rest Hn Hp). reflexivity.
Qed.


(** The start of [main] when there are no saved cookies, the probe
    shows no session, and a name and a password are typed. *)
Lemma main_asks parser dh fl rp w a rest (name : pystr) more (secret : pystr) more' :
  cookies_json (client w) = None ->
  net (client w) = a :: rest -> probe_fails a ->
  stdin w = name :: more -> tty w = secret :: more' ->
  main parser dh fl rp w
  = login_and_show parser dh fl rp name secret
      (answered_getpass password_prompt more'
         (answered_input name_prompt more
            (wprinted (u "Cookie已失效或不存在")
               (with_client
                  (answered probe_request (net_cookies a) rest (fresh dh None None (client w)))
                  w)))).
Proof.
  intros Hf Hn Hp Hs Ht. rewrite main_parts.
  erewrite wtry_caught;
    [|apply wbind_failed; apply (@construction_probe_fails dh None None w a rest eq_refl Hf Hn Hp)
     |reflexivity].
  rewrite on_failure_cookie. cbn [stdin tty with_client]. rewrite Hs, Ht. reflexivity.
Qed.







(** X30: an empty answer at a prompt.  When the name or the password
    typed is empty, the second construction does not log in: it probes
    the session again, and when that shows no session either, [main]
    reports the cookies and exits with status 1.  Only the two probes
    have been sent. *)
Theorem main_empty_answer parser dh fl rp w a b rest
        (name : pystr) more (secret : pystr) more' :
  cookies_json (client w) = None ->
  net (client w) = a :: b :: rest ->
  probe_fails a -> probe_fails b ->
  stdin w = name :: more -> tty w = secret :: more' ->
  name = [] \/ secret = [] ->
  exists w',
    main parser dh fl rp w = (Failed (SystemExit 1), w') /\
    output w'
    = output w ++ [u "Cookie已失效或不存在"; u "正在登录...";
                   u "发生错误: " ++ u "Cookie已失效或不存在"] /\
    sent (client w')
    = sent (client w) ++ [Sent probe_request [] dh; Sent probe_request [] dh].
Proof.
  intros Hf Hn Hpa Hpb Hs Ht He.
  rewrite (main_asks parser dh fl rp w Hf Hn Hpa Hs Ht).
  set (w2 := answered_getpass _ _ _).
  assert (Hc : truthy (Some name) && truthy (Some secret) = false).
  { destruct He as [-> | ->]; [reflexivity|]. cbn. apply andb_false_r. }
  assert (Hf2 : cookies_json (client (wprinted (u "正在登录...") w2)) = None) by exact Hf.
  assert (Hn2 : net (client (wprinted (u "正在登录...") w2)) = b :: rest) by reflexivity.
  pose proof (@construction_probe_fails dh (Some name) (Some secret)
                (wprinted (u "正在登录...") w2) b rest Hc Hf2 Hn2 Hpb) as Ec.
  unfold login_and_show.
  erewrite wtry_caught;
    [|erewrite wbind_done; [|apply wprint_run]; apply wbind_failed; exact Ec|reflexivity].
  cbn [is_HepanException isinstance cls exn_class_eqb]. rewrite exit_run.
  eexists. split; [reflexivity|]. split.
  - unfold output. cbn. rewrite <- !app_assoc. reflexivity.
  - cbn. rewrite <- !app_assoc. reflexivity.
Qed.

Lemma main_empty_answer_witness :
  exists w',
    main (Examples.parsed Examples.good_page) [] Examples.nonzero Examples.dots
         (Examples.typing [] (u "s3cret")
            [Net (Fault (u "Read timed out.")) []; Net (Answer Examples.wrong_password) []])
    = (Failed (SystemExit 1), w') /\
    sent (client w') = [Sent probe_request [] []; Sent probe_request [] []].
Proof.
  destruct (@main_empty_answer
              (Examples.parsed Examples.good_page) [] Examples.nonzero Examples.dots
              (Examples.typing [] (u "s3cret")
                 [Net (Fault (u "Read timed out.")) []; Net (Answer Examples.wrong_password) []])
              (Net (Fault (u "Read timed out.")) []) (Net (Answer Examples.wrong_password) []) []
              [] [] (u "s3cret") [] eq_refl eq_refl I)
    as (w' & E & _ & Hs).
  - right. vm_compute. reflexivity.
  - reflexivity.
  - reflexivity.
  - left. reflexivity.
  - exists w'. split; [exact E|exact Hs].
Defined.
